(** * FinWell: query routing, sentiment aggregation and response formatting

    A shallow embedding of the pure logic of the FinWell agents:

    - [advisor/advisor_agent.py]: keyword routing ([route_message]);
    - [crypto/token-sentiment-tracker-main/agent.py]: token extraction
      ([extract_token_from_query]), the scoring phase of
      [analyze_sentiment], the numeric helpers [format_currency] and
      [format_percent], and the chat handler;
    - [health/insurance_info.py]: query extraction, sentiment bucketing,
      [format_insurance_response] and the chat handler;
    - [health/insurance_agent.py] and [health/main.py]: the serious-condition
      keyword checks.
    - also covered: the start-up log of the API key, the request and the
      retry loop of [get_token_outlook], [fallback_analysis],
      [get_insurance_analysis] with its fallback, the plans of
      [suggest_insurance] and one turn of the health CLI;
    - [health/collector_agent.py], [health/analyser_agent.py] and
      [health/asi1_wrapper_agent.py]: the handlers a health query passes
      through.

    Conventions.  Python [str] values are modelled as [string] (sequences of
    8-bit characters; case mapping and character classes are the ASCII ones).
    Python floats are modelled as exact rationals [Q], a decimal literal
    standing for its decimal value.  Where the rounding of a float operation
    decides a property (the order in which scores are added), the scores
    are primitive binary64 values, in [Binary64].  Calls that leave the process (the VADER
    scorer, HTTP fetches, the wall clock) are explicit parameters. *)

From Corelib Require Import PrimFloat.
From Stdlib Require Import String Ascii List Bool Arith ZArith QArith Qabs Lia Lqa Permutation.
From Stdlib Require Import Decimal DecimalString.
Import ListNotations.

Local Open Scope list_scope.
Local Open Scope string_scope.

(* ================================================================== *)
(** * Python string primitives *)
(* ================================================================== *)

Module Py.

Definition in_range (lo hi : nat) (c : ascii) : bool :=
  let n := nat_of_ascii c in (lo <=? n)%nat && (n <=? hi)%nat.

Definition is_upper (c : ascii) : bool := in_range 65 90 c.
Definition is_lower (c : ascii) : bool := in_range 97 122 c.
Definition is_digit (c : ascii) : bool := in_range 48 57 c.
Definition is_alpha (c : ascii) : bool := is_upper c || is_lower c.

(** [\w] of the [re] module: letters, digits and the underscore. *)
Definition is_word (c : ascii) : bool :=
  is_alpha c || is_digit c || Ascii.eqb c "_".

(** [str.isspace]: TAB, LF, VT, FF, CR, the separators FS..US and SPACE. *)
Definition is_space (c : ascii) : bool :=
  in_range 9 13 c || in_range 28 32 c.

Definition lower_char (c : ascii) : ascii :=
  if is_upper c then ascii_of_nat (nat_of_ascii c + 32) else c.

Definition upper_char (c : ascii) : ascii :=
  if is_lower c then ascii_of_nat (nat_of_ascii c - 32) else c.

(** [s.lower()] *)
Fixpoint lower (s : string) : string :=
  match s with
  | EmptyString => EmptyString
  | String c s' => String (lower_char c) (lower s')
  end.

(** [s.upper()] *)
Fixpoint upper (s : string) : string :=
  match s with
  | EmptyString => EmptyString
  | String c s' => String (upper_char c) (upper s')
  end.

(** [needle in hay] on strings: [needle] occurs as a contiguous substring. *)
Fixpoint contains (needle hay : string) : bool :=
  match hay with
  | EmptyString => String.prefix needle hay
  | String _ hay' => String.prefix needle hay || contains needle hay'
  end.

(** [any(k in text for k in keywords)] *)
Definition any_in (keywords : list string) (text : string) : bool :=
  existsb (fun k => contains k text) keywords.

(** [s.lstrip()], [s.rstrip()], [s.strip()] *)
Fixpoint lstrip (s : string) : string :=
  match s with
  | EmptyString => EmptyString
  | String c s' => if is_space c then lstrip s' else s
  end.

Fixpoint rstrip (s : string) : string :=
  match s with
  | EmptyString => EmptyString
  | String c s' =>
      match rstrip s' with
      | EmptyString => if is_space c then EmptyString else String c EmptyString
      | r => String c r
      end
  end.

Definition strip (s : string) : string := rstrip (lstrip s).

(** [sep.join(parts)] *)
Definition join (sep : string) (parts : list string) : string :=
  String.concat sep parts.

(** [s[:n]] *)
Definition take (n : nat) (s : string) : string := String.substring 0 n s.

(** [s.replace(c, "")] for a one-character [c]. *)
Fixpoint remove_char (c : ascii) (s : string) : string :=
  match s with
  | EmptyString => EmptyString
  | String d s' => if Ascii.eqb c d then remove_char c s' else String d (remove_char c s')
  end.

(** [s.title()]: a letter that follows a non-letter is upper-cased, any
    other letter is lower-cased. *)
Fixpoint title_from (prev_cased : bool) (s : string) : string :=
  match s with
  | EmptyString => EmptyString
  | String c s' =>
      String (if is_alpha c then (if prev_cased then lower_char c else upper_char c) else c)
             (title_from (is_alpha c) s')
  end.

Definition title (s : string) : string := title_from false s.

(** [s.split()]: the maximal runs of non-whitespace characters. *)
Fixpoint split_ws_from (cur : string) (s : string) : list string :=
  match s with
  | EmptyString => match cur with EmptyString => [] | _ => [cur] end
  | String c s' =>
      if is_space c
      then match cur with
           | EmptyString => split_ws_from EmptyString s'
           | _ => cur :: split_ws_from EmptyString s'
           end
      else split_ws_from (cur ++ String c EmptyString) s'
  end.

Definition split_ws (s : string) : list string := split_ws_from EmptyString s.

(** ** The two regular expressions of [extract_token_from_query]

    Matching is modelled position by position; [prev] is the character just
    before the current position ([None] at the start of the string). *)

Definition is_word_opt (o : option ascii) : bool :=
  match o with Some c => is_word c | None => false end.

Definition head (s : string) : option ascii :=
  match s with EmptyString => None | String c _ => Some c end.

(** [\b]: exactly one side of the position is a word character. *)
Definition word_boundary (prev : option ascii) (rest : string) : bool :=
  xorb (is_word_opt prev) (is_word_opt (head rest)).

(** Match the literal [lit] at the current position; on success return the
    last character consumed and the remaining input. *)
Fixpoint match_literal (lit : string) (prev : option ascii) (s : string)
  : option (option ascii * string) :=
  match lit with
  | EmptyString => Some (prev, s)
  | String c lit' =>
      match s with
      | EmptyString => None
      | String d s' => if Ascii.eqb c d then match_literal lit' (Some d) s' else None
      end
  end.

(** [\b<lit>\b] anchored at the current position. *)
Definition match_word_at (lit : string) (prev : option ascii) (s : string) : bool :=
  word_boundary prev s &&
  match match_literal lit prev s with
  | Some (p, r) => word_boundary p r
  | None => false
  end.

(** [re.search(r'\b' + re.escape(lit) + r'\b', s)] is not [None]. *)
Fixpoint search_word_from (lit : string) (prev : option ascii) (s : string) : bool :=
  match_word_at lit prev s ||
  match s with
  | EmptyString => false
  | String c s' => search_word_from lit (Some c) s'
  end.

Definition re_search_word (lit s : string) : bool := search_word_from lit None s.

(** Exactly [n] characters of [[A-Za-z]] at the current position. *)
Fixpoint take_letters (n : nat) (prev : option ascii) (s : string)
  : option (string * option ascii * string) :=
  match n with
  | O => Some (EmptyString, prev, s)
  | S k =>
      match s with
      | EmptyString => None
      | String c s' =>
          if is_alpha c
          then match take_letters k (Some c) s' with
               | Some (m, p, r) => Some (String c m, p, r)
               | None => None
               end
          else None
      end
  end.

Definition letters_then_boundary (n : nat) (prev : option ascii) (s : string)
  : option string :=
  match take_letters n prev s with
  | Some (m, p, r) => if word_boundary p r then Some m else None
  | None => None
  end.

(** [\b[A-Za-z]{3,5}\b] anchored at the current position: the greedy
    quantifier tries five letters, then four, then three. *)
Definition match_generic_at (prev : option ascii) (s : string) : option string :=
  if word_boundary prev s then
    match letters_then_boundary 5 prev s with
    | Some m => Some m
    | None =>
        match letters_then_boundary 4 prev s with
        | Some m => Some m
        | None => letters_then_boundary 3 prev s
        end
    end
  else None.

(** [re.findall(r'\b[A-Za-z]{3,5}\b', s)]: leftmost non-overlapping matches.
    [skip] counts the characters of the previous match still to be passed. *)
Fixpoint findall_from (skip : nat) (prev : option ascii) (s : string) : list string :=
  match s with
  | EmptyString => []
  | String c s' =>
      match skip with
      | S k => findall_from k (Some c) s'
      | O =>
          match match_generic_at prev s with
          | Some m => m :: findall_from (String.length m - 1) (Some c) s'
          | None => findall_from 0 (Some c) s'
          end
      end
  end.

Definition re_findall_generic (s : string) : list string := findall_from 0 None s.

End Py.

(* ================================================================== *)
(** * advisor/advisor_agent.py *)
(* ================================================================== *)

Module Advisor.

Definition ANALYST_ADDRESS := "agent1q0ejvvp7x302ulx05389ncdfellmag6up4d2raa9v7dfrjarh4v52237sq7".
Definition NEWS_ADDRESS := "agent1xyz...".
Definition CRYPTO_ADDRESS := "agent1q0h70caed8ax769shpemapzkyk65uscw4xwk6dc4t3emvp5jdcvqs9xs32y".
Definition SOLANA_ADDRESS := "agent1q0h70caed8ax769shpemapzkyk65uscw4xwk6dc4t3emvp5jdcvqs9xs32y".
Definition HEALTH_ADDRESS := "agent1qv3dag4483k5dv4wkcncy65xpyrq4hgwk6nvuf0xzrhfz33cxaqj6xpg9c7".

Inductive domain : Type := stock | crypto | health | unknown.

Record ChatMessage : Type := { sender : string; content : string }.

(** The branch of the [if]/[elif] cascade taken for the lower-cased
    content. *)
Definition route_branch (content : string) : domain :=
  if Py.contains "stock" content || Py.contains "share" content || Py.contains "market" content
  then stock
  else if Py.contains "crypto" content || Py.contains "bitcoin" content || Py.contains "solana" content
  then crypto
  else if Py.contains "health" content || Py.contains "symptom" content || Py.contains "insurance" content
  then health
  else unknown.

(** [route_message]: the list of [ctx.send(destination, text)] calls. *)
Definition route_message (msg : ChatMessage) : list (string * string) :=
  match route_branch (Py.lower msg.(content)) with
  | stock => [(ANALYST_ADDRESS, msg.(content)); (NEWS_ADDRESS, msg.(content))]
  | crypto => [(CRYPTO_ADDRESS, msg.(content)); (SOLANA_ADDRESS, msg.(content))]
  | health => [(HEALTH_ADDRESS, msg.(content))]
  | unknown => [(msg.(sender), "❓ Sorry, I couldn't understand your query.")]
  end.

(** The domain a text is classified into. *)
Definition classify_domain (text : string) : domain := route_branch (Py.lower text).

(** The spec's reading of the same decision: an ordered list of keyword
    sets, the first domain with a matching keyword wins. *)
Definition domain_keywords : list (domain * list string) :=
  [ (stock,  ["stock"; "share"; "market"]);
    (crypto, ["crypto"; "bitcoin"; "solana"]);
    (health, ["health"; "symptom"; "insurance"]) ].

Definition first_matching_domain (text : string) : domain :=
  match find (fun dk => Py.any_in (snd dk) (Py.lower text)) domain_keywords with
  | Some dk => fst dk
  | None => unknown
  end.

End Advisor.

(* ================================================================== *)
(** * Python number formatting *)
(* ================================================================== *)

Module PyNum.

(** [str(n)] for a non-negative integer. *)
Definition dec (z : Z) : string := NilZero.string_of_uint (N.to_uint (Z.to_N z)).

(** [str(n)] for any integer. *)
Definition str_int (z : Z) : string :=
  if (z <? 0)%Z then "-" ++ dec (- z) else dec z.

(** Left-pad with zeros up to [width] characters. *)
Fixpoint zeros (n : nat) : string :=
  match n with O => EmptyString | S k => String "0" (zeros k) end.

Definition zfill (width : nat) (s : string) : string :=
  zeros (width - String.length s) ++ s.

(** Round a non-negative rational to the nearest integer, ties to even. *)
Definition round_half_even (q : Q) : Z :=
  let n := Qnum q in
  let d := Zpos (Qden q) in
  let f := (n / d)%Z in
  let r := (n mod d)%Z in
  if (2 * r <? d)%Z then f
  else if (d <? 2 * r)%Z then (f + 1)%Z
  else if Z.even f then f else (f + 1)%Z.

(** The digits of [abs q] rounded to [digits] decimals: integer part and
    fractional part. *)
Definition fixed_digits (digits : nat) (q : Q) : string * string :=
  let p := (10 ^ Z.of_nat digits)%Z in
  let scaled := round_half_even (Qabs q * inject_Z p) in
  (dec (scaled / p), zfill digits (dec (scaled mod p))).

Definition sign_of (q : Q) : string := if Qle_bool 0 q then "" else "-".

Definition fraction_of (digits : nat) (fp : string) : string :=
  match digits with O => "" | S _ => "." ++ fp end.

(** [f'{q:.<digits>f}'] *)
Definition format_fixed (digits : nat) (q : Q) : string :=
  let '(ip, fp) := fixed_digits digits q in
  sign_of q ++ ip ++ fraction_of digits fp.

(** Insert [","] between groups of three digits, counted from the right. *)
Fixpoint group_thousands (s : string) : string :=
  match s with
  | EmptyString => EmptyString
  | String c s' =>
      String c (if (0 <? String.length s')%nat && (String.length s' mod 3 =? 0)%nat
                then String "," (group_thousands s')
                else group_thousands s')
  end.

(** [f'{q:,.<digits>f}'] *)
Definition format_fixed_grouped (digits : nat) (q : Q) : string :=
  let '(ip, fp) := fixed_digits digits q in
  sign_of q ++ group_thousands ip ++ fraction_of digits fp.

(** [f'{n:,}'] for an integer. *)
Definition format_int_grouped (z : Z) : string :=
  if (z <? 0)%Z then "-" ++ group_thousands (dec (- z)) else group_thousands (dec z).

End PyNum.

(* ================================================================== *)
(** * The wall clock *)
(* ================================================================== *)

Module Clock.

(** A [datetime] value, as [datetime.now()] returns it. *)
Record datetime : Type := {
  year : Z; month : nat; day : nat;
  hour : nat; minute : nat; second : nat; microsecond : nat
}.

Definition month_names : list string :=
  [ "January"; "February"; "March"; "April"; "May"; "June"; "July";
    "August"; "September"; "October"; "November"; "December" ].

Definition two (n : nat) : string := PyNum.zfill 2 (PyNum.dec (Z.of_nat n)).

(** [dt.strftime('%B %d, %Y at %H:%M:%S')] *)
Definition strftime_generated (dt : datetime) : string :=
  nth (month dt - 1) month_names "" ++ " " ++ two (day dt) ++ ", " ++
  PyNum.dec (year dt) ++ " at " ++
  two (hour dt) ++ ":" ++ two (minute dt) ++ ":" ++ two (second dt).

Definition short_month_names : list string :=
  map (Py.take 3) month_names.

(** [dt.strftime('%b %d, %Y, %H:%M:%S')] *)
Definition strftime_updated (dt : datetime) : string :=
  nth (month dt - 1) short_month_names "" ++ " " ++ two (day dt) ++ ", " ++
  PyNum.dec (year dt) ++ ", " ++
  two (hour dt) ++ ":" ++ two (minute dt) ++ ":" ++ two (second dt).

End Clock.

(* ================================================================== *)
(** * crypto/token-sentiment-tracker-main/agent.py *)
(* ================================================================== *)

Module TokenTracker.

(** The dictionary in insertion order, which is the order its keys and items
    are iterated in. *)
Definition TOKEN_ID_MAP : list (string * string) :=
  [ ("btc", "bitcoin");
    ("eth", "ethereum");
    ("sol", "solana");
    ("link", "chainlink");
    ("dot", "polkadot");
    ("ada", "cardano");
    ("avax", "avalanche-2");
    ("matic", "matic-network");
    ("doge", "dogecoin");
    ("shib", "shiba-inu");
    ("xrp", "ripple");
    ("bnb", "binancecoin");
    ("uni", "uniswap");
    ("atom", "cosmos") ].

Definition keys (d : list (string * string)) : list string := map fst d.

(** [TOKEN_ID_MAP.get(k)] *)
Definition lookup_name (k : string) : option string :=
  option_map snd (find (fun item => String.eqb k (fst item)) TOKEN_ID_MAP).

(** [k in d] *)
Definition dict_mem (k : string) (d : list (string * string)) : bool :=
  existsb (String.eqb k) (keys d).

(** First loop: a known symbol standing as an independent word. *)
Definition symbol_strategy (query : string) : option string :=
  find (fun token => Py.re_search_word token query) (keys TOKEN_ID_MAP).

(** Second loop: a known full name occurring anywhere. *)
Definition name_strategy (query : string) : option string :=
  match find (fun item => Py.contains (snd item) (Py.lower query)) TOKEN_ID_MAP with
  | Some item => Some (fst item)
  | None => None
  end.

(** Third loop: a generic 3-5 letter word that is a known symbol. *)
Definition generic_strategy (query : string) : option string :=
  match find (fun m => dict_mem (Py.lower m) TOKEN_ID_MAP) (Py.re_findall_generic query) with
  | Some m => Some (Py.lower m)
  | None => None
  end.

Definition extract_token_from_query (query : string) : option string :=
  let query := Py.lower query in
  match symbol_strategy query with
  | Some token => Some token
  | None =>
      match name_strategy query with
      | Some symbol => Some symbol
      | None => generic_strategy query
      end
  end.

(** The function made of the first two loops only. *)
Definition extract_token_two_strategies (query : string) : option string :=
  let query := Py.lower query in
  match symbol_strategy query with
  | Some token => Some token
  | None => name_strategy query
  end.

(** ** Sentiment aggregation *)

Inductive category : Type :=
  | very_positive | positive | neutral | negative | very_negative.

(** The string the code stores for each category. *)
Definition category_label (c : category) : string :=
  match c with
  | very_positive => "very positive"
  | positive => "positive"
  | neutral => "neutral"
  | negative => "negative"
  | very_negative => "very negative"
  end.

(** The threshold cascade applied to [avg_score]. *)
Definition categorize (avg_score : Q) : category :=
  if Qle_bool (15 # 100) avg_score then very_positive
  else if Qle_bool (5 # 100) avg_score then positive
  else if Qle_bool avg_score (- (15 # 100)) then very_negative
  else if Qle_bool avg_score (- (5 # 100)) then negative
  else neutral.

(** The same cascade on binary64 values, the representation [avg_score] has
    at run time; each literal denotes the nearest binary64 value. *)
#[warnings="-inexact-float"]
Definition categorize_binary64 (avg_score : PrimFloat.float) : category :=
  if PrimFloat.leb 0.15%float avg_score then very_positive
  else if PrimFloat.leb 0.05%float avg_score then positive
  else if PrimFloat.leb avg_score (-0.15)%float then very_negative
  else if PrimFloat.leb avg_score (-0.05)%float then negative
  else neutral.

Record SentimentResult : Type := {
  sentiment_score : Q;
  sentiment_category : category;
  sample_size : nat;
  sources : list string;
  analysis : option string
}.

(** A sample as gathered from a news item: the text and the label of the
    source it came from.  Every value appended to [texts] is the result of
    [.lower()], of a string concatenation or of an f-string, so a text is
    always a [str] and the [isinstance] test of the scoring loop holds. *)
Record MetricSample : Type := { raw_value : string; source_label : string }.

(** The gathering loops: every item appends its text, and its source label
    unless already present. *)
Definition collect_item (acc : list string * list string) (s : MetricSample)
  : list string * list string :=
  let '(texts, srcs) := acc in
  ((texts ++ [raw_value s])%list,
   if existsb (String.eqb (source_label s)) srcs then srcs else (srcs ++ [source_label s])%list).

Definition collect (samples : list MetricSample) : list string * list string :=
  fold_left collect_item samples ([], []).

Section Scoring.

(** [sia.polarity_scores(text)['compound']]; [None] when the call raises. *)
Variable score_fn : string -> option Q.

(** The guarded scoring of one text. *)
Definition score_text (text : string) : option Q :=
  if negb (String.eqb text "") && (0 <? String.length (Py.strip text))%nat
  then score_fn text
  else None.

Fixpoint score_all (texts : list string) : list Q :=
  match texts with
  | [] => []
  | text :: rest =>
      match score_text text with
      | Some score => score :: score_all rest
      | None => score_all rest
      end
  end.

(** [sum(scores)] *)
Definition sum (scores : list Q) : Q := fold_left Qplus scores 0.

Definition preview (texts : list string) : string :=
  Py.join " " (map (fun text => Py.take 100 text ++ "...") (firstn 3 texts)).

(** The scoring phase of [analyze_sentiment], from the collected [texts]
    and [srcs]. *)
Definition analyze_sentiment (texts srcs : list string) : SentimentResult :=
  match texts with
  | [] =>
      {| sentiment_score := 0; sentiment_category := neutral;
         sample_size := 0; sources := ["No data"]; analysis := None |}
  | _ :: _ =>
      let scores := score_all texts in
      match scores with
      | [] =>
          {| sentiment_score := 0; sentiment_category := neutral;
             sample_size := 0; sources := [];
             analysis := Some "No recent news or data available for analysis." |}
      | _ :: _ =>
          let avg_score := sum scores / inject_Z (Z.of_nat (List.length scores)) in
          {| sentiment_score := avg_score;
             sentiment_category := categorize avg_score;
             sample_size := List.length scores;
             sources := firstn 5 srcs;
             analysis := Some (preview texts) |}
      end
  end.

(** Gathering followed by scoring. *)
Definition aggregate (samples : list MetricSample) : SentimentResult :=
  let '(texts, srcs) := collect samples in analyze_sentiment texts srcs.

End Scoring.

(** ** Numeric helpers of [get_token_outlook] *)

Definition format_currency (value : Q) : string :=
  if Qle_bool 1000000000 value then "$" ++ PyNum.format_fixed 2 (value / 1000000000) ++ "B"
  else if Qle_bool 1000000 value then "$" ++ PyNum.format_fixed 2 (value / 1000000) ++ "M"
  else if Qle_bool 1000 value then "$" ++ PyNum.format_fixed 1 (value / 1000) ++ "K"
  else "$" ++ PyNum.format_fixed 2 value.

Definition format_percent (value : Q) : string :=
  if negb (Qle_bool value 0) then "+" ++ PyNum.format_fixed 2 value ++ "%"
  else PyNum.format_fixed 2 value ++ "%".

(** ** The response of [get_token_outlook] *)

Definition nl : string := String (ascii_of_nat 10) EmptyString.

(** ['-' * n] *)
Fixpoint dashes (n : nat) : string :=
  match n with O => EmptyString | S k => String "-" (dashes k) end.

(** [x > y] and [x < y] on scores and amounts. *)
Definition Qgtb (x y : Q) : bool := negb (Qle_bool x y).
Definition Qltb (x y : Q) : bool := negb (Qle_bool y x).

(** The dictionary [get_crypto_price] returns; [last_updated] is an epoch
    time in seconds, [None] when the entry is missing. *)
Record PriceData : Type := {
  p_symbol : string; p_name : string;
  price_usd : Q; market_cap : Q; volume_24h : Q;
  change_24h : Q; price_change_7d : Q; price_change_30d : Q;
  last_updated : option Z
}.

Section Outlook.

(** [datetime.fromtimestamp]: the local calendar time of an epoch time. *)
Variable fromtimestamp : Q -> Clock.datetime.

(** The reading [time.time()] returns during the call. *)
Variable time_now : Q.

(** The text built from the two dictionaries once both were fetched.  The
    analysis obtained from the language model, or from [fallback_analysis],
    is computed before this point but is not part of the text. *)
Definition outlook_response (price_data : PriceData) (sentiment_data : SentimentResult) : string :=
  let change_24h := change_24h price_data in
  let change_emoji :=
    if Qgtb change_24h 0 then "🟢" else if Qltb change_24h 0 then "🔴" else "⚪" in
  let score := sentiment_score sentiment_data in
  Py.strip
    (nl ++
     "**" ++ p_name price_data ++ " (" ++ Py.upper (p_symbol price_data) ++ ") Market Overview**" ++ nl ++
     nl ++
     "💎 **Price & Market Data**" ++ nl ++
     "• Current Price: $" ++ PyNum.format_fixed_grouped 2 (price_usd price_data) ++ nl ++
     "• Market Cap: $" ++ format_currency (market_cap price_data) ++ nl ++
     "• 24h Volume: $" ++ format_currency (volume_24h price_data) ++ nl ++
     "• 24h Change: " ++ change_emoji ++ " " ++ format_percent change_24h ++ nl ++
     "• 7d Change: " ++ (if Qgtb (price_change_7d price_data) 0 then "🟢" else "🔴") ++ " " ++ format_percent (price_change_7d price_data) ++ nl ++
     "• 30d Change: " ++ (if Qgtb (price_change_30d price_data) 0 then "🟢" else "🔴") ++ " " ++ format_percent (price_change_30d price_data) ++ nl ++
     nl ++
     dashes 60 ++ nl ++
     nl ++
     "🎯 **Sentiment Analysis**" ++ nl ++
     "• Score: " ++ PyNum.format_fixed 2 (sentiment_score sentiment_data) ++ "/1.0" ++ nl ++
     "• Category: " ++ (if Qgtb score (7 # 10) then "🔥" else "") ++ " " ++ Py.title (category_label (sentiment_category sentiment_data)) ++ nl ++
     nl ++
     dashes 60 ++ nl ++
     nl ++
     "🔍 **Market Analysis**" ++ nl ++
     "**Current Situation & Market Positioning**" ++ nl ++
     Py.upper (p_symbol price_data) ++ " is a " ++ (if Qgtb (market_cap price_data) 10000000000 then "large" else if Qgtb (market_cap price_data) 1000000000 then "mid" else "small") ++ "-cap cryptocurrency with a market cap of $" ++ format_currency (market_cap price_data) ++ ". Despite a " ++ (if Qltb (Qabs change_24h) 2 then "minor" else "significant") ++ " 24-hour " ++ (if Qgtb change_24h 0 then "gain" else "decline") ++ " of " ++ format_percent change_24h ++ ", it shows " ++ (if Qgtb (Qabs (price_change_30d price_data)) 20 then "strong" else "moderate") ++ " resilience with a " ++ format_percent (price_change_30d price_data) ++ " gain over 30 days. The $" ++ format_currency (volume_24h price_data) ++ " 24-hour trading volume indicates " ++ (if Qgtb (volume_24h price_data) (market_cap price_data * (1 # 10)) then "high" else if Qgtb (volume_24h price_data) (market_cap price_data * (5 # 100)) then "moderate" else "low") ++ " liquidity in the market." ++ nl ++
     nl ++
     "**Technical & Fundamental Drivers**" ++ nl ++
     nl ++
     "• **Technical**: " ++ (if Qltb change_24h 0 && Qgtb (price_change_7d price_data) 0 && Qgtb (price_change_30d price_data) 0 then "Mixed short-term signals with a slight 24h dip but positive 7d and 30d trends" else if Qgtb change_24h 0 && Qgtb (price_change_7d price_data) 0 && Qgtb (price_change_30d price_data) 0 then "Consistent bullish pattern across all timeframes" else if Qltb change_24h 0 && Qltb (price_change_7d price_data) 0 && Qltb (price_change_30d price_data) 0 then "Consistent bearish pattern across all timeframes" else "Short-term volatility with mixed signals across different timeframes") ++ "." ++ nl ++
     nl ++
     "• **Fundamentals**: Strong " ++ Py.lower (category_label (sentiment_category sentiment_data)) ++ " sentiment at " ++ PyNum.format_fixed 2 (sentiment_score sentiment_data) ++ " score driven by community confidence and adoption." ++ nl ++
     nl ++
     "• **Sources**: " ++ Py.join ", " (firstn 3 (sources sentiment_data)) ++ nl ++
     nl ++
     "**Short-Term Outlook**" ++ nl ++
     "Expect potential " ++ (if Qgtb score (5 # 10) then "consolidation or uptrend" else "consolidation or retracement") ++ ", depending on broader crypto market sentiment. The " ++ (if Qltb (Qabs change_24h) 2 then "stable" else "volatile") ++ " 7-day performance suggests " ++ (if Qgtb change_24h 0 then "resilience" else "caution") ++ " against short-term bearish pressure." ++ nl ++
     nl ++
     "**Investor Considerations**" ++ nl ++
     nl ++
     "• **Monitor**: Sustainability of the " ++ (if Qgtb (price_change_30d price_data) 10 then "30-day growth" else "current") ++ " trend." ++ nl ++
     nl ++
     "• **Evaluate**: " ++ (if Qgtb score (7 # 10) then "High bullish" else if Qgtb score (5 # 10) then "Moderate" else "Low") ++ " sentiment against short-term volatility." ++ nl ++
     nl ++
     "• **Assess**: " ++ p_name price_data ++ "'s blockchain upgrades and foundational utility." ++ nl ++
     nl ++
     "• **Strategy**:" ++ nl ++
     "  - **Risk-tolerant investors**: Consider dips as potential entry points." ++ nl ++
     "  - **Cautious investors**: Wait for clearer trends before acting." ++ nl ++
     nl ++
     dashes 60 ++ nl ++
     nl ++
     "📊 **Metadata**" ++ nl ++
     "• **Last Updated**: " ++ Clock.strftime_updated (fromtimestamp (match last_updated price_data with Some t => inject_Z t | None => time_now end)) ++ nl).

(** The outcomes of the two awaited fetches: a dictionary, or a lone
    ["error"] entry. *)
Variable get_crypto_price : string -> PriceData + string.
Variable fetch_sentiment : string -> SentimentResult + string.

Definition get_token_outlook (token_symbol : string) : string :=
  match get_crypto_price token_symbol with
  | inr e => "Error: " ++ e
  | inl price_data =>
      match fetch_sentiment token_symbol with
      | inr e => "Error in sentiment analysis: " ++ e
      | inl sentiment_data => outlook_response price_data sentiment_data
      end
  end.

End Outlook.

(** ** The chat handler

    What the handler does is recorded as a trace: each awaited outlook
    (which fetches prices and news and scores them) and each message sent. *)

Inductive event : Type :=
  | Outlook (token_symbol : string)
  | Send (text : string).

Definition clarification : string :=
  "I couldn't identify a cryptocurrency in your message. Please specify a cryptocurrency like BTC, ETH, or LINK.".

Section Handler.

(** The awaited [get_token_outlook(token_symbol)]. *)
Variable outlook_of : string -> string.

Definition handle_chat_message (user_message : string) : list event :=
  match extract_token_from_query user_message with
  | None => [Send clarification]
  | Some token_symbol =>
      if String.eqb token_symbol "" then [Send clarification]
      else [Outlook token_symbol; Send (outlook_of token_symbol)]
  end.

End Handler.

End TokenTracker.

(* ================================================================== *)
(** * health/insurance_info.py *)
(* ================================================================== *)

Module Insurance.

Import TokenTracker.

Definition nl : string := String (ascii_of_nat 10) EmptyString.

Record CompanyData : Type := { name : string; type : string; website : string }.

Definition company (n t w : string) : CompanyData :=
  {| name := n; type := t; website := w |}.

Definition MAJOR_INSURANCE_COMPANIES : list (string * CompanyData) :=
  [ ("aetna", company "Aetna" "health" "aetna.com");
    ("anthem", company "Anthem" "health" "anthem.com");
    ("cigna", company "Cigna" "health" "cigna.com");
    ("humana", company "Humana" "health" "humana.com");
    ("kaiser", company "Kaiser Permanente" "health" "kp.org");
    ("united", company "UnitedHealthcare" "health" "uhc.com");
    ("bcbs", company "Blue Cross Blue Shield" "health" "bcbs.com");
    ("metlife", company "MetLife" "life" "metlife.com");
    ("prudential", company "Prudential" "life" "prudential.com");
    ("newyorklife", company "New York Life" "life" "newyorklife.com");
    ("northwestern", company "Northwestern Mutual" "life" "northwesternmutual.com");
    ("massmutual", company "MassMutual" "life" "massmutual.com");
    ("lincoln", company "Lincoln Financial" "life" "lfg.com");
    ("transamerica", company "Transamerica" "life" "transamerica.com");
    ("aflac", company "Aflac" "supplemental" "aflac.com") ].

Definition INSURANCE_TYPES : list (string * list string) :=
  [ ("health", ["medical"; "health"; "healthcare"; "hmo"; "ppo"; "epo"]);
    ("life", ["life"; "term"; "whole"; "universal"; "variable"]);
    ("disability", ["disability"; "income"; "di"]);
    ("long_term_care", ["ltc"; "long term care"; "nursing"]);
    ("dental", ["dental"; "orthodontic"]);
    ("vision", ["vision"; "eye"; "optical"]) ].

Definition insurance_terms : list string :=
  [ "premium"; "deductible"; "copay"; "coinsurance"; "out-of-pocket";
    "network"; "coverage"; "benefits"; "claim"; "policy"; "renewal";
    "exclusion"; "rider"; "beneficiary"; "death benefit"; "cash value" ].

Record QueryInfo : Type := {
  q_company : option string;
  q_insurance_type : option string;
  q_company_data : option CompanyData;
  q_specific_terms : list string
}.

Definition company_matches (query_lower : string) (item : string * CompanyData) : bool :=
  let company_name_lower := Py.lower (name (snd item)) in
  Py.contains (fst item) query_lower ||
  Py.contains company_name_lower query_lower ||
  Py.any_in (Py.split_ws company_name_lower) query_lower.

Definition extract_insurance_info_from_query (query : string) : QueryInfo :=
  let query_lower := Py.lower query in
  let found := find (company_matches query_lower) MAJOR_INSURANCE_COMPANIES in
  {| q_company := option_map fst found;
     q_company_data := option_map snd found;
     q_insurance_type :=
       option_map fst (find (fun it => Py.any_in (snd it) query_lower) INSURANCE_TYPES);
     q_specific_terms := filter (fun term => Py.contains term query_lower) insurance_terms |}.

(** The threshold cascade of [analyze_insurance_sentiment]. *)
Definition categorize (avg_score : Q) : category :=
  if Qle_bool (15 # 100) avg_score then very_positive
  else if Qle_bool (5 # 100) avg_score then positive
  else if Qle_bool avg_score (- (15 # 100)) then very_negative
  else if Qle_bool avg_score (- (5 # 100)) then negative
  else neutral.

(** The dictionary handed to the formatter: either the four sentiment
    entries or a lone ["error"] entry. *)
Record SentimentEntries : Type := {
  s_score : Q; s_category : string; s_sample_size : nat; s_sources : list string;
  s_analysis : option string
}.

Inductive SentimentData : Type :=
  | SentimentOk (r : SentimentEntries)
  | SentimentError (message : string).

Definition get_score (d : SentimentData) : Q :=
  match d with SentimentOk r => s_score r | SentimentError _ => 0 end.
Definition get_category (d : SentimentData) : string :=
  match d with SentimentOk r => s_category r | SentimentError _ => "neutral" end.
Definition get_sample_size (d : SentimentData) : nat :=
  match d with SentimentOk r => s_sample_size r | SentimentError _ => O end.

Definition lookup {A : Type} (k : string) (d : list (string * A)) : option A :=
  option_map snd (find (fun item => String.eqb k (fst item)) d).

Section Sentiment.

Variable score_fn : string -> option Q.

Fixpoint score_each (texts : list string) : list Q :=
  match texts with
  | [] => []
  | text :: rest =>
      match score_fn text with
      | Some score => score :: score_each rest
      | None => score_each rest
      end
  end.

Definition search_terms_of (company : option string) (insurance_type : option string) : string :=
  match match company with
        | Some c => lookup c MAJOR_INSURANCE_COMPANIES
        | None => None
        end with
  | Some data => name data
  | None =>
      match insurance_type with
      | Some t => if String.eqb t "" then "health insurance life insurance" else t ++ " insurance"
      | None => "health insurance life insurance"
      end
  end.

Definition analyze_insurance_sentiment (company insurance_type : option string) : SentimentData :=
  let search_terms := search_terms_of company insurance_type in
  let texts :=
    [ search_terms ++ " announces new coverage options for 2024";
      "Customer satisfaction ratings improve for " ++ search_terms;
      "Premium increases moderate for " ++ search_terms ++ " policies";
      "New regulatory changes affect " ++ search_terms ++ " coverage";
      "Market competition drives innovation in " ++ search_terms ] in
  let scores := score_each texts in
  match scores with
  | [] =>
      SentimentOk {| s_score := 0; s_category := "neutral"; s_sample_size := 0;
                     s_sources := ["Limited data available"]; s_analysis := None |}
  | _ :: _ =>
      let avg_score := TokenTracker.sum scores / inject_Z (Z.of_nat (List.length scores)) in
      SentimentOk {| s_score := avg_score;
                     s_category := category_label (categorize avg_score);
                     s_sample_size := List.length scores;
                     s_sources := ["Insurance News"];
                     s_analysis := Some (preview texts) |}
  end.

End Sentiment.

(** The market dictionary: a quote, or a lone ["error"] entry. *)
Record Quote : Type := {
  symbol : string; price : Q; change : Q; change_percent : string;
  volume : Z; high : Q; low : Q; last_updated : string
}.

Inductive MarketData : Type :=
  | MarketQuote (q : Quote)
  | MarketError (message : string).

Section Formatter.

(** The builtin [float(str)]; [None] when it raises [ValueError]. *)
Variable py_float : string -> option Q.

(** The reading [datetime.now()] returns during the call. *)
Variable now : Clock.datetime.

Definition header_of (query_info : QueryInfo) : string :=
  match q_company_data query_info with
  | Some company_data =>
      "**" ++ name company_data ++ " - " ++ Py.title (type company_data) ++ " Insurance Analysis**"
  | None =>
      match q_insurance_type query_info with
      | Some insurance_type =>
          if String.eqb insurance_type "" then "**Insurance Market Analysis**"
          else "**" ++ Py.title insurance_type ++ " Insurance Market Analysis**"
      | None => "**Insurance Market Analysis**"
      end
  end.

(** The stock-performance lines; [None] when [float] raises. *)
Definition market_section (market_data : option MarketData) : option string :=
  match market_data with
  | Some (MarketQuote q) =>
      match py_float (Py.remove_char "%" (change_percent q)) with
      | None => None
      | Some cp =>
          let change_emoji := if negb (Qle_bool cp 0) then "ðŸŸ¢" else "ðŸ”´" in
          Some ("ðŸ“ˆ **Stock Performance** (" ++ symbol q ++ ")" ++ nl ++
                "â€¢ Current Price: $" ++ PyNum.format_fixed 2 (price q) ++ nl ++
                "â€¢ Daily Change: " ++ change_emoji ++ " " ++ change_percent q ++ "%" ++ nl ++
                "â€¢ Volume: " ++ PyNum.format_int_grouped (volume q) ++ nl ++
                "â€¢ Day Range: $" ++ PyNum.format_fixed 2 (low q) ++ " - $" ++
                PyNum.format_fixed 2 (high q) ++ nl ++ nl)
      end
  | Some (MarketError _) => Some ""
  | None => Some ""
  end.

Definition sentiment_section (sentiment_data : SentimentData) : string :=
  let sentiment_score := get_score sentiment_data in
  let sentiment_emoji :=
    if negb (Qle_bool sentiment_score (1 # 10)) then "ðŸ‘"
    else if negb (Qle_bool (- (1 # 10)) sentiment_score) then "ðŸ‘Ž"
    else "âž–" in
  "ðŸŽ¯ **Market Sentiment**" ++ nl ++
  "â€¢ Score: " ++ PyNum.format_fixed 2 sentiment_score ++ "/1.0" ++ nl ++
  "â€¢ Category: " ++ sentiment_emoji ++ " " ++ Py.title (get_category sentiment_data) ++ nl ++
  "â€¢ Sample Size: " ++ PyNum.dec (Z.of_nat (get_sample_size sentiment_data)) ++ " sources" ++ nl ++ nl.

Definition focus_section (specific_terms : list string) : string :=
  match specific_terms with
  | [] => ""
  | _ :: _ => "ðŸ” **Areas of Focus:** " ++ Py.join ", " specific_terms ++ nl ++ nl
  end.

Definition timestamp_line : string :=
  "ðŸ“… **Analysis Generated:** " ++ Clock.strftime_generated now ++ nl.

Definition learn_more (query_info : QueryInfo) : string :=
  match q_company_data query_info with
  | Some company_data => "ðŸŒ **Learn More:** Visit " ++ website company_data
  | None => ""
  end.

(** [format_insurance_response]; [None] when the call raises. *)
Definition format_insurance_response (query_info : QueryInfo)
    (market_data : option MarketData) (sentiment_data : SentimentData)
    (analysis : string) : option string :=
  match market_section market_data with
  | None => None
  | Some market =>
      Some (Py.strip
        (header_of query_info ++ nl ++ nl ++
         market ++
         sentiment_section sentiment_data ++
         focus_section (q_specific_terms query_info) ++
         "ðŸ“Š **Detailed Analysis**" ++ nl ++ analysis ++ nl ++ nl ++
         "---" ++ nl ++
         timestamp_line ++
         learn_more query_info))
  end.

End Formatter.

(** ** The chat handler

    What the handler does is recorded as a trace: each awaited analysis
    (which fetches market data and scores news) and each message sent. *)

Inductive event : Type :=
  | Analyse (query_info : QueryInfo)
  | Send (text : string).

Definition clarification : string :=
  "I specialize in analyzing health and life insurance. Please ask about:" ++ nl ++ nl ++
  "ðŸ¥ **Health Insurance:** Aetna, Anthem, Cigna, Humana, Kaiser Permanente, UnitedHealthcare, BCBS" ++ nl ++
  "ðŸ’° **Life Insurance:** MetLife, Prudential, New York Life, Northwestern Mutual, MassMutual" ++ nl ++ nl ++
  "You can ask about premiums, coverage, benefits, or market analysis for these companies.".

(** [not x] for an optional string: absent or empty. *)
Definition falsy (o : option string) : bool :=
  match o with Some s => String.eqb s "" | None => true end.

Section Handler.

(** The awaited [get_insurance_analysis(query_info)]. *)
Variable get_insurance_analysis : QueryInfo -> string.

Definition handle_chat_message (user_message : string) : list event :=
  let query_info := extract_insurance_info_from_query user_message in
  if falsy (q_company query_info) && falsy (q_insurance_type query_info)
  then [Send clarification]
  else [Analyse query_info; Send (get_insurance_analysis query_info)].

End Handler.

End Insurance.

(* ================================================================== *)
(** * health/insurance_agent.py *)
(* ================================================================== *)

Module InsuranceAgent.

Definition CLI_AGENT_ADDRESS := "agent1qv3dag4483k5dv4wkcncy65xpyrq4hgwk6nvuf0xzrhfz33cxaqj6xpg9c7".

Definition serious_keywords : list string :=
  [ "chest pain"; "emergency"; "critical"; "shortness of breath";
    "life-threatening"; "serious"; "this condition may be serious" ].

Definition prompt : string :=
  "Do you have health insurance? If not, please enter your monthly income.".

(** [receive_analysis]: the list of [ctx.send(destination, text)] calls. *)
Definition receive_analysis (response : string) : list (string * string) :=
  if Py.any_in serious_keywords (Py.lower response)
  then [(CLI_AGENT_ADDRESS, prompt)]
  else [].

(** [get_top_insurance_plans] *)
Definition get_top_insurance_plans (income : Z) : list string :=
  if (income <? 20000)%Z then
    ["Star Health Medi-Classic"; "Care Health Joy Plan"; "HDFC ERGO Health Suraksha"]
  else if (income <? 50000)%Z then
    ["Niva Bupa ReAssure"; "ICICI Lombard iHealth"; "Tata AIG Medicare"]
  else
    ["Max Bupa Health Companion"; "HDFC ERGO Optima Restore"; "Religare Care Supreme"].

End InsuranceAgent.

(* ================================================================== *)
(** * health/main.py *)
(* ================================================================== *)

Module HealthCli.

Definition cli_keywords : list string :=
  [ "serious"; "emergency"; "critical"; "life-threatening"; "chest pain" ].

(** The check made in [startup] on a received response: the lines printed
    after the response itself. *)
Definition serious_notice (response : string) : list string :=
  if Py.any_in cli_keywords (Py.lower response)
  then [ "🚨 This condition may be serious.";
         "🛡️ Do you have health insurance? If not, please enter your monthly income." ]
  else [].

End HealthCli.

(* ================================================================== *)
(** * crypto/token-sentiment-tracker-main/agent.py: [fallback_analysis] *)
(* ================================================================== *)

Module Fallback.

Import TokenTracker.

Definition trend_24h_of (change : Q) : string :=
  if Qgtb change 5 then "in a strong uptrend"
  else if Qgtb change 2 then "in an uptrend"
  else if Qltb change (- (5)) then "in a strong downtrend"
  else if Qltb change (- (2)) then "in a downtrend"
  else "stable".

Definition trend_7d_of (change : Q) : string :=
  if Qgtb change 10 then "in a strong uptrend"
  else if Qgtb change 5 then "in an uptrend"
  else if Qltb change (- (10)) then "in a strong downtrend"
  else if Qltb change (- (5)) then "in a downtrend"
  else "stable".

(** The volume sentence; the ratio is computed only for a positive market
    capitalisation. *)
Definition volume_analysis_of (volume market_cap : Q) : string :=
  if Qgtb market_cap 0 then
    let volume_to_mcap := (volume / market_cap) * 100 in
    if Qgtb volume_to_mcap 15 then
      "Very high trading volume, indicating strong market interest."
    else if Qgtb volume_to_mcap 10 then
      "Above-average trading volume, showing significant interest."
    else if Qltb volume_to_mcap 3 then
      "Low trading volume, suggesting little current market interest."
    else "Trading volume at normal levels."
  else "Market capitalization data unavailable for volume analysis.".

Definition market_position_of (market_cap : Q) : string :=
  if Qgtb market_cap 100000000000 then
    "one of the main cryptocurrencies in the market (top tier)"
  else if Qgtb market_cap 10000000000 then "a large-cap cryptocurrency"
  else if Qgtb market_cap 1000000000 then "a mid-cap cryptocurrency"
  else "a small-cap cryptocurrency".

Definition sentiment_intensity_of (score : Q) : string :=
  let sentiment_strength := Qabs score in
  if Qgtb sentiment_strength (5 # 10) then "strong"
  else if Qltb sentiment_strength (2 # 10) then "weak"
  else "moderate".

Definition outlook_heading : string := nl ++ nl ++ "**Short-Term Outlook:**" ++ nl.

Definition indecision_outlook : string :=
  outlook_heading ++
  "The market seems to be in a moment of indecision, with mixed technical signals. Caution and observation of trend breaks are recommended before making decisions.".

(** The paragraph chosen by the [if]/[elif] cascade on the sentiment string
    and the sign of the 24-hour change. *)
Definition short_term_outlook (sentiment : string) (change : Q) : string :=
  if String.eqb sentiment "bullish" && Qgtb change 0 then
    outlook_heading ++
    "The combination of rising price and positive sentiment suggests potential for continued upward movement in the short term. Technical support appears to be strengthened by current volume."
  else if String.eqb sentiment "bearish" && Qltb change 0 then
    outlook_heading ++
    "The combination of falling price and negative sentiment suggests possible continuation of selling pressure in the short term. Investors should watch important support levels."
  else if String.eqb sentiment "bullish" && Qltb change 0 then
    outlook_heading ++
    "Despite the recent drop, positive sentiment may indicate a possible reversal or stabilization in the short term. This divergence deserves special attention."
  else if String.eqb sentiment "bearish" && Qgtb change 0 then
    outlook_heading ++
    "Despite the recent rise, negative sentiment suggests caution, as there may be resistance to continued movement. Consider the possibility of profit-taking."
  else indecision_outlook.

Definition situation_summary (price_data : PriceData) (sentiment_data : SentimentResult)
  : string :=
  "**Current Situation Summary:**" ++ nl ++
  p_name price_data ++ " (" ++ p_symbol price_data ++ ") is " ++
  market_position_of (market_cap price_data) ++ " currently priced at $" ++
  PyNum.format_fixed 4 (price_usd price_data) ++ ". The token is " ++
  trend_24h_of (change_24h price_data) ++ " in the last 24 hours (" ++
  PyNum.format_fixed 2 (change_24h price_data) ++ "%) and " ++
  trend_7d_of (price_change_7d price_data) ++ " in the last week (" ++
  PyNum.format_fixed 2 (price_change_7d price_data) ++ "%). " ++
  volume_analysis_of (volume_24h price_data) (market_cap price_data) ++ nl ++
  nl ++
  "**Technical and Fundamental Factors:**" ++ nl ++
  "Market sentiment is " ++ category_label (sentiment_category sentiment_data) ++
  " with " ++ sentiment_intensity_of (sentiment_score sentiment_data) ++
  " intensity, based on " ++ PyNum.dec (Z.of_nat (sample_size sentiment_data)) ++
  " sources, including " ++ Py.join ", " (firstn 2 (sources sentiment_data)) ++ ". ".

Definition key_points (price_data : PriceData) : string :=
  nl ++ nl ++ "**Key Points to Watch:**" ++ nl ++
  "- Monitor trading volume to confirm the strength of the current trend" ++ nl ++
  "- Stay alert to specific news about " ++ p_symbol price_data ++
  " that could impact its price" ++ nl ++
  "- Consider the overall cryptocurrency market context when making decisions".

Definition fallback_analysis (price_data : PriceData) (sentiment_data : SentimentResult)
  : string :=
  situation_summary price_data sentiment_data ++
  short_term_outlook (category_label (sentiment_category sentiment_data))
                     (change_24h price_data) ++
  key_points price_data.

End Fallback.

(* ================================================================== *)
(** * crypto/token-sentiment-tracker-main/agent.py: start-up log and
      the request of [get_crypto_price] *)
(* ================================================================== *)

Module TokenPrice.

Import TokenTracker.

(** ["*" * n]: empty when [n] is not positive. *)
Fixpoint stars (n : nat) : string :=
  match n with O => EmptyString | S k => String "*" (stars k) end.

(** [s[n:]] *)
Fixpoint drop (n : nat) (s : string) : string :=
  match n, s with
  | O, _ => s
  | S _, EmptyString => EmptyString
  | S k, String _ s' => drop k s'
  end.

(** [s[-n:]] for a positive [n]: the last [n] characters, the whole string
    when it is shorter. *)
Definition last_chars (n : nat) (s : string) : string :=
  drop (String.length s - n) s.

(** [ASI_LLM_KEY[:4] + "*" * (len(ASI_LLM_KEY) - 8) + ASI_LLM_KEY[-4:]] *)
Definition masked_key (ASI_LLM_KEY : string) : string :=
  Py.take 4 ASI_LLM_KEY ++
  stars (Z.to_nat (Z.of_nat (String.length ASI_LLM_KEY) - 8)) ++
  last_chars 4 ASI_LLM_KEY.

Inductive log_record : Type :=
  | Warning (text : string)
  | Info (text : string).

(** The records logged when the module is loaded with the given value of
    the environment variable. *)
Definition key_log (ASI_LLM_KEY : string) : list log_record :=
  if String.eqb ASI_LLM_KEY ""
  then [ Warning "ASI_LLM_KEY is not defined. Advanced analysis with LLM will not be available." ]
  else [ Info ("ASI_LLM_KEY loaded successfully: " ++ masked_key ASI_LLM_KEY);
         Info "Advanced analysis with ASI LLM is available." ].

(** [TOKEN_ID_MAP.get(token_symbol.lower(), token_symbol.lower())] *)
Definition token_id (token_symbol : string) : string :=
  match lookup_name (Py.lower token_symbol) with
  | Some id => id
  | None => Py.lower token_symbol
  end.

(** The address [get_crypto_price] requests. *)
Definition price_url (token_symbol : string) : string :=
  "https://api.coingecko.com/api/v3/coins/" ++ token_id token_symbol.

(** [default_data], returned beside an ["error"] entry; [now] is the
    reading of [int(time.time())]. *)
Definition default_data (now : Z) (token_symbol : string) : PriceData :=
  {| p_symbol := Py.upper token_symbol; p_name := Py.upper token_symbol;
     price_usd := 0; market_cap := 0; volume_24h := 0;
     change_24h := 0; price_change_7d := 0; price_change_30d := 0;
     last_updated := Some now |}.

End TokenPrice.

(* ================================================================== *)
(** * health: the messages and the handlers of the agents
      ([collector_agent.py], [analyser_agent.py], [asi1_wrapper_agent.py],
      [insurance_agent.py], [main.py]) *)
(* ================================================================== *)

Module HealthAgents.

(** The message models; agents dispatch on the model of a message. *)
Inductive payload : Type :=
  | Message (query : string) (response : option string)
  | SymptomResponse (response : string)
  | MedicationResponse (response : string)
  | ASI1miniRequest (query : string)
  | ASI1miniResponse (response : string)
  | InsuranceQuery (income : Z)
  | InsuranceOptions (options : list string).

(** A handler yields its [ctx.send(destination, message)] calls in order. *)
Definition sends : Type := list (string * payload).

Definition nl : string := String (ascii_of_nat 10) EmptyString.

(** ** collector_agent.py *)
Module Collector.

Definition ASI_AGENT_ID := "agent1qt69zmtdwud67k7t3nmp353l0y7u8j3q6t9fdy6f4v54258huxre6pnxgwz".
Definition CLI_AGENT_ADDRESS := "agent1qv3dag4483k5dv4wkcncy65xpyrq4hgwk6nvuf0xzrhfz33cxaqj6xpg9c7".
Definition ANALYSER_AGENT_ADDRESS := "agent1qdkulla80gkjdumy6qp867x6u9wwqkrya0r4eks6zs520lqp6r3g200d83u".
Definition INSURANCE_AGENT_ADDRESS := "agent1qvwjtya8ncl5shwr7m8p80jw7l20lplt0ahtx40gzl3vsaeq4jr3kzuhfz4".

Definition prompting (query : string) : string :=
  "Based on the following symptoms: " ++ query ++ ", suggest possible causes and " ++
  "recommend next steps or actions the user should take, such as home remedies, " ++
  "consulting a doctor, or emergency care.".

(** Handler of [Message]. *)
Definition forward_to_asi (msg_query : string) : sends :=
  [ (ASI_AGENT_ID, ASI1miniRequest (prompting msg_query)) ].

(** Handler of [ASI1miniResponse]. *)
Definition handle_asi_response (msg_response : string) : sends :=
  [ (ANALYSER_AGENT_ADDRESS, ASI1miniResponse msg_response) ].

End Collector.

(** ** analyser_agent.py *)
Module Analyser.

Definition ASI_AGENT_ID := "agent1qt69zmtdwud67k7t3nmp353l0y7u8j3q6t9fdy6f4v54258huxre6pnxgwz".
Definition CLI_AGENT_ADDRESS := "agent1qv3dag4483k5dv4wkcncy65xpyrq4hgwk6nvuf0xzrhfz33cxaqj6xpg9c7".
Definition INSURANCE_AGENT_ADDRESS := "agent1qvwjtya8ncl5shwr7m8p80jw7l20lplt0ahtx40gzl3vsaeq4jr3kzuhfz4".

Definition prompting (query : string) : string :=
  "Respond to the following user request about medication: " ++ query ++ ". " ++
  "Provide reminders, dosage info, or any safety suggestions as needed.".

(** Handler of [Message]. *)
Definition forward_to_asi (msg_query : string) : sends :=
  [ (ASI_AGENT_ID, ASI1miniRequest (prompting msg_query)) ].

(** Handler of [ASI1miniResponse]. *)
Definition analyze_and_respond (msg_response : string) : sends :=
  let summary := "[Analyzed] " ++ msg_response in
  [ (CLI_AGENT_ADDRESS, SymptomResponse summary);
    (INSURANCE_AGENT_ADDRESS, SymptomResponse summary) ].

End Analyser.

(** ** asi1_wrapper_agent.py *)
Module AsiWrapper.

(** Handler of [ASI1miniRequest]: the mocked answer goes back to the
    sender of the request. *)
Definition handle_query (sender : string) (msg_query : string) : sends :=
  let response := "[Mock ASI Response] Insight based on your query: " ++ msg_query in
  [ (sender, ASI1miniResponse response) ].

End AsiWrapper.

(** ** insurance_agent.py: the handlers of [SymptomResponse] and
       [InsuranceQuery] *)
Module Insurer.

(** [receive_analysis] with its messages typed. *)
Definition receive_analysis (msg_response : string) : sends :=
  map (fun s => (fst s, SymptomResponse (snd s))) (InsuranceAgent.receive_analysis msg_response).

Definition suggest_insurance (msg_income : Z) : sends :=
  let options := InsuranceAgent.get_top_insurance_plans msg_income in
  [ (InsuranceAgent.CLI_AGENT_ADDRESS, InsuranceOptions options) ].

End Insurer.

(** ** main.py *)
Module Cli.

Definition ANALYSER_AGENT := "agent1qdkulla80gkjdumy6qp867x6u9wwqkrya0r4eks6zs520lqp6r3g200d83u".
Definition COLLECTOR_AGENT := "agent1qv35ejh6fx6p5smyqzk9ts2qklhkk7gn5470nt0x3s7an3f7jvfxvlf5222".
Definition INSURANCE_AGENT := "agent1qvwjtya8ncl5shwr7m8p80jw7l20lplt0ahtx40gzl3vsaeq4jr3kzuhfz4".

Definition route_query (query : string) : string :=
  let q := Py.lower query in
  if Py.any_in ["medication"; "pill"; "reminder"; "dose"; "tablet"] q
  then ANALYSER_AGENT
  else COLLECTOR_AGENT.

(** An entry of [response_queue]. *)
Definition queued : Type := (string * string * string)%type.

Definition symptom_response (sender : string) (msg_response : string) : queued :=
  ("symptom", sender, msg_response).

Definition medication_response (sender : string) (msg_response : string) : queued :=
  ("medication", sender, msg_response).

(** [enumerate(options, start)] rendered as ["{i}. {plan}"]. *)
Fixpoint numbered (start : nat) (options : list string) : list string :=
  match options with
  | [] => []
  | plan :: rest => (PyNum.dec (Z.of_nat start) ++ ". " ++ plan) :: numbered (S start) rest
  end.

(** [show_insurance]: the lines printed and the new value of
    [insurance_handled]. *)
Definition show_insurance (msg_options : list string) : list string * bool :=
  ( ([ (nl ++ "🏥 Recommended Health Insurance Plans:")%string ] ++
     numbered 1 msg_options ++
     [ (nl ++ "🛑 Exiting after showing insurance recommendations.")%string;
       ("✅ Session completed. Waiting for final messages..." ++ nl)%string ])%list,
    true ).

(** [s.isdigit()] *)
Fixpoint digits_only (s : string) : bool :=
  match s with
  | EmptyString => true
  | String c s' => Py.is_digit c && digits_only s'
  end.

Definition isdigit (s : string) : bool :=
  negb (String.eqb s "") && digits_only s.

(** What one turn of the loop of [startup] does. *)
Inductive event : Type :=
  | Print (text : string)
  | Send (destination : string) (message : payload)
  | Break.

Section Startup.

(** The builtin [int(str)]; [None] when it raises [ValueError]. *)
Variable py_int : string -> option Z.

(** One turn of the loop: [typed] is the line read by [input], [received]
    the entry taken from [response_queue] within the timeout, if any. *)
Definition startup_turn (typed : string) (received : option queued) : list event :=
  let user_input := Py.strip typed in
  if existsb (String.eqb (Py.lower user_input)) ["exit"; "quit"]
  then [ Print "👋 Exiting CLI."; Break ]
  else if isdigit user_input then
    match py_int user_input with
    | Some income =>
        [ Send INSURANCE_AGENT (InsuranceQuery income);
          Print ("📨 Sent income to " ++ INSURANCE_AGENT) ]
    | None => [ Print "❌ Invalid income. Please enter a valid number." ]
    end
  else
    let target := route_query user_input in
    ([ Send target (Message user_input None);
       Print ("📨 Sent message to " ++ target ++ ". Waiting for response..." ++ nl)%string ] ++
     match received with
     | Some (response_type, sender, response) =>
         Print ("📬 Received response from " ++ sender ++ ": " ++ response ++ nl)%string ::
         map Print (HealthCli.serious_notice response)
     | None => [ Print "⏰ Timeout waiting for response. Please try again." ]
     end)%list.

End Startup.

End Cli.

End HealthAgents.

(* ================================================================== *)
(** * crypto/token-sentiment-tracker-main/agent.py: the retry loop of
      [get_token_outlook] around the language-model request *)
(* ================================================================== *)

Module AsiCall.

(** The outcome of one [requests.post] and of reading its answer. *)
Inductive attempt : Type :=
  | Answered (content : string)  (* status 200 and a message content *)
  | Rejected                     (* any other status code *)
  | TimedOut                     (* [requests.exceptions.Timeout] *)
  | Raised.                      (* any other exception *)

(** The variables of the loop, with the sleeps made so far (in seconds,
    oldest first) and the number of requests made. *)
Record state : Type := {
  retry_count : nat;
  analysis : option string;
  waits : list nat;
  calls : nat
}.

Definition max_retries : nat := 3.

(** [not analysis] *)
Definition falsy (analysis : option string) : bool :=
  match analysis with None => true | Some s => String.eqb s "" end.

(** [retry_count < max_retries and not analysis] *)
Definition continues (st : state) : bool :=
  (retry_count st <? max_retries)%nat && falsy (analysis st).

(** The three failure branches: count the retry and sleep
    [factor * retry_count] seconds unless it was the last one. *)
Definition failed (factor : nat) (st : state) : state :=
  let retry_count := S (retry_count st) in
  {| retry_count := retry_count;
     analysis := analysis st;
     waits := if (retry_count <? max_retries)%nat
              then (waits st ++ [factor * retry_count])%list%nat
              else waits st;
     calls := S (calls st) |}.

(** The body of the loop for one outcome of the request. *)
Definition attempt_step (a : attempt) (st : state) : state :=
  match a with
  | Answered content =>
      {| retry_count := retry_count st;
         analysis := Some (Py.strip content);
         waits := waits st;
         calls := S (calls st) |}
  | Rejected => failed 2 st
  | TimedOut => failed 3 st
  | Raised => failed 2 st
  end.

Definition initial : state :=
  {| retry_count := 0; analysis := None; waits := []; calls := 0 |}.

(** The loop, fed with the outcomes of the successive requests; it is left
    where it stands when the outcomes run out. *)
Fixpoint ask (outcomes : list attempt) (st : state) : state :=
  match outcomes with
  | [] => st
  | a :: rest => if continues st then ask rest (attempt_step a st) else st
  end.

(** The analysis kept after the loop: the model's, or the fallback's. *)
Definition analysis_after (fallback : string) (st : state) : string :=
  match analysis st with
  | Some s => if String.eqb s "" then fallback else s
  | None => fallback
  end.

End AsiCall.

(* ================================================================== *)
(** * health/insurance_info.py: [get_insurance_analysis] and
      [generate_fallback_insurance_analysis] *)
(* ================================================================== *)

Module InsuranceAnalysis.

Import TokenTracker.
Import Insurance.

Definition INSURANCE_STOCK_SYMBOLS : list (string * string) :=
  [ ("united", "UNH"); ("anthem", "ANTM"); ("cigna", "CI"); ("humana", "HUM");
    ("aetna", "CVS"); ("metlife", "MET"); ("prudential", "PRU"); ("lincoln", "LNC");
    ("aflac", "AFL") ].

(** [x in [a, b]] on strings. *)
Definition among (x : string) (l : list string) : bool := existsb (String.eqb x) l.

Section Analysis.

(** The builtin [float(str)]: [None] when it raises [ValueError], and then
    [float_error] is the text of the exception. *)
Variable py_float : string -> option Q.
Variable float_error : string -> string.

(** [str] of a float, as an f-string renders it. *)
Variable float_str : Q -> string.

(** The scorer of the sentiment analyser. *)
Variable score_fn : string -> option Q.

(** The reading [datetime.now()] returns while the response is formatted. *)
Variable now : Clock.datetime.

(** The awaited [get_insurance_market_data(company)]. *)
Variable get_insurance_market_data : string -> MarketData.

(** The environment variable, and the request to the language model:
    the message content when the answer has status 200 and the expected
    shape, [None] for any other status and for any exception. *)
Variable ASI_LLM_KEY : string.
Variable asi_post : string -> option string.

(** The stock sentence of the fallback; [inr s] when [float(s)] raises. *)
Definition stock_remark (market_data : option MarketData) : string + string :=
  match market_data with
  | Some (MarketQuote q) =>
      let s := Py.remove_char "%" (change_percent q) in
      match py_float s with
      | None => inr s
      | Some change =>
          inl (if Qgtb change 2 then
                 "The company's stock performance shows strength with a " ++ float_str change ++
                 "% gain, potentially indicating investor confidence in their business model."
               else if Qltb change (- (2)) then
                 "Recent stock performance shows a " ++ float_str (Qabs change) ++
                 "% decline, which may reflect market challenges or broader economic concerns."
               else "Stock performance remains stable, suggesting steady business operations.")
      end
  | Some (MarketError _) => inl ""
  | None => inl ""
  end.

Definition sentiment_remark (sentiment : string) : string :=
  if among sentiment ["positive"; "very positive"] then
    "suggests consumer confidence in their products and services. This could translate to competitive pricing and expanded coverage options."
  else if among sentiment ["negative"; "very negative"] then
    "indicates some consumer concerns. Potential customers should carefully review policy terms and consider alternatives."
  else
    "shows mixed consumer opinions. This presents an opportunity to evaluate their offerings against competitors.".

Definition recommendations (ins_type : string) : string :=
  if String.eqb ins_type "health" then
    "- Compare network coverage in your area" ++ nl ++
    "- Review prescription drug formularies" ++ nl ++
    "- Check annual out-of-pocket maximums" ++ nl ++
    "- Consider HSA compatibility if relevant"
  else if String.eqb ins_type "life" then
    "- Determine appropriate coverage amount (typically 10-12x annual income)" ++ nl ++
    "- Compare term vs. permanent life insurance options" ++ nl ++
    "- Review financial strength ratings" ++ nl ++
    "- Understand policy riders and benefits"
  else
    "- Compare coverage options and exclusions" ++ nl ++
    "- Review customer service ratings" ++ nl ++
    "- Check claim processing times" ++ nl ++
    "- Understand premium adjustment policies".

Definition market_trend (insurance_type : string) : string :=
  if String.eqb insurance_type "health" then
    "Rising healthcare costs continue to impact premium pricing, while regulatory changes provide both opportunities and challenges for coverage expansion."
  else if String.eqb insurance_type "life" then
    "Interest rate environments affect policy pricing, while increased awareness of financial planning drives demand for coverage."
  else "".

Definition general_market : string :=
  "**General Insurance Market:**" ++ nl ++
  "The insurance industry continues to adapt to changing consumer needs, regulatory requirements, and economic conditions. Consider your specific needs and compare multiple providers for the best coverage options.".

(** [generate_fallback_insurance_analysis]; [inr s] when [float(s)]
    raises. *)
Definition generate_fallback_insurance_analysis (query_info : QueryInfo)
    (market_data : option MarketData) (sentiment_data : SentimentData) : string + string :=
  match q_company_data query_info with
  | Some company_data =>
      match stock_remark market_data with
      | inr s => inr s
      | inl stock =>
          let sentiment := get_category sentiment_data in
          inl ("**Company Overview:**" ++ nl ++
               name company_data ++ " is a major player in the " ++ type company_data ++
               " insurance market. " ++ stock ++
               nl ++ nl ++ "**Market Sentiment:**" ++ nl ++
               "Current market sentiment is " ++ sentiment ++ ", which " ++
               sentiment_remark sentiment ++
               nl ++ nl ++ "**Consumer Recommendations:**" ++ nl ++
               recommendations (type company_data))
      end
  | None =>
      if falsy (q_insurance_type query_info) then inl general_market
      else
        let insurance_type :=
          match q_insurance_type query_info with Some t => t | None => "" end in
        inl ("**" ++ Py.title insurance_type ++ " Insurance Market Analysis:**" ++ nl ++
             "The " ++ insurance_type ++
             " insurance market is experiencing various trends affecting consumers and providers. " ++
             market_trend insurance_type ++
             nl ++ nl ++ "**Current Trends:**" ++ nl ++
             "Market sentiment is " ++ get_category sentiment_data ++
             ", reflecting current consumer and industry perspectives on " ++ insurance_type ++
             " insurance options.")
  end.

(** ** The prompt sent to the language model *)

Definition company_info (query_info : QueryInfo) : string :=
  match q_company_data query_info with
  | Some company_data =>
      "analyzing " ++ name company_data ++ " (" ++ type company_data ++ " insurance)"
  | None =>
      if falsy (q_insurance_type query_info) then "analyzing general insurance market"
      else "analyzing " ++
           match q_insurance_type query_info with Some t => t | None => "" end ++
           " insurance market"
  end.

Definition market_info (market_data : option MarketData) : string :=
  match market_data with
  | Some (MarketQuote q) =>
      nl ++ "Stock Performance (if applicable):" ++ nl ++ "- Stock Price: $" ++
      PyNum.format_fixed 2 (price q) ++ nl ++ "- Daily Change: " ++
      PyNum.format_fixed 2 (change q) ++ " (" ++ change_percent q ++ "%)" ++ nl ++
      "- Trading Volume: " ++ PyNum.format_int_grouped (volume q) ++ nl ++ "- Day Range: $" ++
      PyNum.format_fixed 2 (low q) ++ " - $" ++ PyNum.format_fixed 2 (high q) ++ nl
  | Some (MarketError _) => ""
  | None => ""
  end.

Definition areas_of_interest (specific_terms : list string) : string :=
  match specific_terms with
  | [] => "General inquiry"
  | _ :: _ => Py.join ", " specific_terms
  end.

(** The prompt; [None] when reading the sentiment entries raises. *)
Definition prompt_of (query_info : QueryInfo) (market_data : option MarketData)
    (sentiment_data : SentimentData) : option string :=
  match sentiment_data with
  | SentimentError _ => None
  | SentimentOk r =>
      Some (
      nl ++ "                Provide an analysis for insurance inquiry - " ++
      company_info query_info ++ ":" ++ nl ++ nl ++ "                " ++
      market_info market_data ++ nl ++ nl ++ "                Sentiment Analysis:" ++ nl ++
      "                - Category: " ++ s_category r ++ nl ++ "                - Score: " ++
      PyNum.format_fixed 2 (s_score r) ++ nl ++ "                - Based on " ++
      PyNum.dec (Z.of_nat (s_sample_size r)) ++ " sources" ++ nl ++ "                " ++ nl ++
      "                Specific areas of interest: " ++
      areas_of_interest (q_specific_terms query_info) ++ nl ++ nl ++
      "                Please provide a structured analysis with:" ++ nl ++
      "                1. Overview of the insurance company/type and current market position" ++
      nl ++ "                2. Key factors affecting premiums and coverage in this segment" ++
      nl ++ "                3. Current market trends and consumer sentiment" ++ nl ++
      "                4. Recommendations for consumers considering this insurance option" ++
      nl ++ "                " ++ nl ++
      "                Keep the response informative and consumer-focused (maximum 250 words)." ++
      nl ++ "                ")
  end.

(** The analysis text: the model's answer when a key is set and the
    request succeeds, the fallback otherwise. *)
Definition analysis_of (query_info : QueryInfo) (market_data : option MarketData)
    (sentiment_data : SentimentData) : string + string :=
  let fallback := generate_fallback_insurance_analysis query_info market_data sentiment_data in
  if String.eqb ASI_LLM_KEY "" then fallback
  else
    match prompt_of query_info market_data sentiment_data with
    | None => fallback
    | Some prompt =>
        match asi_post prompt with
        | Some content => inl (Py.strip content)
        | None => fallback
        end
    end.

(** The market data fetched for the query, if any. *)
Definition market_data_of (query_info : QueryInfo) : option MarketData :=
  match q_company query_info with
  | Some company =>
      if negb (String.eqb company "") &&
         among company (map fst INSURANCE_STOCK_SYMBOLS)
      then Some (get_insurance_market_data company)
      else None
  | None => None
  end.

Definition error_reply (e : string) : string :=
  "Error generating insurance analysis: " ++ e.

Definition get_insurance_analysis (query_info : QueryInfo) : string :=
  let market_data := market_data_of query_info in
  let sentiment_data :=
    analyze_insurance_sentiment score_fn (q_company query_info) (q_insurance_type query_info) in
  match analysis_of query_info market_data sentiment_data with
  | inr s => error_reply (float_error s)
  | inl analysis =>
      match format_insurance_response py_float now query_info market_data sentiment_data
              analysis with
      | Some response => response
      | None =>
          error_reply (float_error
            match market_data with
            | Some (MarketQuote q) => Py.remove_char "%" (change_percent q)
            | _ => ""
            end)
      end
  end.

End Analysis.

End InsuranceAnalysis.

(* ================================================================== *)
(** * crypto/token-sentiment-tracker-main/agent.py: [analyze_sentiment]
      on binary64 scores

    The compound scores are Python floats.  [sum(scores)] adds them in list
    order, each addition rounded to binary64, and the quotient by
    [len(scores)] is rounded once more; here the scores are primitive
    binary64 values and the operations are the IEEE 754 ones. *)
(* ================================================================== *)

Module Binary64.

Import TokenTracker.

(** What the gathering loops append to [texts] and [sources], in order: a
    matching news item appends its text and, unless already listed, the
    name of its source; the market-data fallback appends texts of its own
    and, separately, the label of each source it could read, whether or
    not that source gave a text. *)
Inductive gathered : Type :=
  | Item (text : string) (source_name : string)
  | Note (text : string)
  | Source (source_name : string).

Definition gather_step (acc : list string * list string) (g : gathered)
  : list string * list string :=
  let '(texts, srcs) := acc in
  match g with
  | Item text source_name =>
      ((texts ++ [text])%list,
       if existsb (String.eqb source_name) srcs then srcs
       else (srcs ++ [source_name])%list)
  | Note text => ((texts ++ [text])%list, srcs)
  | Source source_name =>
      (texts,
       if existsb (String.eqb source_name) srcs then srcs
       else (srcs ++ [source_name])%list)
  end.

Definition gather (events : list gathered) : list string * list string :=
  fold_left gather_step events ([], []).

Record SentimentResult : Type := {
  sentiment_score : PrimFloat.float;
  sentiment_category : category;
  sample_size : nat;
  sources : list string;
  analysis : option string
}.

Section Scoring.

(** [sia.polarity_scores(text)['compound']]; [None] when the call raises. *)
Variable score_fn : string -> option PrimFloat.float.

(** The guarded scoring of one text. *)
Definition score_text (text : string) : option PrimFloat.float :=
  if negb (String.eqb text "") && (0 <? String.length (Py.strip text))%nat
  then score_fn text
  else None.

Fixpoint score_all (texts : list string) : list PrimFloat.float :=
  match texts with
  | [] => []
  | text :: rest =>
      match score_text text with
      | Some score => score :: score_all rest
      | None => score_all rest
      end
  end.

(** [sum(scores)]: from 0, one rounded addition per score, in list order. *)
Definition sum (scores : list PrimFloat.float) : PrimFloat.float :=
  fold_left PrimFloat.add scores 0%float.

(** [len(scores)] as the float the division converts it to (exact below
    2^53). *)
Fixpoint count (n : nat) : PrimFloat.float :=
  match n with
  | O => 0%float
  | S k => PrimFloat.add (count k) 1%float
  end.

(** The scoring phase of [analyze_sentiment], from the collected [texts]
    and [srcs]. *)
Definition analyze_sentiment (texts srcs : list string) : SentimentResult :=
  match texts with
  | [] =>
      {| sentiment_score := 0%float; sentiment_category := neutral;
         sample_size := 0; sources := ["No data"]; analysis := None |}
  | _ :: _ =>
      let scores := score_all texts in
      match scores with
      | [] =>
          {| sentiment_score := 0%float; sentiment_category := neutral;
             sample_size := 0; sources := [];
             analysis := Some "No recent news or data available for analysis." |}
      | _ :: _ =>
          let avg_score := PrimFloat.div (sum scores) (count (List.length scores)) in
          {| sentiment_score := avg_score;
             sentiment_category := categorize_binary64 avg_score;
             sample_size := List.length scores;
             sources := firstn 5 srcs;
             analysis := Some (preview texts) |}
      end
  end.

(** Gathering followed by scoring. *)
Definition aggregate (events : list gathered) : SentimentResult :=
  let '(texts, srcs) := gather events in analyze_sentiment texts srcs.

End Scoring.

End Binary64.

(* ================================================================== *)
(** * Vocabulary of the properties

    Definitions used only to state and illustrate the properties proved
    below: predicates on strings, the gathered source labels, means, and
    the concrete inputs of the examples. *)
(* ================================================================== *)

Import TokenTracker.

(** Every character of [s] satisfies [p]. *)
Fixpoint all_chars (p : ascii -> bool) (s : string) : bool :=
  match s with
  | EmptyString => true
  | String c s' => p c && all_chars p s'
  end.

(** Not an upper-case letter. *)
Definition not_upper (c : ascii) : bool := negb (Py.is_upper c).

(** The keyword sets of the three routing branches. *)
Definition stock_keywords : list string := ["stock"; "share"; "market"].
Definition crypto_keywords : list string := ["crypto"; "bitcoin"; "solana"].
Definition health_keywords : list string := ["health"; "symptom"; "insurance"].

(** Appending one label unless present, as the gathering loops do. *)
Definition add_source (srcs : list string) (label : string) : list string :=
  if existsb (String.eqb label) srcs then srcs else (srcs ++ [label])%list.

(** The distinct labels of the samples, in first-seen order. *)
Definition gathered_sources (samples : list MetricSample) : list string :=
  snd (collect samples).

(** Right-to-left sum and mean, used to state what [sum] computes. *)
Definition total (scores : list Q) : Q := fold_right Qplus 0 scores.

Definition mean (scores : list Q) : Q :=
  match scores with
  | [] => 0
  | _ :: _ => total scores / inject_Z (Z.of_nat (List.length scores))
  end.

(** Sample sequences for the examples. *)
Definition blank_samples : list MetricSample :=
  [ {| raw_value := ""; source_label := "CoinGecko Status" |};
    {| raw_value := "   "; source_label := "News" |} ].

Definition sample (text label : string) : MetricSample :=
  {| raw_value := text; source_label := label |}.

Definition three_samples : list MetricSample :=
  [ sample "bitcoin rallies" "CoinDesk";
    sample "" "CoinGecko";
    sample "bitcoin slips" "CoinDesk" ].

Definition three_samples_reordered : list MetricSample :=
  [ sample "" "CoinGecko";
    sample "bitcoin slips" "CoinDesk";
    sample "bitcoin rallies" "CoinDesk" ].

(** A scorer for the examples: a quarter per character of the text, minus
    three. *)
Definition length_score (text : string) : option Q :=
  Some (inject_Z (Z.of_nat (String.length text)) / 4 - 3).

Definition six_samples : list MetricSample :=
  [ sample "bitcoin up" "A"; sample "bitcoin down" "B"; sample "bitcoin flat" "C";
    sample "bitcoin news" "D"; sample "bitcoin talk" "E"; sample "bitcoin view" "F" ].

(** The last character of a string. *)
Fixpoint last_char (s : string) : option ascii :=
  match s with
  | EmptyString => None
  | String c s' =>
      match s' with
      | EmptyString => Some c
      | String _ _ => last_char s'
      end
  end.

(** Everything the formatter writes before the timestamp. *)
Definition before_timestamp (query_info : Insurance.QueryInfo) (market : string)
    (sentiment_data : Insurance.SentimentData) (analysis : string) : string :=
  let nl := Insurance.nl in
  Insurance.header_of query_info ++ nl ++ nl ++
  market ++
  Insurance.sentiment_section sentiment_data ++
  Insurance.focus_section (Insurance.q_specific_terms query_info) ++
  "ðŸ“Š **Detailed Analysis**" ++ nl ++ analysis ++ nl ++ nl ++
  "---" ++ nl ++
  "ðŸ“… **Analysis Generated:** ".

(** Everything it writes after the timestamp. *)
Definition after_timestamp (query_info : Insurance.QueryInfo) : string :=
  Insurance.nl ++ Insurance.learn_more query_info.

(** Two clock readings that agree down to the second. *)
Definition same_second (a b : Clock.datetime) : Prop :=
  Clock.year a = Clock.year b /\ Clock.month a = Clock.month b /\
  Clock.day a = Clock.day b /\ Clock.hour a = Clock.hour b /\
  Clock.minute a = Clock.minute b /\ Clock.second a = Clock.second b.

(** Clock readings and formatter arguments for the examples. *)
Definition morning : Clock.datetime :=
  {| Clock.year := 2024; Clock.month := 3; Clock.day := 7;
     Clock.hour := 9; Clock.minute := 5; Clock.second := 0;
     Clock.microsecond := 120 |}.

Definition same_second_later : Clock.datetime :=
  {| Clock.year := 2024; Clock.month := 3; Clock.day := 7;
     Clock.hour := 9; Clock.minute := 5; Clock.second := 0;
     Clock.microsecond := 4800 |}.

Definition a_second_later : Clock.datetime :=
  {| Clock.year := 2024; Clock.month := 3; Clock.day := 7;
     Clock.hour := 9; Clock.minute := 5; Clock.second := 1;
     Clock.microsecond := 120 |}.

(** The titles of the facts and sentiment sections of the two responses. *)
Definition section_titles : list string :=
  [ "**Price & Market Data**"; "**Sentiment Analysis**"; "**Market Analysis**";
    "**Stock Performance**"; "**Market Sentiment**"; "**Detailed Analysis**" ].

Definition btc_price : PriceData :=
  {| p_symbol := "btc"; p_name := "Bitcoin";
     price_usd := 65432126 # 1000; market_cap := 1300000000000;
     volume_24h := 35000000000; change_24h := - (1234 # 1000);
     price_change_7d := 35 # 10; price_change_30d := 12;
     last_updated := Some 1709802300%Z |}.

Definition dental_query : Insurance.QueryInfo :=
  Insurance.extract_insurance_info_from_query "dental plan premium".

Definition flat_sentiment : Insurance.SentimentData :=
  Insurance.SentimentOk
    {| Insurance.s_score := 0; Insurance.s_category := "neutral";
       Insurance.s_sample_size := 5; Insurance.s_sources := ["Insurance News"];
       Insurance.s_analysis := None |}.

(** Not a letter. *)
Definition not_alpha (c : ascii) : bool := negb (Py.is_alpha c).

(** A scorer for the examples with values in [[-1, 1]]. *)
Definition unit_score (text : string) : option Q :=
  if Py.contains "slips" text then Some (- (1 # 2)) else Some (3 # 4).


(** The emoji [format_insurance_response] puts before the category. *)
Definition thumbs_up : string := "ðŸ‘".
Definition thumbs_down : string := "ðŸ‘Ž".
Definition flat_dash : string := "âž–".


(** The wording around the user's query in the summary the analyser sends
    for a medication request, lower-cased: up to the colon before the
    query, and after the full stop behind it. *)
Definition medication_lead : string :=
  "[analyzed] [mock asi response] insight based on your query: respond to the following user request about medication".
Definition medication_tail : string :=
  " provide reminders, dosage info, or any safety suggestions as needed.".

(** A keyword that cannot occur in, or overlap with, the fixed wording. *)
Definition keyword_fits (lead tail k : string) : bool :=
  negb (Py.contains ":" k) && negb (Py.contains "." k) && negb (String.prefix " " k) &&
  negb (Py.contains k lead) && negb (Py.contains k tail).

(** [int] on a string of ASCII digits. *)
Definition int_of_digits (s : string) : option Z :=
  if HealthAgents.Cli.isdigit s
  then Some (Z.of_N (N.of_uint (match NilZero.uint_of_string s with Some u => u | None => Decimal.Nil end)))
  else None.


(** Answers with status 200 whose content is blank. *)
Definition blank_answer (a : AsiCall.attempt) : bool :=
  match a with
  | AsiCall.Answered content => String.eqb (Py.strip content) ""
  | _ => false
  end.

Definition blank_answers (outcomes : list AsiCall.attempt) : nat :=
  List.length (filter blank_answer outcomes).

(** Retries counted, plus one once an analysis was obtained. *)
Definition progress (st : AsiCall.state) : nat :=
  (AsiCall.retry_count st + (if AsiCall.falsy (AsiCall.analysis st) then 0 else 1))%nat.

(** The longest sleeps possible after the given number of retries. *)
Definition longest (retries : nat) : nat :=
  match retries with O => 0 | S O => 3 | _ => 9 end%nat.

(** What the loop keeps true of its variables. *)
Definition well_formed (st : AsiCall.state) : Prop :=
  (progress st <= 3)%nat /\
  (List.length (AsiCall.waits st) <= Nat.min (AsiCall.retry_count st) 2)%nat /\
  (list_sum (AsiCall.waits st) <= longest (AsiCall.retry_count st))%nat.


(** The query information with another insurance type. *)
Definition with_insurance_type (t : option string) (query_info : Insurance.QueryInfo)
  : Insurance.QueryInfo :=
  {| Insurance.q_company := Insurance.q_company query_info;
     Insurance.q_insurance_type := t;
     Insurance.q_company_data := Insurance.q_company_data query_info;
     Insurance.q_specific_terms := Insurance.q_specific_terms query_info |}.

(** A quote whose change is not a number. *)
Definition broken_quote : Insurance.Quote :=
  {| Insurance.symbol := "CI"; Insurance.price := 330; Insurance.change := 0;
     Insurance.change_percent := "n/a"; Insurance.volume := 1000%Z;
     Insurance.high := 331; Insurance.low := 329; Insurance.last_updated := "2024-03-07" |}.


(** The texts and the labels the gathered events carry, in order. *)
Definition text_of (g : Binary64.gathered) : list string :=
  match g with
  | Binary64.Item text _ => [text]
  | Binary64.Note text => [text]
  | Binary64.Source _ => []
  end.

Definition label_of (g : Binary64.gathered) : list string :=
  match g with
  | Binary64.Item _ source_name => [source_name]
  | Binary64.Note _ => []
  | Binary64.Source source_name => [source_name]
  end.

Definition texts_of (events : list Binary64.gathered) : list string :=
  flat_map text_of events.

Definition labels_of (events : list Binary64.gathered) : list string :=
  flat_map label_of events.

(** The binary64 mean of the scores taken in list order. *)
Definition mean_binary64 (scores : list PrimFloat.float) : PrimFloat.float :=
  match scores with
  | [] => 0%float
  | _ :: _ => PrimFloat.div (Binary64.sum scores) (Binary64.count (List.length scores))
  end.

(** Three headlines, their compound scores, and the same headlines with the
    last two exchanged. *)
#[warnings="-inexact-float"]
Definition headline_score (text : string) : option PrimFloat.float :=
  if Py.contains "slips" text then Some (-0.49)%float
  else if Py.contains "plunges" text then Some (-0.87)%float
  else if Py.contains "soars" text then Some 0.91%float
  else None.

Definition three_headlines : list Binary64.gathered :=
  [ Binary64.Item "bitcoin slips" "CoinDesk";
    Binary64.Item "bitcoin plunges" "CoinGecko";
    Binary64.Item "bitcoin soars" "CoinDesk" ].

Definition three_headlines_reordered : list Binary64.gathered :=
  [ Binary64.Item "bitcoin slips" "CoinDesk";
    Binary64.Item "bitcoin soars" "CoinDesk";
    Binary64.Item "bitcoin plunges" "CoinGecko" ].

(** Six items from six sources, and a market-data label without a text. *)
Definition six_items : list Binary64.gathered :=
  [ Binary64.Item "bitcoin slips" "A"; Binary64.Item "bitcoin soars" "B";
    Binary64.Item "bitcoin flat" "C"; Binary64.Item "bitcoin news" "D";
    Binary64.Item "bitcoin talk" "E"; Binary64.Item "bitcoin view" "F" ].

Definition exchanges_only : list Binary64.gathered :=
  [ Binary64.Item "bitcoin soars" "CoinDesk"; Binary64.Source "CoinGecko Exchanges" ].

(** [s.isascii()] *)
Definition isascii (s : string) : bool :=
  all_chars (fun c => (nat_of_ascii c <? 128)%nat) s.

(** A medication request that mentions shortness of breath, and the summary
    the analyser sends for it. *)
Definition breathless_query : string := "Which pill helps with shortness of breath?".

Definition breathless_summary : string :=
  "[Analyzed] " ++ "[Mock ASI Response] Insight based on your query: " ++
  HealthAgents.Analyser.prompting breathless_query.

(* ================================================================== *)
(** * Properties of the string primitives *)
(* ================================================================== *)

Module PyFacts.

Import Py.

Lemma lower_char_not_upper : forall c, not_upper (lower_char c) = true.
Proof.
  intros c. destruct c as [[] [] [] [] [] [] [] []]; reflexivity.
Qed.

Lemma lower_char_fixed : forall c, not_upper c = true -> lower_char c = c.
Proof.
  intros c H. unfold lower_char, not_upper in *.
  destruct (is_upper c); [discriminate | reflexivity].
Qed.

Lemma lower_not_upper : forall s, all_chars not_upper (lower s) = true.
Proof.
  induction s as [| c s IH]; simpl.
  - reflexivity.
  - rewrite lower_char_not_upper, IH. reflexivity.
Qed.

Lemma lower_fixed : forall s, all_chars not_upper s = true -> lower s = s.
Proof.
  induction s as [| c s IH]; simpl; intros H.
  - reflexivity.
  - apply andb_true_iff in H as [Hc Hs].
    rewrite (lower_char_fixed c Hc), (IH Hs). reflexivity.
Qed.

Lemma lower_idempotent : forall s, lower (lower s) = lower s.
Proof.
  intros s. apply lower_fixed, lower_not_upper.
Qed.

(** ** Case mapping and containment *)

Lemma prefix_lower : forall a b,
  String.prefix a b = true -> String.prefix (lower a) (lower b) = true.
Proof.
  induction a as [| x a IH]; intros b H.
  - destruct b; reflexivity.
  - destruct b as [| y b]; simpl in H; [discriminate |].
    destruct (ascii_dec x y) as [-> | Hne]; [| discriminate].
    simpl. destruct (ascii_dec (lower_char y) (lower_char y)) as [_ | Hn].
    + apply IH, H.
    + exfalso. apply Hn. reflexivity.
Qed.

Lemma contains_lower : forall k s,
  contains k s = true -> contains (lower k) (lower s) = true.
Proof.
  intros k s. induction s as [| c s IH]; intros H.
  - simpl in *. apply (prefix_lower k EmptyString H).
  - cbn [contains] in H. apply orb_true_iff in H as [H | H].
    + change (lower (String c s)) with (String (lower_char c) (lower s)).
      cbn [contains].
      apply orb_true_iff. left.
      apply (prefix_lower k (String c s) H).
    + change (lower (String c s)) with (String (lower_char c) (lower s)).
      cbn [contains].
      apply orb_true_iff. right. apply IH, H.
Qed.

Lemma any_in_exists : forall keywords text,
  any_in keywords text = true <->
  exists k, In k keywords /\ contains k text = true.
Proof.
  intros keywords text. unfold any_in. apply existsb_exists.
Qed.

Lemma any_in_incl : forall ks ks' text,
  incl ks ks' -> any_in ks text = true -> any_in ks' text = true.
Proof.
  intros ks ks' text Hincl H.
  apply any_in_exists in H as [k [Hin Hk]].
  apply any_in_exists. exists k. split; [apply Hincl, Hin | exact Hk].
Qed.

(** ** The generic pattern only finds word-bounded occurrences *)

Lemma take_letters_literal : forall n prev s m p r,
  take_letters n prev s = Some (m, p, r) ->
  match_literal m prev s = Some (p, r).
Proof.
  induction n as [| n IH]; intros prev s m p r H; simpl in H.
  - injection H as <- <- <-. reflexivity.
  - destruct s as [| c s]; [discriminate |].
    destruct (is_alpha c); [| discriminate].
    destruct (take_letters n (Some c) s) as [[[m' p'] r'] |] eqn:E; [| discriminate].
    injection H as <- <- <-.
    simpl. rewrite Ascii.eqb_refl. apply IH, E.
Qed.

Lemma take_letters_chars : forall q n prev s m p r,
  take_letters n prev s = Some (m, p, r) ->
  all_chars q s = true -> all_chars q m = true.
Proof.
  intros q. induction n as [| n IH]; intros prev s m p r H Hs; simpl in H.
  - injection H as <- <- <-. reflexivity.
  - destruct s as [| c s]; [discriminate |].
    destruct (is_alpha c); [| discriminate].
    destruct (take_letters n (Some c) s) as [[[m' p'] r'] |] eqn:E; [| discriminate].
    injection H as <- <- <-.
    simpl in Hs. apply andb_true_iff in Hs as [Hc Hs].
    simpl. rewrite Hc. simpl. apply (IH _ _ _ _ _ E Hs).
Qed.

Lemma letters_then_boundary_word : forall n prev s m,
  letters_then_boundary n prev s = Some m ->
  word_boundary prev s = true ->
  match_word_at m prev s = true.
Proof.
  intros n prev s m H Hb. unfold letters_then_boundary in H.
  destruct (take_letters n prev s) as [[[m' p] r] |] eqn:E; [| discriminate].
  destruct (word_boundary p r) eqn:Hend; [| discriminate].
  injection H as <-.
  unfold match_word_at. rewrite Hb, (take_letters_literal _ _ _ _ _ _ E), Hend.
  reflexivity.
Qed.

Lemma letters_then_boundary_chars : forall q n prev s m,
  letters_then_boundary n prev s = Some m ->
  all_chars q s = true -> all_chars q m = true.
Proof.
  intros q n prev s m H Hs. unfold letters_then_boundary in H.
  destruct (take_letters n prev s) as [[[m' p] r] |] eqn:E; [| discriminate].
  destruct (word_boundary p r); [| discriminate].
  injection H as <-. apply (take_letters_chars q _ _ _ _ _ _ E Hs).
Qed.

Lemma match_generic_cases : forall prev s m,
  match_generic_at prev s = Some m ->
  word_boundary prev s = true /\
  exists n, letters_then_boundary n prev s = Some m.
Proof.
  intros prev s m H. unfold match_generic_at in H.
  destruct (word_boundary prev s); [| discriminate].
  split; [reflexivity |].
  destruct (letters_then_boundary 5 prev s) as [m5 |] eqn:E5.
  - injection H as <-. exists 5%nat. exact E5.
  - destruct (letters_then_boundary 4 prev s) as [m4 |] eqn:E4.
    + injection H as <-. exists 4%nat. exact E4.
    + exists 3%nat. exact H.
Qed.

Lemma findall_word_bounded : forall s skip prev m,
  In m (findall_from skip prev s) -> search_word_from m prev s = true.
Proof.
  induction s as [| c s IH]; intros skip prev m Hin.
  - destruct skip; contradiction.
  - cbn [search_word_from]. apply orb_true_iff.
    cbn [findall_from] in Hin. destruct skip as [| k].
    + destruct (match_generic_at prev (String c s)) as [m0 |] eqn:E.
      * destruct Hin as [<- | Hin].
        -- left. apply match_generic_cases in E as [Hb [n Hn]].
           apply (letters_then_boundary_word n); assumption.
        -- right. apply (IH _ _ _ Hin).
      * right. apply (IH _ _ _ Hin).
    + right. apply (IH _ _ _ Hin).
Qed.

Lemma all_chars_tail : forall q c s, all_chars q (String c s) = true -> all_chars q s = true.
Proof.
  intros q c s H. simpl in H. apply andb_true_iff in H. tauto.
Qed.

Lemma findall_chars : forall q s skip prev m,
  all_chars q s = true ->
  In m (findall_from skip prev s) -> all_chars q m = true.
Proof.
  intros q. induction s as [| c s IH]; intros skip prev m Hs Hin.
  - destruct skip; contradiction.
  - pose proof (all_chars_tail q c s Hs) as Ht.
    cbn [findall_from] in Hin. destruct skip as [| k].
    + destruct (match_generic_at prev (String c s)) as [m0 |] eqn:E.
      * destruct Hin as [<- | Hin].
        -- apply match_generic_cases in E as [_ [n Hn]].
           apply (letters_then_boundary_chars q n prev (String c s)); assumption.
        -- apply (IH _ _ _ Ht Hin).
      * apply (IH _ _ _ Ht Hin).
    + apply (IH _ _ _ Ht Hin).
Qed.

End PyFacts.

(* ================================================================== *)
(** * Token extraction *)
(* ================================================================== *)

Lemma dict_mem_keys : forall k d, dict_mem k d = true -> In k (keys d).
Proof.
  intros k d H. unfold dict_mem in H.
  apply existsb_exists in H as [x [Hin Heq]].
  apply String.eqb_eq in Heq. subst x. exact Hin.
Qed.

(** When no known symbol stands as a word of a lower-case query, the
    generic pattern finds no known symbol either. *)
Lemma generic_strategy_subsumed : forall query,
  all_chars not_upper query = true ->
  symbol_strategy query = None ->
  generic_strategy query = None.
Proof.
  intros query Hlow Hsym. unfold generic_strategy.
  destruct (find (fun m => dict_mem (Py.lower m) TOKEN_ID_MAP)
                 (Py.re_findall_generic query)) as [m |] eqn:E; [| reflexivity].
  exfalso.
  apply find_some in E as [Hin Hmem].
  assert (Hm : Py.lower m = m).
  { apply PyFacts.lower_fixed.
    apply (PyFacts.findall_chars _ query 0%nat None m Hlow Hin). }
  rewrite Hm in Hmem.
  apply dict_mem_keys in Hmem.
  unfold symbol_strategy in Hsym.
  pose proof (find_none _ _ Hsym m Hmem) as Hno. cbv beta in Hno.
  unfold Py.re_search_word in Hno.
  rewrite (PyFacts.findall_word_bounded query 0%nat None m Hin) in Hno.
  discriminate.
Qed.

(** C10: the third extraction strategy never determines the result:
    [extract_token_from_query] returns, on every query, what the function
    made of the first two strategies returns. *)
Theorem third_strategy_redundant : forall query : string,
  extract_token_from_query query = extract_token_two_strategies query.
Proof.
  intros query. unfold extract_token_from_query, extract_token_two_strategies.
  destruct (symbol_strategy (Py.lower query)) as [token |] eqn:Hsym; [reflexivity |].
  destruct (name_strategy (Py.lower query)) as [symbol |] eqn:Hname.
  - reflexivity.
  - apply generic_strategy_subsumed; [apply PyFacts.lower_not_upper | exact Hsym].
Qed.

(** C5: for ["what's the balance of bitcoin"] the router selects the crypto
    domain and extraction returns ["btc"]: the word-boundary symbol search
    finds nothing, the full-name search finds ["bitcoin"]. *)
Theorem balance_of_bitcoin :
  let text := "what's the balance of bitcoin" in
  Advisor.classify_domain text = Advisor.crypto /\
  symbol_strategy (Py.lower text) = None /\
  name_strategy (Py.lower text) = Some "btc" /\
  lookup_name "btc" = Some "bitcoin" /\
  extract_token_from_query text = Some "btc".
Proof.
  cbv zeta. repeat split; vm_compute; reflexivity.
Qed.

(* ================================================================== *)
(** * Routing *)
(* ================================================================== *)

Section Routing.

Import Advisor.

Lemma route_branch_stock : forall c,
  Py.any_in stock_keywords c = true -> route_branch c = stock.
Proof.
  intros c H. unfold route_branch.
  unfold Py.any_in, stock_keywords in H. cbn [existsb] in H.
  rewrite orb_false_r, orb_assoc in H. rewrite H. reflexivity.
Qed.

Lemma route_branch_crypto : forall c,
  Py.any_in stock_keywords c = false ->
  Py.any_in crypto_keywords c = true -> route_branch c = crypto.
Proof.
  intros c Hs H. unfold route_branch.
  unfold Py.any_in, stock_keywords, crypto_keywords in *. cbn [existsb] in *.
  rewrite orb_false_r, orb_assoc in Hs, H. rewrite Hs, H. reflexivity.
Qed.

Lemma route_branch_health : forall c,
  Py.any_in stock_keywords c = false ->
  Py.any_in crypto_keywords c = false ->
  Py.any_in health_keywords c = true -> route_branch c = health.
Proof.
  intros c Hs Hc H. unfold route_branch.
  unfold Py.any_in, stock_keywords, crypto_keywords, health_keywords in *.
  cbn [existsb] in *.
  rewrite orb_false_r, orb_assoc in Hs, Hc, H. rewrite Hs, Hc, H. reflexivity.
Qed.

Lemma route_branch_unknown : forall c,
  Py.any_in stock_keywords c = false ->
  Py.any_in crypto_keywords c = false ->
  Py.any_in health_keywords c = false -> route_branch c = unknown.
Proof.
  intros c Hs Hc H. unfold route_branch.
  unfold Py.any_in, stock_keywords, crypto_keywords, health_keywords in *.
  cbn [existsb] in *.
  rewrite orb_false_r, orb_assoc in Hs, Hc, H. rewrite Hs, Hc, H. reflexivity.
Qed.

(** C4: a text whose lower-cased form contains a crypto keyword and neither
    a stock nor a health keyword is classified as crypto and forwarded to
    the crypto agents; in general the cascade picks the first domain, in the
    order stock, crypto, health, one of whose keywords occurs, and [unknown]
    when none does. *)
Theorem crypto_keyword_routing : forall text : string,
  (Py.any_in crypto_keywords (Py.lower text) = true ->
   Py.any_in stock_keywords (Py.lower text) = false ->
   Py.any_in health_keywords (Py.lower text) = false ->
   classify_domain text = crypto /\
   forall who, route_message {| sender := who; content := text |}
               = [(CRYPTO_ADDRESS, text); (SOLANA_ADDRESS, text)]) /\
  classify_domain text = first_matching_domain text /\
  (classify_domain text = unknown <->
   Py.any_in (stock_keywords ++ crypto_keywords ++ health_keywords) (Py.lower text) = false).
Proof.
  intros text. unfold classify_domain, first_matching_domain.
  set (c := Py.lower text).
  split; [| split].
  - intros Hc Hs _. pose proof (route_branch_crypto c Hs Hc) as Hb.
    split; [exact Hb |].
    intros who. unfold route_message. cbn [content sender]. fold c.
    rewrite Hb. reflexivity.
  - unfold domain_keywords. cbn [find snd fst].
    fold stock_keywords crypto_keywords health_keywords.
    destruct (Py.any_in stock_keywords c) eqn:Hs.
    { apply route_branch_stock, Hs. }
    destruct (Py.any_in crypto_keywords c) eqn:Hc.
    { apply route_branch_crypto; assumption. }
    destruct (Py.any_in health_keywords c) eqn:Hh.
    { apply route_branch_health; assumption. }
    apply route_branch_unknown; assumption.
  - unfold Py.any_in. rewrite !existsb_app. fold (Py.any_in stock_keywords c).
    fold (Py.any_in crypto_keywords c). fold (Py.any_in health_keywords c).
    destruct (Py.any_in stock_keywords c) eqn:Hs.
    { rewrite (route_branch_stock c Hs). split; discriminate. }
    destruct (Py.any_in crypto_keywords c) eqn:Hc.
    { rewrite (route_branch_crypto c Hs Hc). split; discriminate. }
    destruct (Py.any_in health_keywords c) eqn:Hh.
    { rewrite (route_branch_health c Hs Hc Hh). split; discriminate. }
    rewrite (route_branch_unknown c Hs Hc Hh). split; reflexivity.
Qed.

Lemma crypto_keyword_routing_witness :
  Py.any_in crypto_keywords (Py.lower "Is Solana a good buy?") = true /\
  Py.any_in stock_keywords (Py.lower "Is Solana a good buy?") = false /\
  Py.any_in health_keywords (Py.lower "Is Solana a good buy?") = false /\
  classify_domain "Is Solana a good buy?" = crypto.
Proof.
  assert (Hc : Py.any_in crypto_keywords (Py.lower "Is Solana a good buy?") = true)
    by (vm_compute; reflexivity).
  assert (Hs : Py.any_in stock_keywords (Py.lower "Is Solana a good buy?") = false)
    by (vm_compute; reflexivity).
  assert (Hh : Py.any_in health_keywords (Py.lower "Is Solana a good buy?") = false)
    by (vm_compute; reflexivity).
  split; [exact Hc | split; [exact Hs | split; [exact Hh |]]].
  exact (proj1 (proj1 (crypto_keyword_routing "Is Solana a good buy?") Hc Hs Hh)).
Defined.

End Routing.

(* ================================================================== *)
(** * Sentiment categories *)
(* ================================================================== *)

Lemma Qle_bool_false : forall x y : Q, Qle_bool x y = false -> y < x.
Proof.
  intros x y H. apply Qnot_le_lt. intros Hle.
  apply Qle_bool_iff in Hle. congruence.
Qed.

Ltac bool_to_order :=
  repeat match goal with
  | H : Qle_bool _ _ = true |- _ => apply Qle_bool_iff in H
  | H : Qle_bool _ _ = false |- _ => apply Qle_bool_false in H
  end.

Lemma categorize_bands : forall s : Q,
  (categorize s = very_positive <-> 15 # 100 <= s) /\
  (categorize s = positive <-> 5 # 100 <= s /\ s < 15 # 100) /\
  (categorize s = neutral <-> - (5 # 100) < s /\ s < 5 # 100) /\
  (categorize s = negative <-> - (15 # 100) < s /\ s <= - (5 # 100)) /\
  (categorize s = very_negative <-> s <= - (15 # 100)).
Proof.
  intros s. unfold categorize.
  destruct (Qle_bool (15 # 100) s) eqn:H1;
    [| destruct (Qle_bool (5 # 100) s) eqn:H2;
       [| destruct (Qle_bool s (- (15 # 100))) eqn:H3;
          [| destruct (Qle_bool s (- (5 # 100))) eqn:H4]]];
  bool_to_order;
  repeat split; intros; try discriminate; try reflexivity;
  repeat match goal with H : _ /\ _ |- _ => destruct H end;
  try lra.
Qed.

(** C1: the category of a score is fixed by the five bands: at least 0.15
    very positive, from 0.05 up to 0.15 positive, strictly between -0.05
    and 0.05 neutral, above -0.15 up to -0.05 negative, at most -0.15 very
    negative; the insurance module uses the same cascade; and the four
    boundary scores 0.15, 0.1499999, -0.15 and 0.0 fall as listed, as
    rationals and as binary64 values. *)
#[warnings="-inexact-float"]
Theorem category_bands : forall s : Q,
  (categorize s = very_positive <-> 15 # 100 <= s) /\
  (categorize s = positive <-> 5 # 100 <= s /\ s < 15 # 100) /\
  (categorize s = neutral <-> - (5 # 100) < s /\ s < 5 # 100) /\
  (categorize s = negative <-> - (15 # 100) < s /\ s <= - (5 # 100)) /\
  (categorize s = very_negative <-> s <= - (15 # 100)) /\
  Insurance.categorize s = categorize s /\
  categorize (15 # 100) = very_positive /\
  categorize (1499999 # 10000000) = positive /\
  categorize (- (15 # 100)) = very_negative /\
  categorize 0 = neutral /\
  categorize_binary64 0.15%float = very_positive /\
  categorize_binary64 0.1499999%float = positive /\
  categorize_binary64 (-0.15)%float = very_negative /\
  categorize_binary64 0%float = neutral.
Proof.
  intros s.
  destruct (categorize_bands s) as (B1 & B2 & B3 & B4 & B5).
  split; [exact B1 |]. split; [exact B2 |]. split; [exact B3 |].
  split; [exact B4 |]. split; [exact B5 |].
  split; [reflexivity |].
  repeat split; vm_compute; reflexivity.
Qed.

(* ================================================================== *)
(** * Serious-condition keywords *)
(* ================================================================== *)

Lemma cli_keywords_incl :
  incl HealthCli.cli_keywords InsuranceAgent.serious_keywords.
Proof.
  intros k Hk. unfold HealthCli.cli_keywords in Hk.
  unfold InsuranceAgent.serious_keywords. simpl in *. tauto.
Qed.

Lemma receive_analysis_prompts : forall response,
  InsuranceAgent.receive_analysis response
    = [(InsuranceAgent.CLI_AGENT_ADDRESS, InsuranceAgent.prompt)] <->
  Py.any_in InsuranceAgent.serious_keywords (Py.lower response) = true.
Proof.
  intros response. unfold InsuranceAgent.receive_analysis.
  destruct (Py.any_in InsuranceAgent.serious_keywords (Py.lower response));
    split; intros H; try reflexivity; discriminate.
Qed.

(** [receive_analysis] sends the insurance prompt exactly when the
    lower-cased response contains an entry of the seven-entry keyword
    list, and sends nothing otherwise; a response containing
    ["chest pain"] triggers it, and triggers the notice of the command-line
    front end as well, whose own shorter list never fires outside the
    seven. *)
Theorem insurance_prompt_trigger : forall response : string,
  (InsuranceAgent.receive_analysis response
     = [(InsuranceAgent.CLI_AGENT_ADDRESS, InsuranceAgent.prompt)] <->
   exists k, In k InsuranceAgent.serious_keywords /\
             Py.contains k (Py.lower response) = true) /\
  (InsuranceAgent.receive_analysis response = [] <->
   forall k, In k InsuranceAgent.serious_keywords ->
             Py.contains k (Py.lower response) = false) /\
  (Py.contains "chest pain" response = true \/
   Py.contains "chest pain" (Py.lower response) = true ->
   InsuranceAgent.receive_analysis response
     = [(InsuranceAgent.CLI_AGENT_ADDRESS, InsuranceAgent.prompt)] /\
   HealthCli.serious_notice response <> []) /\
  (HealthCli.serious_notice response <> [] ->
   InsuranceAgent.receive_analysis response
     = [(InsuranceAgent.CLI_AGENT_ADDRESS, InsuranceAgent.prompt)]).
Proof.
  intros response.
  split; [| split; [| split]].
  - rewrite receive_analysis_prompts. apply PyFacts.any_in_exists.
  - unfold InsuranceAgent.receive_analysis.
    destruct (Py.any_in InsuranceAgent.serious_keywords (Py.lower response)) eqn:E.
    + split; [discriminate |]. intros Hall. exfalso.
      apply PyFacts.any_in_exists in E as [k [Hin Hk]].
      rewrite (Hall k Hin) in Hk. discriminate.
    + split; [| reflexivity]. intros _ k Hin.
      destruct (Py.contains k (Py.lower response)) eqn:Hk; [| reflexivity].
      assert (Py.any_in InsuranceAgent.serious_keywords (Py.lower response) = true)
        by (apply PyFacts.any_in_exists; exists k; split; assumption).
      congruence.
  - intros H.
    assert (Hl : Py.contains "chest pain" (Py.lower response) = true).
    { destruct H as [H | H]; [| exact H].
      apply (PyFacts.contains_lower "chest pain" response H). }
    split.
    + apply receive_analysis_prompts. apply PyFacts.any_in_exists.
      exists "chest pain". split; [left; reflexivity | exact Hl].
    + unfold HealthCli.serious_notice.
      assert (Hc : Py.any_in HealthCli.cli_keywords (Py.lower response) = true).
      { apply PyFacts.any_in_exists. exists "chest pain".
        split; [simpl; tauto | exact Hl]. }
      rewrite Hc. discriminate.
  - intros H. apply receive_analysis_prompts.
    unfold HealthCli.serious_notice in H.
    destruct (Py.any_in HealthCli.cli_keywords (Py.lower response)) eqn:E.
    + apply (PyFacts.any_in_incl _ _ _ cli_keywords_incl E).
    + exfalso. apply H. reflexivity.
Qed.

Lemma insurance_prompt_trigger_witness :
  Py.contains "chest pain" (Py.lower "I have Chest Pain today") = true /\
  HealthCli.serious_notice "I have Chest Pain today" <> [] /\
  InsuranceAgent.receive_analysis "I have Chest Pain today"
    = [(InsuranceAgent.CLI_AGENT_ADDRESS, InsuranceAgent.prompt)] /\
  InsuranceAgent.receive_analysis "I have Chest Pain today"
    = [(InsuranceAgent.CLI_AGENT_ADDRESS, InsuranceAgent.prompt)].
Proof.
  assert (H : Py.contains "chest pain" (Py.lower "I have Chest Pain today") = true)
    by (vm_compute; reflexivity).
  assert (Hn : HealthCli.serious_notice "I have Chest Pain today" <> [])
    by (vm_compute; discriminate).
  destruct (insurance_prompt_trigger "I have Chest Pain today")
    as (_ & _ & Hchest & Hcli).
  split; [exact H |]. split; [exact Hn |].
  split; [exact (proj1 (Hchest (or_intror H))) | exact (Hcli Hn)].
Defined.

(* ================================================================== *)
(** * Sentiment aggregation *)
(* ================================================================== *)

Lemma existsb_eqb_In : forall label srcs,
  existsb (String.eqb label) srcs = true <-> In label srcs.
Proof.
  intros label srcs. rewrite existsb_exists. split.
  - intros [x [Hin Heq]]. apply String.eqb_eq in Heq. subst. exact Hin.
  - intros Hin. exists label. split; [exact Hin | apply String.eqb_refl].
Qed.

Lemma add_source_In : forall srcs label x,
  In x (add_source srcs label) <-> In x srcs \/ x = label.
Proof.
  intros srcs label x. unfold add_source.
  destruct (existsb (String.eqb label) srcs) eqn:E.
  - apply existsb_eqb_In in E. split; [tauto |].
    intros [H | ->]; assumption.
  - rewrite in_app_iff. simpl. split; intros [H | H].
    + left. exact H.
    + destruct H as [<- | []]. right. reflexivity.
    + left. exact H.
    + right. left. symmetry. exact H.
Qed.

Lemma add_source_NoDup : forall srcs label,
  NoDup srcs -> NoDup (add_source srcs label).
Proof.
  intros srcs label Hnd. unfold add_source.
  destruct (existsb (String.eqb label) srcs) eqn:E; [exact Hnd |].
  assert (Hnot : ~ In label srcs).
  { intros Hin. apply existsb_eqb_In in Hin. congruence. }
  apply NoDup_app; [exact Hnd | repeat constructor; intros [] | ].
  intros x Hx [<- | []]. exact (Hnot Hx).
Qed.

Lemma gather_In : forall labels init x,
  In x (fold_left add_source labels init) <-> In x init \/ In x labels.
Proof.
  induction labels as [| l labels IH]; intros init x; simpl.
  - tauto.
  - rewrite IH, add_source_In. split; intros H; intuition auto.
Qed.

Lemma gather_NoDup : forall labels init,
  NoDup init -> NoDup (fold_left add_source labels init).
Proof.
  induction labels as [| l labels IH]; intros init H; simpl.
  - exact H.
  - apply IH, add_source_NoDup, H.
Qed.

Lemma collect_from : forall samples texts srcs,
  fold_left collect_item samples (texts, srcs) =
  ((texts ++ map raw_value samples)%list,
   fold_left add_source (map source_label samples) srcs).
Proof.
  induction samples as [| s samples IH]; intros texts srcs; simpl.
  - rewrite app_nil_r. reflexivity.
  - fold (add_source srcs (source_label s)).
    rewrite IH, <- app_assoc. reflexivity.
Qed.

Lemma collect_eq : forall samples,
  collect samples =
  (map raw_value samples, fold_left add_source (map source_label samples) []).
Proof.
  intros samples. unfold collect. rewrite collect_from. reflexivity.
Qed.

Lemma aggregate_eq : forall score_fn samples,
  aggregate score_fn samples =
  analyze_sentiment score_fn (map raw_value samples) (gathered_sources samples).
Proof.
  intros score_fn samples. unfold aggregate, gathered_sources.
  rewrite collect_eq. reflexivity.
Qed.

Lemma gathered_sources_In : forall samples x,
  In x (gathered_sources samples) <-> In x (map source_label samples).
Proof.
  intros samples x. unfold gathered_sources. rewrite collect_eq. cbn [snd].
  rewrite gather_In. simpl. tauto.
Qed.

Lemma gathered_sources_NoDup : forall samples, NoDup (gathered_sources samples).
Proof.
  intros samples. unfold gathered_sources. rewrite collect_eq. cbn [snd].
  apply gather_NoDup. constructor.
Qed.

Lemma gathered_sources_perm : forall samples samples',
  Permutation samples samples' ->
  Permutation (gathered_sources samples) (gathered_sources samples').
Proof.
  intros samples samples' Hp.
  apply NoDup_Permutation; try apply gathered_sources_NoDup.
  intros x. rewrite !gathered_sources_In.
  pose proof (Permutation_map source_label Hp) as Hm.
  split; intros H.
  - apply (Permutation_in _ Hm H).
  - apply (Permutation_in _ (Permutation_sym Hm) H).
Qed.

Section ScoringFacts.

Variable score_fn : string -> option Q.

Lemma score_all_none : forall texts,
  (forall text, In text texts -> score_text score_fn text = None) ->
  score_all score_fn texts = [].
Proof.
  induction texts as [| text texts IH]; intros H; simpl.
  - reflexivity.
  - rewrite (H text (or_introl eq_refl)). apply IH.
    intros t Ht. apply H. right. exact Ht.
Qed.

Lemma score_all_perm : forall texts texts',
  Permutation texts texts' ->
  Permutation (score_all score_fn texts) (score_all score_fn texts').
Proof.
  intros texts texts' Hp. induction Hp as [| x l l' _ IH | x y l | l l' l'' _ IH1 _ IH2].
  - constructor.
  - simpl. destruct (score_text score_fn x); [constructor |]; exact IH.
  - simpl. destruct (score_text score_fn x), (score_text score_fn y);
      try apply Permutation_refl. apply perm_swap.
  - exact (Permutation_trans IH1 IH2).
Qed.

End ScoringFacts.

Lemma sum_from : forall scores a, fold_left Qplus scores a == a + total scores.
Proof.
  induction scores as [| x scores IH]; intros a; simpl.
  - ring.
  - rewrite IH. unfold total. simpl. ring.
Qed.

Lemma sum_total : forall scores, sum scores == total scores.
Proof.
  intros scores. unfold sum. rewrite sum_from. ring.
Qed.

Lemma total_perm : forall l l', Permutation l l' -> total l == total l'.
Proof.
  intros l l' Hp. unfold total.
  induction Hp as [| x l l' _ IH | x y l | l l' l'' _ IH1 _ IH2]; simpl.
  - reflexivity.
  - rewrite IH. reflexivity.
  - ring.
  - rewrite IH1. exact IH2.
Qed.

Lemma categorize_compat : forall s s', s == s' -> categorize s = categorize s'.
Proof.
  intros s s' H. unfold categorize.
  assert (E1 : Qle_bool (15 # 100) s = Qle_bool (15 # 100) s') by (rewrite H; reflexivity).
  assert (E2 : Qle_bool (5 # 100) s = Qle_bool (5 # 100) s') by (rewrite H; reflexivity).
  assert (E3 : Qle_bool s (- (15 # 100)) = Qle_bool s' (- (15 # 100))) by (rewrite H; reflexivity).
  assert (E4 : Qle_bool s (- (5 # 100)) = Qle_bool s' (- (5 # 100))) by (rewrite H; reflexivity).
  rewrite E1, E2, E3, E4. reflexivity.
Qed.

(** The fields of the result, case by case. *)
Lemma analyze_sentiment_scored : forall score_fn texts srcs x rest,
  score_all score_fn texts = x :: rest ->
  let scores := x :: rest in
  let r := analyze_sentiment score_fn texts srcs in
  sentiment_score r = sum scores / inject_Z (Z.of_nat (List.length scores)) /\
  sentiment_category r = categorize (sentiment_score r) /\
  sample_size r = List.length scores /\
  sources r = firstn 5 srcs.
Proof.
  intros score_fn texts srcs x rest E. cbv zeta.
  unfold analyze_sentiment. destruct texts as [| t texts]; [discriminate |].
  rewrite E. cbn [sentiment_score sentiment_category sample_size sources].
  repeat split.
Qed.

Lemma analyze_sentiment_unscored : forall score_fn texts srcs,
  score_all score_fn texts = [] ->
  let r := analyze_sentiment score_fn texts srcs in
  sentiment_score r = 0 /\ sentiment_category r = neutral /\
  sample_size r = 0%nat /\
  sources r = match texts with [] => ["No data"] | _ :: _ => [] end.
Proof.
  intros score_fn texts srcs E. cbv zeta.
  unfold analyze_sentiment. destruct texts as [| t texts].
  - repeat split.
  - rewrite E. repeat split.
Qed.

(** C2, as the code has it: when no sample scores, the result has score
    0.0, category neutral and sample size 0; its sources are ["No data"]
    for an empty sequence and the empty list for a non-empty sequence of
    unparseable samples. *)
Theorem zero_scored_result : forall (score_fn : string -> option Q)
    (samples : list MetricSample),
  (forall s, In s samples -> score_text score_fn (raw_value s) = None) ->
  sentiment_score (aggregate score_fn samples) = 0 /\
  sentiment_category (aggregate score_fn samples) = neutral /\
  sample_size (aggregate score_fn samples) = 0%nat /\
  sources (aggregate score_fn samples) =
    match samples with [] => ["No data"] | _ :: _ => [] end.
Proof.
  intros score_fn samples H. rewrite aggregate_eq.
  assert (E : score_all score_fn (map raw_value samples) = []).
  { apply score_all_none. intros text Hin.
    apply in_map_iff in Hin as [s [<- Hs]]. apply H, Hs. }
  destruct (analyze_sentiment_unscored score_fn _ (gathered_sources samples) E)
    as (H1 & H2 & H3 & H4).
  rewrite H1, H2, H3, H4. destruct samples; repeat split.
Qed.

Lemma zero_scored_result_witness :
  (forall s, In s blank_samples ->
             score_text (fun _ => Some (1 # 2)) (raw_value s) = None) /\
  sample_size (aggregate (fun _ => Some (1 # 2)) blank_samples) = 0%nat /\
  sources (aggregate (fun _ => Some (1 # 2)) blank_samples) = [].
Proof.
  assert (H : forall s, In s blank_samples ->
                        score_text (fun _ => Some (1 # 2)) (raw_value s) = None).
  { intros s [<- | [<- | []]]; reflexivity. }
  split; [exact H |].
  pose proof (zero_scored_result (fun _ => Some (1 # 2)) blank_samples H)
    as (_ & _ & H3 & H4).
  split; [exact H3 | exact H4].
Defined.

(** C2, as stated, fails: a non-empty sequence whose only sample is the
    empty text scores nothing, and its sources are the empty list, not
    ["No data"] as for the empty sequence. *)
Lemma unparseable_sources_differ :
  score_all (fun _ => Some (1 # 2)) [""] = [] /\
  sources (aggregate (fun _ => Some (1 # 2))
             [ {| raw_value := ""; source_label := "CoinGecko Status" |} ]) = [] /\
  sources (aggregate (fun _ => Some (1 # 2)) []) = ["No data"] /\
  aggregate (fun _ => Some (1 # 2))
    [ {| raw_value := ""; source_label := "CoinGecko Status" |} ]
  <> aggregate (fun _ => Some (1 # 2)) [].
Proof.
  split; [reflexivity |]. split; [reflexivity |]. split; [reflexivity |].
  intros H. apply (f_equal sources) in H. vm_compute in H. discriminate.
Qed.

Lemma aggregate_score_mean : forall score_fn samples,
  sentiment_score (aggregate score_fn samples)
  == mean (score_all score_fn (map raw_value samples)).
Proof.
  intros score_fn samples. rewrite aggregate_eq.
  destruct (score_all score_fn (map raw_value samples)) as [| x rest] eqn:E.
  - destruct (analyze_sentiment_unscored score_fn _ (gathered_sources samples) E)
      as (H1 & _). rewrite H1. reflexivity.
  - destruct (analyze_sentiment_scored score_fn _ (gathered_sources samples) x rest E)
      as (H1 & _). rewrite H1. unfold mean. rewrite sum_total. reflexivity.
Qed.

Lemma mean_perm : forall l l', Permutation l l' -> mean l == mean l'.
Proof.
  intros l l' Hp. unfold mean.
  destruct l as [| x l]; destruct l' as [| y l'].
  - reflexivity.
  - apply Permutation_nil in Hp. discriminate.
  - apply Permutation_sym, Permutation_nil in Hp. discriminate.
  - rewrite (total_perm _ _ Hp), (Permutation_length Hp). reflexivity.
Qed.

Lemma aggregate_category : forall score_fn samples,
  sentiment_category (aggregate score_fn samples)
  = categorize (sentiment_score (aggregate score_fn samples)).
Proof.
  intros score_fn samples. rewrite aggregate_eq.
  destruct (score_all score_fn (map raw_value samples)) as [| x rest] eqn:E.
  - destruct (analyze_sentiment_unscored score_fn _ (gathered_sources samples) E)
      as (H1 & H2 & _). rewrite H1, H2. reflexivity.
  - destruct (analyze_sentiment_scored score_fn _ (gathered_sources samples) x rest E)
      as (_ & H2 & _). exact H2.
Qed.

Lemma aggregate_sample_size : forall score_fn samples,
  sample_size (aggregate score_fn samples)
  = List.length (score_all score_fn (map raw_value samples)).
Proof.
  intros score_fn samples. rewrite aggregate_eq.
  destruct (score_all score_fn (map raw_value samples)) as [| x rest] eqn:E.
  - destruct (analyze_sentiment_unscored score_fn _ (gathered_sources samples) E)
      as (_ & _ & H3 & _). exact H3.
  - destruct (analyze_sentiment_scored score_fn _ (gathered_sources samples) x rest E)
      as (_ & _ & H3 & _). exact H3.
Qed.

(** The sources of the result: a fixed default when nothing was scored,
    the first five gathered labels otherwise. *)
Lemma aggregate_sources : forall score_fn samples,
  sources (aggregate score_fn samples) =
  match samples, score_all score_fn (map raw_value samples) with
  | [], _ => ["No data"]
  | _ :: _, [] => []
  | _ :: _, _ :: _ => firstn 5 (gathered_sources samples)
  end.
Proof.
  intros score_fn samples. rewrite aggregate_eq.
  destruct (score_all score_fn (map raw_value samples)) as [| x rest] eqn:E.
  - destruct (analyze_sentiment_unscored score_fn _ (gathered_sources samples) E)
      as (_ & _ & _ & H4). rewrite H4.
    destruct samples as [| s samples]; [reflexivity |].
    rewrite E. reflexivity.
  - destruct (analyze_sentiment_scored score_fn _ (gathered_sources samples) x rest E)
      as (_ & _ & _ & H4). rewrite H4.
    destruct samples as [| s samples]; [discriminate |].
    rewrite E. reflexivity.
Qed.

(** ** The aggregation on binary64 scores *)

Lemma gather_from : forall events texts srcs,
  fold_left Binary64.gather_step events (texts, srcs) =
  ((texts ++ texts_of events)%list, fold_left add_source (labels_of events) srcs).
Proof.
  induction events as [| g events IH]; intros texts srcs.
  - cbn. rewrite app_nil_r. reflexivity.
  - destruct g as [text source_name | text | source_name];
      cbn [fold_left Binary64.gather_step];
      try fold (add_source srcs source_name);
      rewrite IH; unfold texts_of, labels_of;
      cbn [flat_map text_of label_of app fold_left];
      rewrite <- ?app_assoc; reflexivity.
Qed.

Lemma gather_eq : forall events,
  Binary64.gather events = (texts_of events, fold_left add_source (labels_of events) []).
Proof.
  intros events. unfold Binary64.gather. rewrite gather_from. reflexivity.
Qed.

Lemma gathered_labels_In : forall events x,
  In x (snd (Binary64.gather events)) <-> In x (labels_of events).
Proof.
  intros events x. rewrite gather_eq. cbn [snd]. rewrite gather_In. simpl. tauto.
Qed.

Lemma gathered_labels_NoDup : forall events, NoDup (snd (Binary64.gather events)).
Proof.
  intros events. rewrite gather_eq. cbn [snd]. apply gather_NoDup. constructor.
Qed.

Lemma gathered_labels_perm : forall events events',
  Permutation events events' ->
  Permutation (snd (Binary64.gather events)) (snd (Binary64.gather events')).
Proof.
  intros events events' Hp.
  apply NoDup_Permutation; try apply gathered_labels_NoDup.
  intros x. rewrite !gathered_labels_In.
  pose proof (Permutation_flat_map label_of Hp) as Hm. fold (labels_of events) in Hm.
  fold (labels_of events') in Hm.
  split; intros H.
  - apply (Permutation_in _ Hm H).
  - apply (Permutation_in _ (Permutation_sym Hm) H).
Qed.

Section Binary64Facts.

Variable score_fn : string -> option PrimFloat.float.

Lemma score_all_binary64_perm : forall texts texts',
  Permutation texts texts' ->
  Permutation (Binary64.score_all score_fn texts) (Binary64.score_all score_fn texts').
Proof.
  intros texts texts' Hp. induction Hp as [| x l l' _ IH | x y l | l l' l'' _ IH1 _ IH2].
  - constructor.
  - simpl. destruct (Binary64.score_text score_fn x); [constructor |]; exact IH.
  - simpl. destruct (Binary64.score_text score_fn x), (Binary64.score_text score_fn y);
      try apply Permutation_refl. apply perm_swap.
  - exact (Permutation_trans IH1 IH2).
Qed.

Lemma score_all_binary64_length : forall texts,
  (List.length (Binary64.score_all score_fn texts) <= List.length texts)%nat.
Proof.
  induction texts as [| text texts IH]; simpl; [lia |].
  destruct (Binary64.score_text score_fn text); simpl; lia.
Qed.

Lemma aggregate_binary64_eq : forall events,
  Binary64.aggregate score_fn events =
  Binary64.analyze_sentiment score_fn (fst (Binary64.gather events))
    (snd (Binary64.gather events)).
Proof.
  intros events. unfold Binary64.aggregate.
  destruct (Binary64.gather events) as [texts srcs]. reflexivity.
Qed.

(** The fields of the result in terms of the scored values. *)
Lemma aggregate_binary64_fields : forall events,
  Binary64.sample_size (Binary64.aggregate score_fn events) =
    List.length (Binary64.score_all score_fn (fst (Binary64.gather events))) /\
  Binary64.sentiment_score (Binary64.aggregate score_fn events) =
    mean_binary64 (Binary64.score_all score_fn (fst (Binary64.gather events))) /\
  Binary64.sentiment_category (Binary64.aggregate score_fn events) =
    categorize_binary64 (Binary64.sentiment_score (Binary64.aggregate score_fn events)) /\
  Binary64.sources (Binary64.aggregate score_fn events) =
    match fst (Binary64.gather events),
          Binary64.score_all score_fn (fst (Binary64.gather events)) with
    | [], _ => ["No data"]
    | _ :: _, [] => []
    | _ :: _, _ :: _ => firstn 5 (snd (Binary64.gather events))
    end.
Proof.
  intros events. rewrite aggregate_binary64_eq.
  destruct (Binary64.gather events) as [texts srcs]. cbn [fst snd].
  unfold Binary64.analyze_sentiment.
  destruct texts as [| t texts]; [repeat split |].
  destruct (Binary64.score_all score_fn (t :: texts)) as [| x rest]; repeat split.
Qed.

End Binary64Facts.

(** C3, as the code has it: reordering what was gathered leaves the sample
    size unchanged, scores the same values (as a multiset) and gathers the
    same set of source labels; the score is the binary64 mean of the scored
    values taken in their order, and the category is the bucket of that
    score, so both are unchanged whenever the scored values come in the
    same order; the reported sources, which keep the first five gathered
    labels, are the same set whenever at most five distinct labels were
    gathered. *)
Theorem aggregate_reordering : forall (score_fn : string -> option PrimFloat.float)
    (events events' : list Binary64.gathered),
  Permutation events events' ->
  Binary64.sample_size (Binary64.aggregate score_fn events)
    = Binary64.sample_size (Binary64.aggregate score_fn events') /\
  Permutation (Binary64.score_all score_fn (fst (Binary64.gather events)))
              (Binary64.score_all score_fn (fst (Binary64.gather events'))) /\
  Binary64.sentiment_score (Binary64.aggregate score_fn events)
    = mean_binary64 (Binary64.score_all score_fn (fst (Binary64.gather events))) /\
  Binary64.sentiment_category (Binary64.aggregate score_fn events)
    = categorize_binary64 (Binary64.sentiment_score (Binary64.aggregate score_fn events)) /\
  (Binary64.score_all score_fn (fst (Binary64.gather events))
     = Binary64.score_all score_fn (fst (Binary64.gather events')) ->
   Binary64.sentiment_score (Binary64.aggregate score_fn events)
     = Binary64.sentiment_score (Binary64.aggregate score_fn events') /\
   Binary64.sentiment_category (Binary64.aggregate score_fn events)
     = Binary64.sentiment_category (Binary64.aggregate score_fn events')) /\
  (forall x, In x (snd (Binary64.gather events)) <-> In x (snd (Binary64.gather events'))) /\
  ((List.length (snd (Binary64.gather events)) <= 5)%nat ->
   forall x, In x (Binary64.sources (Binary64.aggregate score_fn events))
             <-> In x (Binary64.sources (Binary64.aggregate score_fn events'))).
Proof.
  intros score_fn events events' Hp.
  assert (Ht : Permutation (fst (Binary64.gather events)) (fst (Binary64.gather events'))).
  { rewrite !gather_eq. cbn [fst]. apply (Permutation_flat_map text_of Hp). }
  pose proof (score_all_binary64_perm score_fn _ _ Ht) as Hs.
  pose proof (gathered_labels_perm _ _ Hp) as Hg.
  destruct (aggregate_binary64_fields score_fn events) as (Hn & Hm & Hc & Hsrc).
  destruct (aggregate_binary64_fields score_fn events') as (Hn' & Hm' & Hc' & Hsrc').
  split; [rewrite Hn, Hn'; apply Permutation_length, Hs |].
  split; [exact Hs |]. split; [exact Hm |]. split; [exact Hc |].
  split; [| split].
  - intros E.
    assert (Hscore : Binary64.sentiment_score (Binary64.aggregate score_fn events)
                     = Binary64.sentiment_score (Binary64.aggregate score_fn events')).
    { rewrite Hm, Hm', E. reflexivity. }
    split; [exact Hscore |]. rewrite Hc, Hc', Hscore. reflexivity.
  - intros x. split; intros H.
    + apply (Permutation_in _ Hg H).
    + apply (Permutation_in _ (Permutation_sym Hg) H).
  - intros Hlen x. rewrite Hsrc, Hsrc'.
    assert (Hlen' : (List.length (snd (Binary64.gather events')) <= 5)%nat)
      by (rewrite <- (Permutation_length Hg); exact Hlen).
    rewrite !firstn_all2 by assumption.
    destruct (fst (Binary64.gather events)) as [| t texts];
      destruct (fst (Binary64.gather events')) as [| t' texts'].
    + tauto.
    + apply Permutation_nil in Ht. discriminate.
    + apply Permutation_sym, Permutation_nil in Ht. discriminate.
    + destruct (Binary64.score_all score_fn (t :: texts)) as [| a l];
        destruct (Binary64.score_all score_fn (t' :: texts')) as [| a' l'].
      * tauto.
      * apply Permutation_nil in Hs. discriminate.
      * apply Permutation_sym, Permutation_nil in Hs. discriminate.
      * split; intros H.
        -- apply (Permutation_in _ Hg H).
        -- apply (Permutation_in _ (Permutation_sym Hg) H).
Qed.

Lemma aggregate_reordering_witness :
  Permutation three_headlines three_headlines_reordered /\
  (List.length (snd (Binary64.gather three_headlines)) <= 5)%nat /\
  Binary64.sample_size (Binary64.aggregate headline_score three_headlines)
    = Binary64.sample_size (Binary64.aggregate headline_score three_headlines_reordered) /\
  (forall x, In x (Binary64.sources (Binary64.aggregate headline_score three_headlines))
             <-> In x (Binary64.sources
                         (Binary64.aggregate headline_score three_headlines_reordered))).
Proof.
  assert (Hp : Permutation three_headlines three_headlines_reordered).
  { unfold three_headlines, three_headlines_reordered. apply perm_skip, perm_swap. }
  assert (Hlen : (List.length (snd (Binary64.gather three_headlines)) <= 5)%nat).
  { vm_compute. lia. }
  pose proof (aggregate_reordering headline_score _ _ Hp)
    as (Hsize & _ & _ & _ & _ & _ & Hsrc).
  split; [exact Hp |]. split; [exact Hlen |].
  split; [exact Hsize | exact (Hsrc Hlen)].
Defined.

(** C3, as stated, fails twice.  The scores -0.49, -0.87 and 0.91 add up to
    a mean just above -0.15 in this order and to -0.15 itself with the last
    two exchanged, so the score differs and the category changes from
    negative to very negative; and with six distinct source labels the
    reported sources keep the first five seen, so reversing the items
    reports a different set of labels. *)
#[warnings="-inexact-float"]
Lemma reordering_changes_result :
  Permutation three_headlines three_headlines_reordered /\
  Binary64.score_all headline_score (fst (Binary64.gather three_headlines))
    = [(-0.49)%float; (-0.87)%float; 0.91%float] /\
  Binary64.score_all headline_score (fst (Binary64.gather three_headlines_reordered))
    = [(-0.49)%float; 0.91%float; (-0.87)%float] /\
  PrimFloat.ltb
    (Binary64.sentiment_score (Binary64.aggregate headline_score three_headlines_reordered))
    (Binary64.sentiment_score (Binary64.aggregate headline_score three_headlines)) = true /\
  Binary64.sentiment_category (Binary64.aggregate headline_score three_headlines)
    = negative /\
  Binary64.sentiment_category (Binary64.aggregate headline_score three_headlines_reordered)
    = very_negative /\
  Permutation six_items (List.rev six_items) /\
  Binary64.sources (Binary64.aggregate headline_score six_items)
    = ["A"; "B"; "C"; "D"; "E"] /\
  Binary64.sources (Binary64.aggregate headline_score (List.rev six_items))
    = ["F"; "E"; "D"; "C"; "B"] /\
  ~ In "A" (Binary64.sources (Binary64.aggregate headline_score (List.rev six_items))).
Proof.
  split; [unfold three_headlines, three_headlines_reordered; apply perm_skip, perm_swap |].
  split; [vm_compute; reflexivity |]. split; [vm_compute; reflexivity |].
  split; [vm_compute; reflexivity |]. split; [vm_compute; reflexivity |].
  split; [vm_compute; reflexivity |].
  split; [apply Permutation_rev |].
  split; [vm_compute; reflexivity |]. split; [vm_compute; reflexivity |].
  intros H. vm_compute in H.
  repeat (destruct H as [H | H]; [discriminate |]). exact H.
Qed.

(* ================================================================== *)
(** * Numeric formatting *)
(* ================================================================== *)

Module NumFacts.

Import Py PyNum PyFacts.

Lemma append_nil_r : forall s : string, s ++ "" = s.
Proof.
  induction s as [| c s IH]; simpl; [reflexivity | rewrite IH; reflexivity].
Qed.

Lemma append_assoc : forall a b c : string, (a ++ b) ++ c = a ++ (b ++ c).
Proof.
  induction a as [| x a IH]; intros b c; simpl; [reflexivity | rewrite IH; reflexivity].
Qed.

Lemma append_empty : forall a b : string, a ++ b = "" -> a = "" /\ b = "".
Proof.
  intros a b H. destruct a; simpl in H; [split; [reflexivity | exact H] | discriminate].
Qed.

Lemma last_char_app : forall a b, b <> "" -> last_char (a ++ b) = last_char b.
Proof.
  induction a as [| c a IH]; intros b Hb; simpl.
  - reflexivity.
  - destruct (a ++ b) eqn:E.
    + apply append_empty in E as [_ E]. contradiction.
    + rewrite <- E. apply IH, Hb.
Qed.


Lemma all_chars_app : forall p a b,
  all_chars p (a ++ b) = all_chars p a && all_chars p b.
Proof.
  intros p. induction a as [| c a IH]; intros b; simpl.
  - reflexivity.
  - rewrite IH, andb_assoc. reflexivity.
Qed.

Lemma all_chars_last : forall p s c,
  all_chars p s = true -> last_char s = Some c -> p c = true.
Proof.
  intros p. induction s as [| x s IH]; intros c Hs Hl; simpl in *.
  - discriminate.
  - apply andb_true_iff in Hs as [Hx Hs].
    destruct s as [| y s].
    + injection Hl as <-. exact Hx.
    + apply (IH c Hs Hl).
Qed.


Lemma last_char_some : forall s, s <> "" -> exists c, last_char s = Some c.
Proof.
  induction s as [| x s IH]; intros H; [contradiction |].
  simpl. destruct s as [| y s].
  - exists x. reflexivity.
  - apply IH. discriminate.
Qed.

(** ** Decimal digits *)

Lemma uint_digits : forall u, all_chars is_digit (NilEmpty.string_of_uint u) = true.
Proof.
  induction u; simpl; try rewrite IHu; reflexivity.
Qed.

Lemma dec_digits : forall z, all_chars is_digit (dec z) = true.
Proof.
  intros z. unfold dec, NilZero.string_of_uint.
  destruct (N.to_uint (Z.to_N z)) eqn:E; try reflexivity;
    rewrite <- E; apply uint_digits.
Qed.

Lemma dec_nonempty : forall z, dec z <> "".
Proof.
  intros z. unfold dec, NilZero.string_of_uint.
  destruct (N.to_uint (Z.to_N z)); simpl; discriminate.
Qed.

Lemma zeros_digits : forall n, all_chars is_digit (zeros n) = true.
Proof.
  induction n as [| n IH]; simpl; [reflexivity | exact IH].
Qed.

Lemma zfill_digits : forall w s,
  all_chars is_digit s = true -> all_chars is_digit (zfill w s) = true.
Proof.
  intros w s H. unfold zfill. rewrite all_chars_app, zeros_digits, H. reflexivity.
Qed.

Lemma zfill_nonempty : forall w s, s <> "" -> zfill w s <> "".
Proof.
  intros w s H E. unfold zfill in E. apply append_empty in E as [_ E]. contradiction.
Qed.





End NumFacts.





(* ================================================================== *)
(** * The clarification replies of the chat handlers *)
(* ================================================================== *)

Lemma extracted_token_known : forall text t,
  extract_token_from_query text = Some t -> In t (keys TOKEN_ID_MAP).
Proof.
  intros text t H. unfold extract_token_from_query in H.
  destruct (symbol_strategy (Py.lower text)) as [token |] eqn:E1.
  - injection H as <-. unfold symbol_strategy in E1.
    apply find_some in E1 as [Hin _]. exact Hin.
  - destruct (name_strategy (Py.lower text)) as [symbol |] eqn:E2.
    + injection H as <-. unfold name_strategy in E2.
      destruct (find _ TOKEN_ID_MAP) as [item |] eqn:E; [| discriminate].
      injection E2 as <-. apply find_some in E as [Hin _].
      unfold keys. apply in_map, Hin.
    + unfold generic_strategy in H.
      destruct (find _ (Py.re_findall_generic (Py.lower text))) as [m |] eqn:E;
        [| discriminate].
      injection H as <-. apply find_some in E as [_ Hmem].
      apply dict_mem_keys, Hmem.
Qed.

Lemma nonempty_members : forall (l : list string) k,
  forallb (fun x => negb (String.eqb x "")) l = true ->
  In k l -> String.eqb k "" = false.
Proof.
  intros l k Hall Hin.
  pose proof (proj1 (forallb_forall _ l) Hall k Hin) as H. cbv beta in H.
  apply negb_true_iff in H. exact H.
Qed.

Lemma extracted_token_nonempty : forall text t,
  extract_token_from_query text = Some t -> String.eqb t "" = false.
Proof.
  intros text t H.
  apply (nonempty_members (keys TOKEN_ID_MAP)); [reflexivity |].
  apply (extracted_token_known text), H.
Qed.

Lemma extracted_company_nonempty : forall text k,
  Insurance.q_company (Insurance.extract_insurance_info_from_query text) = Some k ->
  String.eqb k "" = false.
Proof.
  intros text k H. unfold Insurance.extract_insurance_info_from_query in H.
  cbn [Insurance.q_company] in H.
  destruct (find _ Insurance.MAJOR_INSURANCE_COMPANIES) as [item |] eqn:E;
    [| discriminate].
  injection H as <-. apply find_some in E as [Hin _].
  apply (nonempty_members (map fst Insurance.MAJOR_INSURANCE_COMPANIES));
    [reflexivity | apply in_map, Hin].
Qed.

Lemma extracted_type_nonempty : forall text t,
  Insurance.q_insurance_type (Insurance.extract_insurance_info_from_query text) = Some t ->
  String.eqb t "" = false.
Proof.
  intros text t H. unfold Insurance.extract_insurance_info_from_query in H.
  cbn [Insurance.q_insurance_type] in H.
  destruct (find _ Insurance.INSURANCE_TYPES) as [item |] eqn:E; [| discriminate].
  injection H as <-. apply find_some in E as [Hin _].
  apply (nonempty_members (map fst Insurance.INSURANCE_TYPES));
    [reflexivity | apply in_map, Hin].
Qed.

Lemma falsy_extracted_company : forall text,
  Insurance.falsy (Insurance.q_company (Insurance.extract_insurance_info_from_query text)) = true
  <-> Insurance.q_company (Insurance.extract_insurance_info_from_query text) = None.
Proof.
  intros text.
  destruct (Insurance.q_company (Insurance.extract_insurance_info_from_query text))
    as [k |] eqn:E; simpl.
  - rewrite (extracted_company_nonempty text k E). split; discriminate.
  - tauto.
Qed.

Lemma falsy_extracted_type : forall text,
  Insurance.falsy (Insurance.q_insurance_type (Insurance.extract_insurance_info_from_query text)) = true
  <-> Insurance.q_insurance_type (Insurance.extract_insurance_info_from_query text) = None.
Proof.
  intros text.
  destruct (Insurance.q_insurance_type (Insurance.extract_insurance_info_from_query text))
    as [t |] eqn:E; simpl.
  - rewrite (extracted_type_nonempty text t E). split; discriminate.
  - tauto.
Qed.

(** C9, as the code has it: the token handler replies with its fixed
    clarification, and awaits no outlook, exactly when no token is
    extracted; the insurance handler replies with its fixed clarification,
    and awaits no analysis, exactly when neither a company nor an insurance
    type is extracted, and runs the analysis in every other case; neither
    clarification carries a facts or sentiment section. *)
Theorem clarification_replies : forall (outlook_of : string -> string)
    (analysis_of : Insurance.QueryInfo -> string) (text : string),
  (handle_chat_message outlook_of text = [Send clarification]
   <-> extract_token_from_query text = None) /\
  (forall t, extract_token_from_query text = Some t ->
             handle_chat_message outlook_of text = [Outlook t; Send (outlook_of t)]) /\
  (Insurance.handle_chat_message analysis_of text = [Insurance.Send Insurance.clarification]
   <-> Insurance.q_company (Insurance.extract_insurance_info_from_query text) = None /\
       Insurance.q_insurance_type (Insurance.extract_insurance_info_from_query text) = None) /\
  (Insurance.q_company (Insurance.extract_insurance_info_from_query text) <> None \/
   Insurance.q_insurance_type (Insurance.extract_insurance_info_from_query text) <> None ->
   Insurance.handle_chat_message analysis_of text =
   [ Insurance.Analyse (Insurance.extract_insurance_info_from_query text);
     Insurance.Send (analysis_of (Insurance.extract_insurance_info_from_query text)) ]) /\
  Py.any_in section_titles clarification = false /\
  Py.any_in section_titles Insurance.clarification = false.
Proof.
  intros outlook_of analysis_of text.
  assert (Htok : forall t, extract_token_from_query text = Some t ->
            handle_chat_message outlook_of text = [Outlook t; Send (outlook_of t)]).
  { intros t Ht. unfold handle_chat_message.
    rewrite Ht, (extracted_token_nonempty text t Ht). reflexivity. }
  assert (Hins : Insurance.handle_chat_message analysis_of text =
            if Insurance.falsy (Insurance.q_company (Insurance.extract_insurance_info_from_query text))
               && Insurance.falsy (Insurance.q_insurance_type (Insurance.extract_insurance_info_from_query text))
            then [Insurance.Send Insurance.clarification]
            else [ Insurance.Analyse (Insurance.extract_insurance_info_from_query text);
                   Insurance.Send (analysis_of (Insurance.extract_insurance_info_from_query text)) ])
    by reflexivity.
  split; [| split; [exact Htok | split; [| split; [| split; reflexivity]]]].
  - destruct (extract_token_from_query text) as [t |] eqn:E.
    + rewrite (Htok t eq_refl). split; discriminate.
    + unfold handle_chat_message. rewrite E. split; reflexivity.
  - rewrite Hins, <- falsy_extracted_company, <- falsy_extracted_type.
    destruct (Insurance.falsy _); destruct (Insurance.falsy _); simpl;
      split; try discriminate; try tauto; intros [? ?]; discriminate.
  - intros H. rewrite Hins.
    destruct (Insurance.falsy (Insurance.q_company _)) eqn:Ec;
      [| reflexivity].
    destruct (Insurance.falsy (Insurance.q_insurance_type _)) eqn:Et;
      [| reflexivity].
    apply falsy_extracted_company in Ec. apply falsy_extracted_type in Et.
    exfalso. destruct H as [H | H]; [apply H, Ec | apply H, Et].
Qed.

Lemma clarification_replies_witness :
  (extract_token_from_query "how is the weather" = None /\
   handle_chat_message (fun t => "outlook for " ++ t) "how is the weather"
     = [Send clarification]) /\
  (extract_token_from_query "price of Doge" = Some "doge" /\
   handle_chat_message (fun t => "outlook for " ++ t) "price of Doge"
     = [Outlook "doge"; Send "outlook for doge"]) /\
  (Insurance.q_company (Insurance.extract_insurance_info_from_query "how is the weather") = None /\
   Insurance.q_insurance_type (Insurance.extract_insurance_info_from_query "how is the weather") = None /\
   Insurance.handle_chat_message (fun _ => "ANALYSIS") "how is the weather"
     = [Insurance.Send Insurance.clarification]) /\
  (Insurance.q_insurance_type (Insurance.extract_insurance_info_from_query "dental plan") <> None /\
   Insurance.handle_chat_message (fun _ => "ANALYSIS") "dental plan"
     = [ Insurance.Analyse (Insurance.extract_insurance_info_from_query "dental plan");
         Insurance.Send "ANALYSIS" ]).
Proof.
  assert (H1 : extract_token_from_query "how is the weather" = None)
    by (vm_compute; reflexivity).
  assert (H2 : extract_token_from_query "price of Doge" = Some "doge")
    by (vm_compute; reflexivity).
  assert (H3 : Insurance.q_company
                 (Insurance.extract_insurance_info_from_query "how is the weather") = None)
    by (vm_compute; reflexivity).
  assert (H4 : Insurance.q_insurance_type
                 (Insurance.extract_insurance_info_from_query "how is the weather") = None)
    by (vm_compute; reflexivity).
  assert (H5 : Insurance.q_insurance_type
                 (Insurance.extract_insurance_info_from_query "dental plan") <> None)
    by (vm_compute; discriminate).
  destruct (clarification_replies (fun t => "outlook for " ++ t) (fun _ => "ANALYSIS")
              "how is the weather") as (W1 & _ & W3 & _).
  destruct (clarification_replies (fun t => "outlook for " ++ t) (fun _ => "ANALYSIS")
              "price of Doge") as (_ & D2 & _).
  destruct (clarification_replies (fun t => "outlook for " ++ t) (fun _ => "ANALYSIS")
              "dental plan") as (_ & _ & _ & P4 & _).
  split; [split; [exact H1 | exact (proj2 W1 H1)] |].
  split; [split; [exact H2 | exact (D2 "doge" H2)] |].
  split; [split; [exact H3 | split; [exact H4 | exact (proj2 W3 (conj H3 H4))]] |].
  split; [exact H5 | exact (P4 (or_intror H5))].
Defined.

(** C9, as stated, fails: for ["dental plan"] no company is extracted, yet
    the handler awaits the analysis and sends its result instead of the
    clarification, because an insurance type was found. *)
Lemma type_only_query_is_analysed :
  Insurance.q_company (Insurance.extract_insurance_info_from_query "dental plan") = None /\
  Insurance.q_insurance_type (Insurance.extract_insurance_info_from_query "dental plan")
    = Some "dental" /\
  Insurance.handle_chat_message (fun _ => "ANALYSIS") "dental plan" =
    [ Insurance.Analyse (Insurance.extract_insurance_info_from_query "dental plan");
      Insurance.Send "ANALYSIS" ] /\
  Insurance.handle_chat_message (fun _ => "ANALYSIS") "dental plan"
    <> [Insurance.Send Insurance.clarification].
Proof.
  split; [vm_compute; reflexivity |].
  split; [vm_compute; reflexivity |].
  split; [vm_compute; reflexivity |].
  intros H. vm_compute in H. discriminate.
Qed.

(* ================================================================== *)
(** * The response formatters and the clock *)
(* ================================================================== *)

Module StripFacts.

Import Py PyFacts NumFacts.

Lemma append_length : forall a b : string,
  String.length (a ++ b) = (String.length a + String.length b)%nat.
Proof.
  induction a as [| c a IH]; intros b; simpl; [reflexivity | rewrite IH; reflexivity].
Qed.

Lemma append_inv_head : forall p x y : string, p ++ x = p ++ y -> x = y.
Proof.
  induction p as [| c p IH]; intros x y H; simpl in H.
  - exact H.
  - injection H as H. apply IH, H.
Qed.

Lemma append_inv_tail : forall x y r : string, x ++ r = y ++ r -> x = y.
Proof.
  induction x as [| c x IH]; intros y r H.
  - destruct y as [| d y]; [reflexivity |].
    apply (f_equal String.length) in H. simpl in H.
    rewrite append_length in H. lia.
  - destruct y as [| d y].
    + apply (f_equal String.length) in H. simpl in H.
      rewrite append_length in H. lia.
    + simpl in H. injection H as -> H. f_equal. apply (IH _ _ H).
Qed.

Lemma lstrip_fixed : forall c s, is_space c = false -> lstrip (String c s) = String c s.
Proof.
  intros c s H. simpl. rewrite H. reflexivity.
Qed.

Lemma rstrip_cons : forall c s,
  rstrip (String c s) =
  match rstrip s with
  | EmptyString => if is_space c then EmptyString else String c EmptyString
  | String _ _ as r => String c r
  end.
Proof.
  reflexivity.
Qed.

Lemma rstrip_fixed : forall s c,
  last_char s = Some c -> is_space c = false -> rstrip s = s.
Proof.
  induction s as [| x s IH]; intros c Hl Hc.
  - discriminate.
  - destruct s as [| y s].
    + simpl in Hl. injection Hl as ->. simpl. rewrite Hc. reflexivity.
    + change (last_char (String x (String y s))) with (last_char (String y s)) in Hl.
      rewrite rstrip_cons, (IH c Hl Hc). reflexivity.
Qed.

Lemma rstrip_app : forall a b,
  rstrip b <> "" -> rstrip (a ++ b) = a ++ rstrip b.
Proof.
  induction a as [| c a IH]; intros b Hb.
  - reflexivity.
  - change (String c a ++ b) with (String c (a ++ b)).
    rewrite rstrip_cons, (IH b Hb).
    destruct (a ++ rstrip b) eqn:E.
    + apply append_empty in E as [_ E]. contradiction.
    + rewrite <- E. reflexivity.
Qed.

(** Trailing text that strips to nothing does not change the result. *)
Lemma rstrip_app_blank : forall a b,
  rstrip b = "" -> rstrip (a ++ b) = rstrip a.
Proof.
  induction a as [| c a IH]; intros b Hb.
  - exact Hb.
  - change (String c a ++ b) with (String c (a ++ b)).
    rewrite !rstrip_cons, (IH b Hb). reflexivity.
Qed.

Lemma rstrip_app_fixed : forall t r,
  t <> "" -> rstrip t = t -> rstrip (t ++ r) = t ++ rstrip r.
Proof.
  intros t r Ht Hfix.
  destruct (rstrip r) eqn:E.
  - rewrite append_nil_r, (rstrip_app_blank t r E). exact Hfix.
  - rewrite <- E. apply rstrip_app. rewrite E. discriminate.
Qed.

Lemma digit_not_space : forall c, is_digit c = true -> is_space c = false.
Proof.
  intros c. destruct c as [[] [] [] [] [] [] [] []]; simpl; intros H;
    try discriminate; reflexivity.
Qed.

Lemma strftime_generated_last : forall dt,
  exists c, last_char (Clock.strftime_generated dt) = Some c /\ is_space c = false.
Proof.
  intros dt. unfold Clock.strftime_generated.
  rewrite <- !append_assoc.
  assert (Hne : Clock.two (Clock.second dt) <> "")
    by (apply zfill_nonempty, dec_nonempty).
  rewrite last_char_app by exact Hne.
  destruct (last_char_some _ Hne) as [c Hc]. exists c. split; [exact Hc |].
  apply digit_not_space.
  apply (all_chars_last is_digit (Clock.two (Clock.second dt)) c); [| exact Hc].
  apply zfill_digits, dec_digits.
Qed.

Lemma strftime_generated_fixed : forall dt,
  Clock.strftime_generated dt <> "" /\
  rstrip (Clock.strftime_generated dt) = Clock.strftime_generated dt.
Proof.
  intros dt. destruct (strftime_generated_last dt) as [c [Hc Hs]]. split.
  - intros E. rewrite E in Hc. discriminate.
  - apply (rstrip_fixed _ c Hc Hs).
Qed.

End StripFacts.

Section FormatterFacts.

Import Insurance.

Variable py_float : string -> option Q.

Lemma header_of_head : forall query_info,
  exists rest, header_of query_info = String "*" rest.
Proof.
  intros query_info. unfold header_of.
  destruct (q_company_data query_info) as [cd |]; [eexists; reflexivity |].
  destruct (q_insurance_type query_info) as [t |]; [| eexists; reflexivity].
  destruct (String.eqb t ""); eexists; reflexivity.
Qed.

(** The response is the text before the timestamp, the timestamp, and the
    right-stripped text after it. *)
Lemma format_insurance_response_shape :
  forall now query_info market_data sentiment_data analysis,
  format_insurance_response py_float now query_info market_data sentiment_data analysis =
  match market_section py_float market_data with
  | None => None
  | Some market =>
      Some (before_timestamp query_info market sentiment_data analysis ++
            Clock.strftime_generated now ++
            Py.rstrip (after_timestamp query_info))
  end.
Proof.
  intros now query_info market_data sentiment_data analysis.
  unfold format_insurance_response.
  destruct (market_section py_float market_data) as [market |]; [| reflexivity].
  f_equal.
  set (T := Clock.strftime_generated now).
  assert (E : header_of query_info ++ nl ++ nl ++ market ++
              sentiment_section sentiment_data ++
              focus_section (q_specific_terms query_info) ++
              "ðŸ“Š **Detailed Analysis**" ++ nl ++ analysis ++ nl ++ nl ++
              "---" ++ nl ++ timestamp_line now ++ learn_more query_info
              = before_timestamp query_info market sentiment_data analysis ++
                (T ++ after_timestamp query_info)).
  { unfold before_timestamp, after_timestamp, timestamp_line. fold T.
    rewrite !NumFacts.append_assoc. reflexivity. }
  rewrite E. clear E.
  destruct (StripFacts.strftime_generated_fixed now) as [Hne Hfix]. fold T in Hne, Hfix.
  unfold Py.strip.
  assert (Hl : Py.lstrip (before_timestamp query_info market sentiment_data analysis ++
                          (T ++ after_timestamp query_info))
               = before_timestamp query_info market sentiment_data analysis ++
                 (T ++ after_timestamp query_info)).
  { unfold before_timestamp at 1 2.
    destruct (header_of_head query_info) as [rest ->]. reflexivity. }
  rewrite Hl.
  rewrite StripFacts.rstrip_app.
  - rewrite (StripFacts.rstrip_app_fixed T _ Hne Hfix). reflexivity.
  - rewrite (StripFacts.rstrip_app_fixed T _ Hne Hfix).
    intros E. apply NumFacts.append_empty in E as [E _]. contradiction.
Qed.

End FormatterFacts.

Lemma same_second_strftime : forall a b,
  same_second a b -> Clock.strftime_generated a = Clock.strftime_generated b.
Proof.
  intros a b (Hy & Hmo & Hd & Hh & Hmi & Hs).
  unfold Clock.strftime_generated. rewrite Hy, Hmo, Hd, Hh, Hmi, Hs. reflexivity.
Qed.

(** C7, as the code has it: the insurance formatter reads the wall clock,
    so its output is a function of its arguments and of that reading: two
    invocations on identical arguments produce identical results exactly
    when their timestamps render to the same text (or the call raises),
    in particular whenever the two readings agree down to the second; the
    token outlook text consults the clock only when [last_updated] is
    missing. *)
Theorem formatter_determinism :
  forall (py_float : string -> option Q) (query_info : Insurance.QueryInfo)
         (market_data : option Insurance.MarketData)
         (sentiment_data : Insurance.SentimentData) (analysis : string)
         (now1 now2 : Clock.datetime),
  (Insurance.format_insurance_response py_float now1 query_info market_data sentiment_data analysis
   = Insurance.format_insurance_response py_float now2 query_info market_data sentiment_data analysis
   <-> Insurance.market_section py_float market_data = None \/
       Clock.strftime_generated now1 = Clock.strftime_generated now2) /\
  (same_second now1 now2 ->
   Insurance.format_insurance_response py_float now1 query_info market_data sentiment_data analysis
   = Insurance.format_insurance_response py_float now2 query_info market_data sentiment_data analysis) /\
  (forall (fromtimestamp : Q -> Clock.datetime) (t1 t2 : Q)
          (price_data : PriceData) (sentiment : SentimentResult),
     last_updated price_data <> None ->
     outlook_response fromtimestamp t1 price_data sentiment
     = outlook_response fromtimestamp t2 price_data sentiment).
Proof.
  intros py_float query_info market_data sentiment_data analysis now1 now2.
  assert (Hiff :
    Insurance.format_insurance_response py_float now1 query_info market_data sentiment_data analysis
    = Insurance.format_insurance_response py_float now2 query_info market_data sentiment_data analysis
    <-> Insurance.market_section py_float market_data = None \/
        Clock.strftime_generated now1 = Clock.strftime_generated now2).
  { rewrite !format_insurance_response_shape.
    destruct (Insurance.market_section py_float market_data) as [market |].
    - split.
      + intros H. right. injection H as H.
        apply StripFacts.append_inv_head in H.
        apply StripFacts.append_inv_tail in H. exact H.
      + intros [H | H]; [discriminate | rewrite H; reflexivity].
    - split; [intros _; left | intros _]; reflexivity. }
  split; [exact Hiff |]. split.
  - intros Hsame. apply Hiff. right. apply same_second_strftime, Hsame.
  - intros fromtimestamp t1 t2 price_data sentiment Hlast.
    unfold outlook_response.
    destruct (last_updated price_data) as [t |]; [reflexivity |].
    exfalso. apply Hlast. reflexivity.
Qed.

Lemma formatter_determinism_witness :
  (same_second morning same_second_later /\
   Insurance.format_insurance_response (fun _ => None) morning
     dental_query None flat_sentiment "Steady market."
   = Insurance.format_insurance_response (fun _ => None) same_second_later
     dental_query None flat_sentiment "Steady market.") /\
  (last_updated btc_price <> None /\
   outlook_response (fun _ => morning) 1709802301 btc_price
     (aggregate length_score three_samples)
   = outlook_response (fun _ => morning) 1709809999 btc_price
     (aggregate length_score three_samples)).
Proof.
  assert (H : same_second morning same_second_later).
  { unfold same_second. repeat split. }
  assert (Hl : last_updated btc_price <> None) by (simpl; discriminate).
  destruct (formatter_determinism (fun _ => None) dental_query None
              flat_sentiment "Steady market." morning same_second_later)
    as (_ & Hsame & Hout).
  split; [split; [exact H | exact (Hsame H)] |].
  split; [exact Hl |].
  exact (Hout (fun _ => morning) 1709802301 1709809999 btc_price
              (aggregate length_score three_samples) Hl).
Defined.

(** C7, as stated, fails: two invocations of the insurance formatter on
    identical arguments, made one second apart, return different texts. *)
Lemma timestamp_changes_response :
  exists out1 out2 : string,
    Insurance.format_insurance_response (fun _ => None) morning
      dental_query None flat_sentiment "Steady market." = Some out1 /\
    Insurance.format_insurance_response (fun _ => None) a_second_later
      dental_query None flat_sentiment "Steady market." = Some out2 /\
    out1 <> out2.
Proof.
  eexists. eexists.
  split; [vm_compute; reflexivity |].
  split; [vm_compute; reflexivity |].
  apply String.eqb_neq. vm_compute. reflexivity.
Qed.

(* ================================================================== *)
(** * Substrings *)
(* ================================================================== *)

Module ContainsFacts.

Import Py PyFacts NumFacts.

Lemma prefix_split : forall k s,
  String.prefix k s = true <-> exists b, s = k ++ b.
Proof.
  induction k as [| x k IH]; intros s.
  - split; [intros _; exists s; reflexivity | intros _; destruct s; reflexivity].
  - destruct s as [| y s]; simpl.
    + split; [discriminate | intros [b Hb]; discriminate].
    + destruct (ascii_dec x y) as [-> | Hne].
      * rewrite IH. split; intros [b Hb]; exists b.
        -- rewrite Hb. reflexivity.
        -- injection Hb as Hb. exact Hb.
      * split; [discriminate |]. intros [b Hb]. injection Hb as Hxy _.
        exfalso. apply Hne. symmetry. exact Hxy.
Qed.

Lemma prefix_contains : forall k s, String.prefix k s = true -> contains k s = true.
Proof.
  intros k s H. destruct s as [| c s]; cbn [contains]; [exact H |].
  rewrite H. reflexivity.
Qed.

(** [needle in hay] holds exactly when [hay] splits around [needle]. *)
Lemma contains_split : forall k s,
  contains k s = true <-> exists a b, s = a ++ k ++ b.
Proof.
  intros k s. split.
  - induction s as [| c s IH]; cbn [contains]; intros H.
    + apply prefix_split in H as [b Hb]. exists "", b. exact Hb.
    + apply orb_true_iff in H as [H | H].
      * apply prefix_split in H as [b Hb]. exists "", b. exact Hb.
      * destruct (IH H) as [a [b Hab]]. exists (String c a), b.
        rewrite Hab. reflexivity.
  - intros [a [b Hab]]. subst s. induction a as [| c a IH].
    + apply prefix_contains, prefix_split. exists b. reflexivity.
    + change (String c a ++ k ++ b) with (String c (a ++ k ++ b)).
      cbn [contains]. rewrite IH. apply orb_true_r.
Qed.

Lemma contains_trans : forall w k s,
  contains w k = true -> contains k s = true -> contains w s = true.
Proof.
  intros w k s Hw Hk.
  apply contains_split in Hw as [a1 [b1 H1]].
  apply contains_split in Hk as [a [b H]].
  apply contains_split. exists (a ++ a1), (b1 ++ b).
  rewrite H, H1, !append_assoc. reflexivity.
Qed.

Lemma contains_chars : forall p k s,
  contains k s = true -> all_chars p s = true -> all_chars p k = true.
Proof.
  intros p k s Hk Hs. apply contains_split in Hk as [a [b H]]. subst s.
  rewrite !all_chars_app in Hs.
  apply andb_true_iff in Hs as [_ Hs]. apply andb_true_iff in Hs as [Hs _].
  exact Hs.
Qed.

Lemma match_literal_chars : forall p lit prev s r,
  match_literal lit prev s = Some r ->
  all_chars p s = true -> all_chars p lit = true.
Proof.
  intros p. induction lit as [| c lit IH]; intros prev s r H Hs.
  - reflexivity.
  - destruct s as [| d s]; simpl in H; [discriminate |].
    destruct (Ascii.eqb c d) eqn:E; [| discriminate].
    apply Ascii.eqb_eq in E. subst d.
    simpl in Hs. apply andb_true_iff in Hs as [Hc Hs].
    simpl. rewrite Hc. simpl. apply (IH _ _ _ H Hs).
Qed.

Lemma search_word_chars : forall p lit s prev,
  search_word_from lit prev s = true ->
  all_chars p s = true -> all_chars p lit = true.
Proof.
  intros p lit. induction s as [| c s IH]; intros prev H Hs.
  - cbn [search_word_from] in H. rewrite orb_false_r in H.
    unfold match_word_at in H. apply andb_true_iff in H as [_ H].
    destruct (match_literal lit prev "") as [[q r] |] eqn:E; [| discriminate].
    apply (match_literal_chars p _ _ _ _ E Hs).
  - cbn [search_word_from] in H. apply orb_true_iff in H as [H | H].
    + unfold match_word_at in H. apply andb_true_iff in H as [_ H].
      destruct (match_literal lit prev (String c s)) as [[q r] |] eqn:E; [| discriminate].
      apply (match_literal_chars p _ _ _ _ E Hs).
    + apply (IH (Some c) H). apply (all_chars_tail p c s Hs).
Qed.

Lemma lower_upper_char : forall c, lower_char (upper_char c) = lower_char c.
Proof.
  intros c. destruct c as [[] [] [] [] [] [] [] []]; reflexivity.
Qed.

Lemma lower_upper : forall s, lower (upper s) = lower s.
Proof.
  induction s as [| c s IH]; simpl; [reflexivity |].
  rewrite lower_upper_char, IH. reflexivity.
Qed.

Lemma not_alpha_not_upper : forall c, not_alpha c = true -> not_upper c = true.
Proof.
  intros c. unfold not_alpha, not_upper, is_alpha.
  destruct (is_upper c); simpl; [discriminate | reflexivity].
Qed.

Lemma all_chars_weaken : forall (p q : ascii -> bool) s,
  (forall c, p c = true -> q c = true) ->
  all_chars p s = true -> all_chars q s = true.
Proof.
  intros p q s Hpq. induction s as [| c s IH]; simpl; intros H; [reflexivity |].
  apply andb_true_iff in H as [Hc Hs]. rewrite (Hpq c Hc), (IH Hs). reflexivity.
Qed.

End ContainsFacts.

(* ================================================================== *)
(** * What token extraction returns *)
(* ================================================================== *)

Lemma find_none_iff : forall (A : Type) (f : A -> bool) (l : list A),
  find f l = None <-> forall x, In x l -> f x = false.
Proof.
  intros A f l. split; [apply find_none |].
  induction l as [| a l IH]; intros H; simpl; [reflexivity |].
  rewrite (H a (or_introl eq_refl)). apply IH.
  intros x Hx. apply H. right. exact Hx.
Qed.

Lemma lookup_name_In : forall t n, In (t, n) TOKEN_ID_MAP -> lookup_name t = Some n.
Proof.
  intros t n H. unfold TOKEN_ID_MAP in H. simpl in H.
  repeat (destruct H as [H | H]; [injection H as <- <-; reflexivity |]).
  contradiction.
Qed.

(** X1: whatever [extract_token_from_query] returns is a lower-case key of
    [TOKEN_ID_MAP] that the query mentions: the symbol stands as a word of
    the lower-cased query, or its full name occurs in it. *)
Theorem extraction_sound : forall (query t : string),
  extract_token_from_query query = Some t ->
  In t (keys TOKEN_ID_MAP) /\
  Py.lower t = t /\
  (Py.re_search_word t (Py.lower query) = true \/
   exists name, lookup_name t = Some name /\
                Py.contains name (Py.lower query) = true).
Proof.
  intros query t H.
  split; [apply (extracted_token_known query t H) |].
  split.
  { pose proof (extracted_token_known query t H) as Hin.
    unfold keys, TOKEN_ID_MAP in Hin. simpl in Hin.
    repeat (destruct Hin as [<- | Hin]; [reflexivity |]). contradiction. }
  unfold extract_token_from_query in H.
  destruct (symbol_strategy (Py.lower query)) as [token |] eqn:E1.
  - injection H as <-. left. unfold symbol_strategy in E1.
    apply find_some in E1 as [_ Hw]. exact Hw.
  - destruct (name_strategy (Py.lower query)) as [symbol |] eqn:E2.
    + injection H as <-. right. unfold name_strategy in E2.
      destruct (find _ TOKEN_ID_MAP) as [[sym name] |] eqn:E; [| discriminate].
      injection E2 as <-. apply find_some in E as [Hin Hc]. cbn [snd fst] in *.
      exists name. split; [apply lookup_name_In, Hin |].
      rewrite PyFacts.lower_idempotent in Hc. exact Hc.
    + rewrite (generic_strategy_subsumed (Py.lower query)
                 (PyFacts.lower_not_upper query) E1) in H.
      discriminate.
Qed.

Lemma extraction_sound_witness :
  extract_token_from_query "Is Dogecoin a meme?" = Some "doge" /\
  In "doge" (keys TOKEN_ID_MAP) /\
  (Py.re_search_word "doge" (Py.lower "Is Dogecoin a meme?") = true \/
   exists name, lookup_name "doge" = Some name /\
                Py.contains name (Py.lower "Is Dogecoin a meme?") = true).
Proof.
  assert (H : extract_token_from_query "Is Dogecoin a meme?" = Some "doge")
    by (vm_compute; reflexivity).
  destruct (extraction_sound "Is Dogecoin a meme?" "doge" H) as (H1 & _ & H3).
  split; [exact H | split; [exact H1 | exact H3]].
Defined.

(** X2: [extract_token_from_query] returns [None] exactly when the
    lower-cased query mentions no known token: no key of [TOKEN_ID_MAP]
    stands as a word of it and no full name occurs in it. *)
Theorem extraction_complete : forall query : string,
  extract_token_from_query query = None <->
  (forall t, In t (keys TOKEN_ID_MAP) ->
             Py.re_search_word t (Py.lower query) = false) /\
  (forall t name, In (t, name) TOKEN_ID_MAP ->
                  Py.contains name (Py.lower query) = false).
Proof.
  intros query. unfold extract_token_from_query.
  assert (Hname : name_strategy (Py.lower query) = None <->
                  forall t name, In (t, name) TOKEN_ID_MAP ->
                                 Py.contains name (Py.lower query) = false).
  { unfold name_strategy. rewrite PyFacts.lower_idempotent.
    destruct (find _ TOKEN_ID_MAP) as [item |] eqn:E.
    - split; [discriminate |]. intros Hall. exfalso.
      apply find_some in E as [Hin Hc]. destruct item as [t name].
      cbn [snd] in Hc. rewrite (Hall t name Hin) in Hc. discriminate.
    - split; [| reflexivity]. intros _ t name Hin.
      apply (find_none _ _ E (t, name) Hin). }
  destruct (symbol_strategy (Py.lower query)) as [token |] eqn:E1.
  - split; [discriminate |]. intros [Hsym _]. exfalso.
    unfold symbol_strategy in E1. apply find_some in E1 as [Hin Hw].
    rewrite (Hsym token Hin) in Hw. discriminate.
  - assert (Hsym : forall t, In t (keys TOKEN_ID_MAP) ->
                             Py.re_search_word t (Py.lower query) = false)
      by (apply find_none_iff; exact E1).
    destruct (name_strategy (Py.lower query)) as [symbol |] eqn:E2.
    + split; [discriminate |]. intros [_ Hn]. apply Hname in Hn. discriminate.
    + rewrite (generic_strategy_subsumed (Py.lower query)
                 (PyFacts.lower_not_upper query) E1).
      split; [| reflexivity]. intros _. split; [exact Hsym | apply Hname; reflexivity].
Qed.

(** X3: for a query made of ASCII characters, writing it in capitals does
    not change which token is extracted, nor what the chat handler does. *)
Theorem extraction_ignores_case : forall (outlook_of : string -> string) (query : string),
  isascii query = true ->
  extract_token_from_query (Py.upper query) = extract_token_from_query query /\
  handle_chat_message outlook_of (Py.upper query) = handle_chat_message outlook_of query.
Proof.
  intros outlook_of query _.
  assert (H : extract_token_from_query (Py.upper query) = extract_token_from_query query).
  { unfold extract_token_from_query. rewrite ContainsFacts.lower_upper. reflexivity. }
  split; [exact H |]. unfold handle_chat_message. rewrite H. reflexivity.
Qed.

Lemma extraction_ignores_case_witness :
  isascii "price of eth" = true /\
  extract_token_from_query (Py.upper "price of eth") = Some "eth" /\
  extract_token_from_query (Py.upper "price of eth")
    = extract_token_from_query "price of eth".
Proof.
  assert (H : isascii "price of eth" = true) by reflexivity.
  split; [exact H |]. split; [vm_compute; reflexivity |].
  exact (proj1 (extraction_ignores_case (fun t => t) "price of eth" H)).
Defined.

(** X4: a query without any letter (the empty query, digits, spaces,
    punctuation) yields no token, so the chat handler answers it with the
    clarification and awaits no outlook. *)
Theorem letterless_query_unidentified : forall (outlook_of : string -> string)
    (query : string),
  all_chars not_alpha query = true ->
  extract_token_from_query query = None /\
  handle_chat_message outlook_of query = [Send clarification].
Proof.
  intros outlook_of query Hq.
  assert (Hlow : Py.lower query = query).
  { apply PyFacts.lower_fixed.
    apply (ContainsFacts.all_chars_weaken not_alpha not_upper);
      [apply ContainsFacts.not_alpha_not_upper | exact Hq]. }
  assert (Hnone : extract_token_from_query query = None).
  { apply extraction_complete. rewrite Hlow. split.
    - intros t Hin.
      destruct (Py.re_search_word t query) eqn:E; [| reflexivity]. exfalso.
      pose proof (ContainsFacts.search_word_chars not_alpha t query None E Hq) as Ht.
      assert (Hall : forallb (fun k => negb (all_chars not_alpha k)) (keys TOKEN_ID_MAP) = true)
        by reflexivity.
      pose proof (proj1 (forallb_forall _ _) Hall t Hin) as Hk. cbv beta in Hk.
      rewrite Ht in Hk. discriminate.
    - intros t name Hin.
      destruct (Py.contains name query) eqn:E; [| reflexivity]. exfalso.
      pose proof (ContainsFacts.contains_chars not_alpha name query E Hq) as Hn.
      assert (Hall : forallb (fun item => negb (all_chars not_alpha (snd item))) TOKEN_ID_MAP = true)
        by reflexivity.
      pose proof (proj1 (forallb_forall _ _) Hall (t, name) Hin) as Hk. cbv beta in Hk.
      cbn [snd] in Hk. rewrite Hn in Hk. discriminate. }
  split; [exact Hnone |].
  unfold handle_chat_message. rewrite Hnone. reflexivity.
Qed.

Lemma letterless_query_unidentified_witness :
  all_chars not_alpha "  42 ?! " = true /\
  extract_token_from_query "  42 ?! " = None /\
  extract_token_from_query "" = None.
Proof.
  assert (H : all_chars not_alpha "  42 ?! " = true) by reflexivity.
  assert (H0 : all_chars not_alpha "" = true) by reflexivity.
  split; [exact H |].
  split.
  - exact (proj1 (letterless_query_unidentified (fun t => t) "  42 ?! " H)).
  - exact (proj1 (letterless_query_unidentified (fun t => t) "" H0)).
Defined.

(* ================================================================== *)
(** * Invariants of the aggregated result *)
(* ================================================================== *)

Lemma score_all_length : forall score_fn texts,
  (List.length (score_all score_fn texts) <= List.length texts)%nat.
Proof.
  intros score_fn. induction texts as [| t texts IH]; simpl; [lia |].
  destruct (score_text score_fn t); simpl; lia.
Qed.

Lemma score_all_scored : forall score_fn texts q,
  In q (score_all score_fn texts) ->
  exists t, In t texts /\ score_fn t = Some q.
Proof.
  intros score_fn. induction texts as [| t texts IH]; intros q H; simpl in H.
  - contradiction.
  - destruct (score_text score_fn t) as [q0 |] eqn:E.
    + destruct H as [<- | H].
      * exists t. split; [left; reflexivity |].
        unfold score_text in E. destruct (_ && _); [exact E | discriminate].
      * destruct (IH q H) as [t' [Hin Hs]]. exists t'. split; [right |]; assumption.
    + destruct (IH q H) as [t' [Hin Hs]]. exists t'. split; [right |]; assumption.
Qed.

Lemma firstn_NoDup : forall (A : Type) n (l : list A), NoDup l -> NoDup (firstn n l).
Proof.
  intros A n l H. rewrite <- (firstn_skipn n l) in H.
  apply NoDup_app_remove_r in H. exact H.
Qed.

Lemma firstn_In : forall (A : Type) n (l : list A) x, In x (firstn n l) -> In x l.
Proof.
  intros A n l x H. rewrite <- (firstn_skipn n l). apply in_or_app. left. exact H.
Qed.

(** X5: every aggregated result is well formed: the sample size counts
    scored texts only and never exceeds the number of texts gathered; at
    most five sources are reported, without repetition, each one a label
    that was gathered (or the placeholder when no text was gathered); the
    category is the bucket of the reported score; and a result with no
    scored sample has score zero and the neutral category. *)
Theorem aggregate_well_formed : forall (score_fn : string -> option PrimFloat.float)
    (events : list Binary64.gathered),
  (Binary64.sample_size (Binary64.aggregate score_fn events)
     <= List.length (texts_of events))%nat /\
  (List.length (Binary64.sources (Binary64.aggregate score_fn events)) <= 5)%nat /\
  NoDup (Binary64.sources (Binary64.aggregate score_fn events)) /\
  (forall x, In x (Binary64.sources (Binary64.aggregate score_fn events)) ->
             (texts_of events = [] /\ x = "No data") \/ In x (labels_of events)) /\
  Binary64.sentiment_category (Binary64.aggregate score_fn events)
    = categorize_binary64 (Binary64.sentiment_score (Binary64.aggregate score_fn events)) /\
  (Binary64.sample_size (Binary64.aggregate score_fn events) = 0%nat ->
   Binary64.sentiment_score (Binary64.aggregate score_fn events) = 0%float /\
   Binary64.sentiment_category (Binary64.aggregate score_fn events) = neutral).
Proof.
  intros score_fn events.
  destruct (aggregate_binary64_fields score_fn events) as (Hn & Hm & Hc & Hsrc).
  assert (Ht : fst (Binary64.gather events) = texts_of events)
    by (rewrite gather_eq; reflexivity).
  rewrite Ht in *.
  split; [rewrite Hn; apply score_all_binary64_length |].
  assert (Hcases :
            Binary64.sources (Binary64.aggregate score_fn events) = ["No data"] /\
              texts_of events = [] \/
            Binary64.sources (Binary64.aggregate score_fn events) = [] \/
            Binary64.sources (Binary64.aggregate score_fn events)
              = firstn 5 (snd (Binary64.gather events))).
  { rewrite Hsrc. destruct (texts_of events) as [| t texts]; [left; split; reflexivity |].
    right. destruct (Binary64.score_all score_fn (t :: texts)); [left | right]; reflexivity. }
  split; [| split; [| split; [| split]]].
  - destruct Hcases as [[-> _] | [-> | ->]].
    + simpl. lia.
    + simpl. lia.
    + apply firstn_le_length.
  - destruct Hcases as [[-> _] | [-> | ->]].
    + repeat constructor. intros [].
    + constructor.
    + apply firstn_NoDup, gathered_labels_NoDup.
  - intros x Hx. destruct Hcases as [[E Hnil] | [E | E]]; rewrite E in Hx.
    + left. destruct Hx as [<- | []]. split; [exact Hnil | reflexivity].
    + contradiction.
    + right. apply firstn_In, gathered_labels_In in Hx. exact Hx.
  - exact Hc.
  - intros Hz. rewrite Hn in Hz.
    assert (Hs : Binary64.sentiment_score (Binary64.aggregate score_fn events) = 0%float).
    { rewrite Hm.
      destruct (Binary64.score_all score_fn (texts_of events)); [reflexivity | discriminate]. }
    split; [exact Hs |]. rewrite Hc, Hs. reflexivity.
Qed.

Lemma aggregate_well_formed_witness :
  Binary64.sources (Binary64.aggregate headline_score exchanges_only)
    = ["CoinDesk"; "CoinGecko Exchanges"] /\
  In "CoinGecko Exchanges" (labels_of exchanges_only) /\
  Binary64.sample_size (Binary64.aggregate headline_score exchanges_only) = 1%nat.
Proof.
  assert (H : Binary64.sources (Binary64.aggregate headline_score exchanges_only)
              = ["CoinDesk"; "CoinGecko Exchanges"]) by (vm_compute; reflexivity).
  split; [exact H |]. split; [| vm_compute; reflexivity].
  destruct (aggregate_well_formed headline_score exchanges_only)
    as (_ & _ & _ & Hin & _).
  destruct (Hin "CoinGecko Exchanges") as [[Hnil _] | Hl].
  - rewrite H. right. left. reflexivity.
  - discriminate Hnil.
  - exact Hl.
Defined.

Lemma total_between : forall lo hi l,
  (forall q, In q l -> lo <= q /\ q <= hi) ->
  lo * inject_Z (Z.of_nat (List.length l)) <= total l /\
  total l <= hi * inject_Z (Z.of_nat (List.length l)).
Proof.
  intros lo hi. induction l as [| x l IH]; intros H.
  - change (inject_Z (Z.of_nat (List.length (@nil Q)))) with 0.
    change (total []) with 0. rewrite !Qmult_0_r. split; apply Qle_refl.
  - destruct (IH (fun q Hq => H q (or_intror Hq))) as [L U].
    destruct (H x (or_introl eq_refl)) as [Lx Ux].
    change (List.length (x :: l)) with (S (List.length l)).
    rewrite Nat2Z.inj_succ. unfold Z.succ. rewrite inject_Z_plus.
    unfold total in *. simpl fold_right.
    change (inject_Z 1) with 1.
    split; lra.
Qed.

Lemma mean_between : forall lo hi l,
  lo <= 0 -> 0 <= hi ->
  (forall q, In q l -> lo <= q /\ q <= hi) ->
  lo <= mean l /\ mean l <= hi.
Proof.
  intros lo hi l Hlo Hhi H. unfold mean.
  destruct l as [| x l]; [split; assumption |].
  destruct (total_between lo hi (x :: l) H) as [L U].
  set (n := inject_Z (Z.of_nat (List.length (x :: l)))) in *.
  assert (Hn : 0 < n).
  { unfold n. change 0 with (inject_Z 0). rewrite <- Zlt_Qlt.
    simpl List.length. lia. }
  split.
  - apply Qle_shift_div_l; assumption.
  - apply Qle_shift_div_r; assumption.
Qed.

(** X7: a sample that cannot be scored is skipped silently: putting it in
    front of any sequence leaves the score, the category and the sample
    size of the result unchanged. *)
Theorem unscored_sample_skipped : forall (score_fn : string -> option Q)
    (s : MetricSample) (samples : list MetricSample),
  score_text score_fn (raw_value s) = None ->
  sentiment_score (aggregate score_fn (s :: samples))
    == sentiment_score (aggregate score_fn samples) /\
  sentiment_category (aggregate score_fn (s :: samples))
    = sentiment_category (aggregate score_fn samples) /\
  sample_size (aggregate score_fn (s :: samples))
    = sample_size (aggregate score_fn samples).
Proof.
  intros score_fn s samples H.
  assert (E : score_all score_fn (map raw_value (s :: samples))
              = score_all score_fn (map raw_value samples)).
  { cbn [map score_all]. rewrite H. reflexivity. }
  assert (Hs : sentiment_score (aggregate score_fn (s :: samples))
               == sentiment_score (aggregate score_fn samples)).
  { rewrite !aggregate_score_mean, E. reflexivity. }
  split; [exact Hs |]. split.
  - rewrite !aggregate_category. apply categorize_compat, Hs.
  - rewrite !aggregate_sample_size, E. reflexivity.
Qed.

Lemma unscored_sample_skipped_witness :
  score_text length_score (raw_value (sample "   " "Blank Wire")) = None /\
  sample_size (aggregate length_score (sample "   " "Blank Wire" :: three_samples))
    = sample_size (aggregate length_score three_samples).
Proof.
  assert (H : score_text length_score (raw_value (sample "   " "Blank Wire")) = None)
    by reflexivity.
  split; [exact H |].
  exact (proj2 (proj2 (unscored_sample_skipped length_score
                         (sample "   " "Blank Wire") three_samples H))).
Defined.

(* ================================================================== *)
(** * The fallback analysis *)
(* ================================================================== *)

Lemma Qgtb_true : forall x y, Qgtb x y = true <-> y < x.
Proof.
  intros x y. unfold Qgtb. destruct (Qle_bool x y) eqn:E; simpl.
  - apply Qle_bool_iff in E. split; [discriminate | intros H; exfalso; lra].
  - apply Qle_bool_false in E. tauto.
Qed.

Lemma Qltb_true : forall x y, Qltb x y = true <-> x < y.
Proof.
  intros x y. unfold Qltb. destruct (Qle_bool y x) eqn:E; simpl.
  - apply Qle_bool_iff in E. split; [discriminate | intros H; exfalso; lra].
  - apply Qle_bool_false in E. tauto.
Qed.

Lemma Qgtb_compat : forall x x' y y', x == x' -> y == y' -> Qgtb x y = Qgtb x' y'.
Proof.
  intros x x' y y' Hx Hy. unfold Qgtb. rewrite Hx, Hy. reflexivity.
Qed.

Lemma Qltb_compat : forall x x' y y', x == x' -> y == y' -> Qltb x y = Qltb x' y'.
Proof.
  intros x x' y y' Hx Hy. unfold Qltb. rewrite Hx, Hy. reflexivity.
Qed.

(** X8: the four outlook paragraphs of [fallback_analysis] that test for a
    "bullish" or "bearish" sentiment are never produced: the categories
    [analyze_sentiment] assigns are none of the two, so for every price and
    sentiment result the analysis carries the "moment of indecision"
    paragraph, whatever the 24-hour change. *)
Theorem fallback_outlook_always_indecision :
  forall (price_data : PriceData) (sentiment_data : SentimentResult),
  Fallback.short_term_outlook (category_label (sentiment_category sentiment_data))
                              (change_24h price_data)
    = Fallback.indecision_outlook /\
  Fallback.fallback_analysis price_data sentiment_data
    = Fallback.situation_summary price_data sentiment_data ++
      Fallback.indecision_outlook ++ Fallback.key_points price_data.
Proof.
  intros price_data sentiment_data.
  assert (H : Fallback.short_term_outlook
                (category_label (sentiment_category sentiment_data))
                (change_24h price_data) = Fallback.indecision_outlook).
  { unfold Fallback.short_term_outlook.
    destruct (sentiment_category sentiment_data); reflexivity. }
  split; [exact H |].
  unfold Fallback.fallback_analysis. rewrite H. reflexivity.
Qed.

(** X10: the intensity [fallback_analysis] reports is tied to the category
    of the score: a positive, neutral or negative result is always reported
    with "weak" intensity, and "moderate" or "strong" intensity only occurs
    with the very positive and very negative categories; intensity depends
    on the magnitude of the score only. *)
Theorem intensity_follows_category : forall score : Q,
  (categorize score = positive \/ categorize score = neutral \/
   categorize score = negative ->
   Fallback.sentiment_intensity_of score = "weak") /\
  (Fallback.sentiment_intensity_of score <> "weak" ->
   categorize score = very_positive \/ categorize score = very_negative) /\
  (Fallback.sentiment_intensity_of score = "strong" <-> 5 # 10 < Qabs score) /\
  Fallback.sentiment_intensity_of (- score) = Fallback.sentiment_intensity_of score.
Proof.
  intros score.
  assert (Hweak : Qabs score < 2 # 10 -> Fallback.sentiment_intensity_of score = "weak").
  { intros H. unfold Fallback.sentiment_intensity_of. cbv zeta.
    destruct (Qgtb (Qabs score) (5 # 10)) eqn:E1.
    - apply Qgtb_true in E1. exfalso. lra.
    - destruct (Qltb (Qabs score) (2 # 10)) eqn:E2; [reflexivity |].
      assert (Qltb (Qabs score) (2 # 10) = true) by (apply Qltb_true; exact H).
      congruence. }
  assert (Hmid : categorize score = positive \/ categorize score = neutral \/
                 categorize score = negative -> Qabs score < 2 # 10).
  { intros H. destruct (categorize_bands score) as (_ & B2 & B3 & B4 & _).
    apply Qabs_Qlt_condition.
    destruct H as [H | [H | H]];
      [apply B2 in H | apply B3 in H | apply B4 in H]; destruct H; split; lra. }
  split; [intros H; apply Hweak, Hmid, H |].
  split.
  - intros Hnw.
    destruct (categorize score) eqn:E; try (left; reflexivity); try (right; reflexivity);
      exfalso; apply Hnw, Hweak, Hmid;
      first [left; reflexivity | right; left; reflexivity | right; right; reflexivity].
  - split.
    + unfold Fallback.sentiment_intensity_of. cbv zeta.
      destruct (Qgtb (Qabs score) (5 # 10)) eqn:E1.
      * apply Qgtb_true in E1. split; [intros _; exact E1 | reflexivity].
      * split.
        -- destruct (Qltb (Qabs score) (2 # 10)); discriminate.
        -- intros H. apply Qgtb_true in H. congruence.
    + unfold Fallback.sentiment_intensity_of. cbv zeta.
      rewrite (Qgtb_compat _ _ _ _ (Qabs_opp score) (Qeq_refl (5 # 10))).
      rewrite (Qltb_compat _ _ _ _ (Qabs_opp score) (Qeq_refl (2 # 10))).
      reflexivity.
Qed.

Lemma intensity_follows_category_witness :
  (categorize (1 # 10) = positive \/ categorize (1 # 10) = neutral \/
   categorize (1 # 10) = negative) /\
  Fallback.sentiment_intensity_of (1 # 10) = "weak" /\
  Fallback.sentiment_intensity_of (- (3 # 10)) <> "weak" /\
  (categorize (- (3 # 10)) = very_positive \/ categorize (- (3 # 10)) = very_negative).
Proof.
  assert (H1 : categorize (1 # 10) = positive \/ categorize (1 # 10) = neutral \/
               categorize (1 # 10) = negative) by (left; reflexivity).
  assert (H2 : Fallback.sentiment_intensity_of (- (3 # 10)) <> "weak")
    by (vm_compute; discriminate).
  split; [exact H1 |].
  split; [exact (proj1 (intensity_follows_category (1 # 10)) H1) |].
  split; [exact H2 |].
  exact (proj1 (proj2 (intensity_follows_category (- (3 # 10)))) H2).
Defined.


(* ================================================================== *)
(** * Insurance queries *)
(* ================================================================== *)

(** X11: the query information extracted from any text is consistent with
    the tables: a company key comes with exactly its registry entry (and no
    entry comes without a key), the insurance type is a key of
    [INSURANCE_TYPES], and the specific terms are exactly the entries of
    the fixed term list that occur in the lower-cased query, in list order
    and without repetition. *)
Theorem extracted_info_consistent : forall query : string,
  (forall k, Insurance.q_company (Insurance.extract_insurance_info_from_query query) = Some k ->
     exists data, In (k, data) Insurance.MAJOR_INSURANCE_COMPANIES /\
       Insurance.q_company_data (Insurance.extract_insurance_info_from_query query) = Some data) /\
  (Insurance.q_company (Insurance.extract_insurance_info_from_query query) = None <->
   Insurance.q_company_data (Insurance.extract_insurance_info_from_query query) = None) /\
  (forall t, Insurance.q_insurance_type (Insurance.extract_insurance_info_from_query query) = Some t ->
     exists keywords, In (t, keywords) Insurance.INSURANCE_TYPES /\
       Py.any_in keywords (Py.lower query) = true) /\
  (forall term, In term (Insurance.q_specific_terms (Insurance.extract_insurance_info_from_query query)) <->
     In term Insurance.insurance_terms /\ Py.contains term (Py.lower query) = true) /\
  NoDup (Insurance.q_specific_terms (Insurance.extract_insurance_info_from_query query)).
Proof.
  intros query. unfold Insurance.extract_insurance_info_from_query.
  cbn [Insurance.q_company Insurance.q_company_data Insurance.q_insurance_type
       Insurance.q_specific_terms].
  split; [| split; [| split; [| split]]].
  - intros k H.
    destruct (find _ Insurance.MAJOR_INSURANCE_COMPANIES) as [[key data] |] eqn:E;
      [| discriminate].
    injection H as <-. apply find_some in E as [Hin _].
    exists data. split; [exact Hin | reflexivity].
  - destruct (find _ Insurance.MAJOR_INSURANCE_COMPANIES); simpl;
      split; intros H; try discriminate; reflexivity.
  - intros t H.
    destruct (find _ Insurance.INSURANCE_TYPES) as [[ty kws] |] eqn:E; [| discriminate].
    injection H as <-. apply find_some in E as [Hin Hk].
    exists kws. split; [exact Hin | exact Hk].
  - intros term.
    exact (filter_In (fun term => Py.contains term (Py.lower query)) term
             Insurance.insurance_terms).
  - apply NoDup_filter.
    unfold Insurance.insurance_terms.
    repeat (constructor; [simpl; intros H;
      repeat (destruct H as [H | H]; [discriminate |]); exact H |]).
    constructor.
Qed.

Lemma extracted_info_consistent_witness :
  Insurance.q_company (Insurance.extract_insurance_info_from_query "Cigna copay?") = Some "cigna" /\
  exists data, In ("cigna", data) Insurance.MAJOR_INSURANCE_COMPANIES /\
    Insurance.q_company_data (Insurance.extract_insurance_info_from_query "Cigna copay?") = Some data.
Proof.
  assert (H : Insurance.q_company (Insurance.extract_insurance_info_from_query "Cigna copay?")
              = Some "cigna") by (vm_compute; reflexivity).
  split; [exact H |].
  exact (proj1 (extracted_info_consistent "Cigna copay?") "cigna" H).
Defined.

Lemma company_found : forall query item,
  In item Insurance.MAJOR_INSURANCE_COMPANIES ->
  Insurance.company_matches (Py.lower query) item = true ->
  Insurance.q_company (Insurance.extract_insurance_info_from_query query) <> None.
Proof.
  intros query item Hin Hm. unfold Insurance.extract_insurance_info_from_query.
  cbn [Insurance.q_company].
  destruct (find _ Insurance.MAJOR_INSURANCE_COMPANIES) eqn:E; [discriminate |].
  pose proof (find_none _ _ E item Hin) as Hno. cbv beta in Hno. congruence.
Qed.

Lemma analysis_runs_for_company : forall (analysis_of : Insurance.QueryInfo -> string) query,
  Insurance.q_company (Insurance.extract_insurance_info_from_query query) <> None ->
  Insurance.handle_chat_message analysis_of query =
    [ Insurance.Analyse (Insurance.extract_insurance_info_from_query query);
      Insurance.Send (analysis_of (Insurance.extract_insurance_info_from_query query)) ].
Proof.
  intros analysis_of query Hne. unfold Insurance.handle_chat_message. cbv zeta.
  destruct (Insurance.falsy (Insurance.q_company _)) eqn:Ec; [| reflexivity].
  apply falsy_extracted_company in Ec. contradiction.
Qed.

(** X12: a single word of a registered company's display name is enough to
    attribute a query to a company: if any whitespace-separated word of the
    lower-cased name of any registry entry occurs in the lower-cased query,
    a company is extracted and the handler runs the analysis instead of
    asking for clarification; so every query containing "life" is
    attributed to a company. *)
Theorem name_word_attributes_company :
  forall (analysis_of : Insurance.QueryInfo -> string) (query : string),
  (forall key data word,
     In (key, data) Insurance.MAJOR_INSURANCE_COMPANIES ->
     In word (Py.split_ws (Py.lower (Insurance.name data))) ->
     Py.contains word (Py.lower query) = true ->
     Insurance.q_company (Insurance.extract_insurance_info_from_query query) <> None /\
     Insurance.handle_chat_message analysis_of query =
       [ Insurance.Analyse (Insurance.extract_insurance_info_from_query query);
         Insurance.Send (analysis_of (Insurance.extract_insurance_info_from_query query)) ]) /\
  (Py.contains "life" (Py.lower query) = true ->
   Insurance.q_company (Insurance.extract_insurance_info_from_query query) <> None).
Proof.
  intros analysis_of query.
  assert (Hgen : forall key data word,
     In (key, data) Insurance.MAJOR_INSURANCE_COMPANIES ->
     In word (Py.split_ws (Py.lower (Insurance.name data))) ->
     Py.contains word (Py.lower query) = true ->
     Insurance.q_company (Insurance.extract_insurance_info_from_query query) <> None).
  { intros key data word Hin Hw Hc.
    apply (company_found query (key, data) Hin).
    unfold Insurance.company_matches. cbn [fst snd].
    assert (Ha : Py.any_in (Py.split_ws (Py.lower (Insurance.name data))) (Py.lower query) = true).
    { apply PyFacts.any_in_exists. exists word. split; assumption. }
    rewrite Ha. apply orb_true_r. }
  split.
  - intros key data word Hin Hw Hc.
    pose proof (Hgen key data word Hin Hw Hc) as Hne.
    split; [exact Hne |].
    apply analysis_runs_for_company, Hne.
  - intros Hlife.
    apply (Hgen "newyorklife" (Insurance.company "New York Life" "life" "newyorklife.com") "life").
    + unfold Insurance.MAJOR_INSURANCE_COMPANIES. simpl. tauto.
    + vm_compute. tauto.
    + exact Hlife.
Qed.

Lemma name_word_attributes_company_witness :
  Py.contains "life" (Py.lower "Is life insurance worth it?") = true /\
  Insurance.q_company (Insurance.extract_insurance_info_from_query "Is life insurance worth it?") <> None /\
  Insurance.q_company (Insurance.extract_insurance_info_from_query "Is life insurance worth it?")
    = Some "newyorklife".
Proof.
  assert (H : Py.contains "life" (Py.lower "Is life insurance worth it?") = true)
    by (vm_compute; reflexivity).
  split; [exact H |].
  split; [exact (proj2 (name_word_attributes_company (fun _ => "")
                          "Is life insurance worth it?") H) |].
  vm_compute. reflexivity.
Defined.

(** X13: in the company test of [extract_insurance_info_from_query] the
    check for the whole display name never decides: for every registry
    entry and every query, the entry matches exactly when its key or one
    word of its lower-cased name occurs in the lower-cased query. *)
Theorem full_name_check_redundant : forall (query_lower : string)
    (item : string * Insurance.CompanyData),
  In item Insurance.MAJOR_INSURANCE_COMPANIES ->
  Insurance.company_matches query_lower item =
  Py.contains (fst item) query_lower ||
  Py.any_in (Py.split_ws (Py.lower (Insurance.name (snd item)))) query_lower.
Proof.
  intros query_lower item Hin. unfold Insurance.company_matches. cbv zeta.
  destruct (Py.contains (fst item) query_lower); [reflexivity |]. simpl.
  destruct (Py.contains (Py.lower (Insurance.name (snd item))) query_lower) eqn:Hn;
    [| reflexivity].
  simpl. symmetry.
  assert (Hall : forallb (fun it : string * Insurance.CompanyData =>
                   Py.any_in (Py.split_ws (Py.lower (Insurance.name (snd it))))
                             (Py.lower (Insurance.name (snd it))))
                 Insurance.MAJOR_INSURANCE_COMPANIES = true) by (vm_compute; reflexivity).
  pose proof (proj1 (forallb_forall _ _) Hall item Hin) as Hw. cbv beta in Hw.
  apply PyFacts.any_in_exists in Hw as [w [Hwin Hwc]].
  apply PyFacts.any_in_exists. exists w. split; [exact Hwin |].
  apply (ContainsFacts.contains_trans w _ query_lower Hwc Hn).
Qed.

Lemma full_name_check_redundant_witness :
  In ("kaiser", Insurance.company "Kaiser Permanente" "health" "kp.org")
     Insurance.MAJOR_INSURANCE_COMPANIES /\
  Insurance.company_matches "is kaiser permanente good"
    ("kaiser", Insurance.company "Kaiser Permanente" "health" "kp.org") =
  Py.contains "kaiser" "is kaiser permanente good" ||
  Py.any_in (Py.split_ws (Py.lower "Kaiser Permanente")) "is kaiser permanente good".
Proof.
  assert (H : In ("kaiser", Insurance.company "Kaiser Permanente" "health" "kp.org")
                 Insurance.MAJOR_INSURANCE_COMPANIES).
  { unfold Insurance.MAJOR_INSURANCE_COMPANIES. simpl. tauto. }
  split; [exact H |].
  exact (full_name_check_redundant "is kaiser permanente good"
           ("kaiser", Insurance.company "Kaiser Permanente" "health" "kp.org") H).
Defined.


Lemma Qlt_Qle_bool_false : forall a b : Q, b < a -> Qle_bool a b = false.
Proof.
  intros a b H. destruct (Qle_bool a b) eqn:E; [| reflexivity].
  apply Qle_bool_iff in E. exfalso. lra.
Qed.

Lemma score_each_length : forall (score_fn : string -> option Q) texts,
  (List.length (Insurance.score_each score_fn texts) <= List.length texts)%nat.
Proof.
  intros score_fn. induction texts as [| text rest IH]; simpl; [lia |].
  destruct (score_fn text); simpl; lia.
Qed.

Lemma score_each_scored : forall (score_fn : string -> option Q) texts q,
  In q (Insurance.score_each score_fn texts) -> exists text, score_fn text = Some q.
Proof.
  intros score_fn. induction texts as [| text rest IH]; simpl; intros q H; [contradiction |].
  destruct (score_fn text) as [s |] eqn:E.
  - destruct H as [<- | H]; [exists text; exact E | apply IH, H].
  - apply IH, H.
Qed.

(** X14: the emoji and the category shown in the sentiment section of
    [format_insurance_response] are chosen by different thresholds (0.1
    against 0.05 and 0.15) but never contradict each other when the
    category is the one [analyze_insurance_sentiment] computes: a thumbs-up
    only accompanies "Positive" or "Very Positive", a thumbs-down only
    "Negative" or "Very Negative", the two extreme categories always get
    their thumb and the neutral one the flat dash; a positive or negative
    category gets its thumb exactly beyond 0.1 in magnitude. *)
Theorem emoji_agrees_with_category : forall (py_score : Q) (sample_size : nat)
    (sources : list string) (analysis : option string),
  let sentiment_data := Insurance.SentimentOk
        {| Insurance.s_score := py_score;
           Insurance.s_category := category_label (Insurance.categorize py_score);
           Insurance.s_sample_size := sample_size;
           Insurance.s_sources := sources;
           Insurance.s_analysis := analysis |} in
  exists emoji,
    Insurance.sentiment_section sentiment_data =
      "ðŸŽ¯ **Market Sentiment**" ++ Insurance.nl ++
      "â€¢ Score: " ++ PyNum.format_fixed 2 py_score ++ "/1.0" ++ Insurance.nl ++
      "â€¢ Category: " ++ emoji ++ " " ++
        Py.title (category_label (Insurance.categorize py_score)) ++ Insurance.nl ++
      "â€¢ Sample Size: " ++ PyNum.dec (Z.of_nat sample_size) ++ " sources" ++
        Insurance.nl ++ Insurance.nl /\
    (emoji = thumbs_up \/ emoji = thumbs_down \/ emoji = flat_dash) /\
    (emoji = thumbs_up <-> 1 # 10 < py_score) /\
    (emoji = thumbs_down <-> py_score < - (1 # 10)) /\
    (emoji = thumbs_up -> Insurance.categorize py_score = positive \/
                          Insurance.categorize py_score = very_positive) /\
    (emoji = thumbs_down -> Insurance.categorize py_score = negative \/
                            Insurance.categorize py_score = very_negative) /\
    (Insurance.categorize py_score = very_positive -> emoji = thumbs_up) /\
    (Insurance.categorize py_score = very_negative -> emoji = thumbs_down) /\
    (Insurance.categorize py_score = neutral -> emoji = flat_dash).
Proof.
  intros py_score sample_size sources analysis sentiment_data.
  unfold Insurance.sentiment_section. subst sentiment_data.
  cbn [Insurance.get_score Insurance.get_category Insurance.get_sample_size
       Insurance.s_score Insurance.s_category Insurance.s_sample_size].
  cbv zeta. unfold Insurance.categorize.
  destruct (Qle_bool py_score (1 # 10)) eqn:E1; cbn [negb].
  - destruct (Qle_bool (- (1 # 10)) py_score) eqn:E2; cbn [negb].
    + exists flat_dash. split; [reflexivity |].
      apply Qle_bool_iff in E1. apply Qle_bool_iff in E2.
      split; [tauto |].
      split; [split; [discriminate | intros H; exfalso; lra] |].
      split; [split; [discriminate | intros H; exfalso; lra] |].
      split; [discriminate |]. split; [discriminate |].
      split; [| split; [| reflexivity]].
      * destruct (Qle_bool (15 # 100) py_score) eqn:E3; [| ].
        -- apply Qle_bool_iff in E3. exfalso; lra.
        -- destruct (Qle_bool (5 # 100) py_score); [discriminate |].
           destruct (Qle_bool py_score (- (15 # 100))); [discriminate |].
           destruct (Qle_bool py_score (- (5 # 100))); discriminate.
      * destruct (Qle_bool (15 # 100) py_score); [discriminate |].
        destruct (Qle_bool (5 # 100) py_score); [discriminate |].
        destruct (Qle_bool py_score (- (15 # 100))) eqn:E3.
        -- apply Qle_bool_iff in E3. exfalso; lra.
        -- destruct (Qle_bool py_score (- (5 # 100))); discriminate.
    + exists thumbs_down. split; [reflexivity |].
      apply Qle_bool_iff in E1. apply Qle_bool_false in E2.
      assert (H15 : Qle_bool (15 # 100) py_score = false).
      { apply Qlt_Qle_bool_false. lra. }
      assert (H5 : Qle_bool (5 # 100) py_score = false).
      { apply Qlt_Qle_bool_false. lra. }
      assert (Hn5 : Qle_bool py_score (- (5 # 100)) = true).
      { apply Qle_bool_iff. lra. }
      rewrite H15, H5, Hn5.
      split; [tauto |].
      split; [split; [discriminate | intros H; exfalso; lra] |].
      split; [split; [intros _; exact E2 | reflexivity] |].
      split; [discriminate |].
      split; [intros _; destruct (Qle_bool py_score (- (15 # 100))); tauto |].
      split; [destruct (Qle_bool py_score (- (15 # 100))); discriminate |].
      split; [reflexivity |].
      destruct (Qle_bool py_score (- (15 # 100))); discriminate.
  - exists thumbs_up. split; [reflexivity |].
    apply Qle_bool_false in E1.
    assert (H5 : Qle_bool (5 # 100) py_score = true).
    { apply Qle_bool_iff. lra. }
    rewrite H5.
    split; [tauto |].
    split; [split; [intros _; exact E1 | reflexivity] |].
    split; [split; [discriminate | intros H; exfalso; lra] |].
    split; [intros _; destruct (Qle_bool (15 # 100) py_score); tauto |].
    split; [discriminate |].
    split; [reflexivity |].
    split; destruct (Qle_bool (15 # 100) py_score); discriminate.
Qed.

(** X15: whatever the scorer does, [analyze_insurance_sentiment] returns
    the four sentiment entries (never the error entry) with at most five
    scored samples, a category that is the threshold category of the score,
    and one source label: "Limited data available" with score 0 when no
    sample could be scored, "Insurance News" otherwise; and if every score
    the scorer gives lies between -1 and 1, so does the reported score. *)
Theorem insurance_sentiment_shape : forall (score_fn : string -> option Q)
    (company insurance_type : option string),
  exists r, Insurance.analyze_insurance_sentiment score_fn company insurance_type
            = Insurance.SentimentOk r /\
    (Insurance.s_sample_size r <= 5)%nat /\
    Insurance.s_category r = category_label (Insurance.categorize (Insurance.s_score r)) /\
    (Insurance.s_sample_size r = 0%nat ->
       Insurance.s_score r = 0 /\ Insurance.s_sources r = ["Limited data available"] /\
       Insurance.s_analysis r = None) /\
    (Insurance.s_sample_size r <> 0%nat -> Insurance.s_sources r = ["Insurance News"]) /\
    ((forall text q, score_fn text = Some q -> - (1) <= q /\ q <= 1) ->
       - (1) <= Insurance.s_score r /\ Insurance.s_score r <= 1).
Proof.
  intros score_fn company insurance_type.
  unfold Insurance.analyze_insurance_sentiment. cbv zeta.
  set (texts := [ _ ; _ ; _ ; _ ; _ ]).
  assert (Hlen : (List.length (Insurance.score_each score_fn texts) <= 5)%nat).
  { change 5%nat with (List.length texts). apply score_each_length. }
  assert (Hin : forall q, In q (Insurance.score_each score_fn texts) ->
                exists text, score_fn text = Some q).
  { apply score_each_scored. }
  destruct (Insurance.score_each score_fn texts) as [| s scores] eqn:E.
  - eexists. split; [reflexivity |]. cbn.
    split; [lia |]. split; [reflexivity |].
    split; [intros _; repeat split |].
    split; [intros H; exfalso; apply H; reflexivity |].
    intros _. split; lra.
  - eexists. split; [reflexivity |].
    cbn [Insurance.s_sample_size Insurance.s_category Insurance.s_score
         Insurance.s_sources Insurance.s_analysis].
    split; [exact Hlen |]. split; [reflexivity |].
    split; [intros H; discriminate |]. split; [reflexivity |].
    intros Hb.
    assert (Hm := mean_between (- (1)) 1 (s :: scores)).
    unfold mean in Hm. rewrite <- sum_total in Hm.
    apply Hm; [lra | lra |].
    intros q Hq. destruct (Hin q Hq) as [text Ht]. exact (Hb text q Ht).
Qed.

(* ================================================================== *)
(** * Requests and the start-up log *)
(* ================================================================== *)

Lemma lookup_In_NoDup : forall (A : Type) (d : list (string * A)) k v,
  NoDup (map fst d) -> In (k, v) d -> Insurance.lookup k d = Some v.
Proof.
  intros A d k v. unfold Insurance.lookup.
  induction d as [| [k' v'] d IH]; intros Hnd Hin; [contradiction |].
  simpl in Hnd. inversion Hnd as [| x l Hnotin Hnd' ]; subst.
  cbn [find fst]. destruct (String.eqb k k') eqn:E.
  - apply String.eqb_eq in E. subst k'.
    destruct Hin as [Heq | Hin]; [injection Heq as ->; reflexivity |].
    exfalso. apply Hnotin. change k with (fst (k, v)). apply in_map, Hin.
  - destruct Hin as [Heq | Hin].
    + injection Heq as -> ->. rewrite String.eqb_refl in E. discriminate.
    + apply IH; assumption.
Qed.

Lemma company_keys_NoDup : NoDup (map fst Insurance.MAJOR_INSURANCE_COMPANIES).
Proof.
  unfold Insurance.MAJOR_INSURANCE_COMPANIES. cbn [map fst].
  repeat (constructor; [simpl; intros H;
    repeat (destruct H as [H | H]; [discriminate |]); exact H |]).
  constructor.
Qed.

(** X16: when a company is extracted from a query, the registry lookup made
    by [analyze_insurance_sentiment] finds the very entry the extraction
    stored as company data, so the sample headlines are built on the
    display name shown in the header, and the insurance type extracted from
    the same query has no influence on the sentiment result. *)
Theorem company_query_sentiment : forall (score_fn : string -> option Q)
    (query k : string),
  Insurance.q_company (Insurance.extract_insurance_info_from_query query) = Some k ->
  exists data,
    Insurance.q_company_data (Insurance.extract_insurance_info_from_query query) = Some data /\
    Insurance.lookup k Insurance.MAJOR_INSURANCE_COMPANIES = Some data /\
    (forall insurance_type,
       Insurance.search_terms_of (Some k) insurance_type = Insurance.name data) /\
    (forall insurance_type,
       Insurance.analyze_insurance_sentiment score_fn (Some k) insurance_type =
       Insurance.analyze_insurance_sentiment score_fn (Some k) None).
Proof.
  intros score_fn query k H.
  unfold Insurance.extract_insurance_info_from_query in *.
  cbn [Insurance.q_company Insurance.q_company_data] in *.
  destruct (find _ Insurance.MAJOR_INSURANCE_COMPANIES) as [[key data] |] eqn:E;
    [| discriminate].
  injection H as <-. apply find_some in E as [Hin _].
  pose proof (lookup_In_NoDup _ _ _ _ company_keys_NoDup Hin) as Hl.
  cbn [option_map fst snd].
  assert (Hs : forall insurance_type,
            Insurance.search_terms_of (Some key) insurance_type = Insurance.name data).
  { intros insurance_type. unfold Insurance.search_terms_of. rewrite Hl. reflexivity. }
  exists data. split; [reflexivity |]. split; [exact Hl |]. split; [exact Hs |].
  intros insurance_type. unfold Insurance.analyze_insurance_sentiment.
  rewrite (Hs insurance_type), (Hs None). reflexivity.
Qed.

Lemma company_query_sentiment_witness :
  Insurance.q_company (Insurance.extract_insurance_info_from_query "Humana dental plans")
    = Some "humana" /\
  exists data,
    Insurance.q_company_data (Insurance.extract_insurance_info_from_query "Humana dental plans")
      = Some data /\
    Insurance.lookup "humana" Insurance.MAJOR_INSURANCE_COMPANIES = Some data /\
    (forall insurance_type,
       Insurance.search_terms_of (Some "humana") insurance_type = Insurance.name data) /\
    (forall insurance_type,
       Insurance.analyze_insurance_sentiment unit_score (Some "humana") insurance_type =
       Insurance.analyze_insurance_sentiment unit_score (Some "humana") None).
Proof.
  assert (H : Insurance.q_company
                (Insurance.extract_insurance_info_from_query "Humana dental plans")
              = Some "humana") by (vm_compute; reflexivity).
  split; [exact H |].
  exact (company_query_sentiment unit_score "Humana dental plans" "humana" H).
Defined.

Lemma keys_lower : forall t, In t (keys TOKEN_ID_MAP) -> Py.lower t = t.
Proof.
  intros t H. unfold TOKEN_ID_MAP in H. simpl in H.
  repeat (destruct H as [H | H]; [subst t; reflexivity |]).
  contradiction.
Qed.

Lemma keys_mapped : forall t, In t (keys TOKEN_ID_MAP) ->
  exists id, In (t, id) TOKEN_ID_MAP /\ id <> t.
Proof.
  intros t H. unfold keys in H. apply in_map_iff in H as [[k id] [Hk Hin]].
  cbn [fst] in Hk. subst k. exists id. split; [exact Hin |].
  unfold TOKEN_ID_MAP in Hin. simpl in Hin.
  repeat (destruct Hin as [Hin | Hin]; [injection Hin as <- <-; discriminate |]).
  contradiction.
Qed.

(** X17: for every token the chat handler extracts, [get_crypto_price]
    requests the CoinGecko id the table maps the symbol to: the fallback of
    using the symbol itself as id is never taken, the id differs from the
    symbol, and the id requested does not depend on the case in which the
    symbol is given. *)
Theorem extracted_token_requests_mapped_id : forall query t : string,
  extract_token_from_query query = Some t ->
  In (t, TokenPrice.token_id t) TOKEN_ID_MAP /\
  TokenPrice.token_id t <> t /\
  TokenPrice.token_id (Py.upper t) = TokenPrice.token_id t /\
  TokenPrice.price_url t =
    "https://api.coingecko.com/api/v3/coins/" ++ TokenPrice.token_id t /\
  (forall outlook_of, handle_chat_message outlook_of query = [Outlook t; Send (outlook_of t)]).
Proof.
  intros query t H.
  pose proof (extracted_token_known query t H) as Hk.
  destruct (keys_mapped t Hk) as [id [Hin Hne]].
  assert (Hid : TokenPrice.token_id t = id).
  { unfold TokenPrice.token_id. rewrite (keys_lower t Hk), (lookup_name_In t id Hin).
    reflexivity. }
  unfold TokenPrice.price_url.
  rewrite Hid. split; [exact Hin |]. split; [exact Hne |].
  split; [| split; [reflexivity |]].
  - unfold TokenPrice.token_id. rewrite ContainsFacts.lower_upper.
    rewrite (keys_lower t Hk), (lookup_name_In t id Hin). reflexivity.
  - intros outlook_of. unfold handle_chat_message.
    rewrite H, (extracted_token_nonempty query t H). reflexivity.
Qed.

Lemma extracted_token_requests_mapped_id_witness :
  extract_token_from_query "How is AVAX doing?" = Some "avax" /\
  TokenPrice.price_url "avax" = "https://api.coingecko.com/api/v3/coins/avalanche-2" /\
  In ("avax", TokenPrice.token_id "avax") TOKEN_ID_MAP.
Proof.
  assert (H : extract_token_from_query "How is AVAX doing?" = Some "avax")
    by (vm_compute; reflexivity).
  split; [exact H |]. split; [vm_compute; reflexivity |].
  exact (proj1 (extracted_token_requests_mapped_id "How is AVAX doing?" "avax" H)).
Defined.

Module SliceFacts.

Import TokenPrice.

Lemma take_cons : forall n c s, Py.take (S n) (String c s) = String c (Py.take n s).
Proof. reflexivity. Qed.

Lemma take_nil : forall n, Py.take n "" = "".
Proof. destruct n; reflexivity. Qed.

Lemma take_drop : forall n s, Py.take n s ++ drop n s = s.
Proof.
  induction n as [| n IH]; intros s.
  - destruct s; reflexivity.
  - destruct s as [| c s]; [reflexivity |].
    rewrite take_cons. simpl. rewrite IH. reflexivity.
Qed.

Lemma take_add : forall n m s, Py.take (n + m) s = Py.take n s ++ Py.take m (drop n s).
Proof.
  induction n as [| n IH]; intros m s.
  - simpl. destruct s; reflexivity.
  - destruct s as [| c s].
    + destruct m; reflexivity.
    + change (S n + m)%nat with (S (n + m)). rewrite !take_cons. simpl.
      rewrite IH. reflexivity.
Qed.

Lemma drop_drop : forall n m s, drop m (drop n s) = drop (n + m) s.
Proof.
  induction n as [| n IH]; intros m s; [reflexivity |].
  destruct s as [| c s]; simpl; [destruct m; reflexivity | apply IH].
Qed.

Lemma take_length : forall n s, String.length (Py.take n s) = Nat.min n (String.length s).
Proof.
  induction n as [| n IH]; intros s.
  - destruct s; reflexivity.
  - destruct s as [| c s]; [reflexivity |].
    rewrite take_cons. simpl. rewrite IH. reflexivity.
Qed.

Lemma drop_length : forall n s, String.length (drop n s) = (String.length s - n)%nat.
Proof.
  induction n as [| n IH]; intros s; simpl.
  - lia.
  - destruct s as [| c s]; simpl; [reflexivity | apply IH].
Qed.

Lemma stars_length : forall n, String.length (stars n) = n.
Proof.
  induction n as [| n IH]; simpl; [reflexivity | rewrite IH; reflexivity].
Qed.

End SliceFacts.

(** X18: the masked key written to the log at start-up hides something only
    for keys longer than eight characters.  For a key of at least eight
    characters the mask has the length of the key and shows its first four
    and last four characters around one star per hidden character; for a
    key of at most eight characters no star is written and the whole key
    can be read off the log line: it is the key with some of its leading
    characters repeated. *)
Theorem masked_key_exposure : forall ASI_LLM_KEY : string,
  ((8 <= String.length ASI_LLM_KEY)%nat ->
     String.length (TokenPrice.masked_key ASI_LLM_KEY) = String.length ASI_LLM_KEY /\
     exists first hidden last,
       ASI_LLM_KEY = first ++ hidden ++ last /\
       String.length first = 4%nat /\ String.length last = 4%nat /\
       TokenPrice.masked_key ASI_LLM_KEY =
         first ++ TokenPrice.stars (String.length hidden) ++ last) /\
  ((String.length ASI_LLM_KEY <= 8)%nat ->
     exists front again,
       Py.take 4 ASI_LLM_KEY = front ++ again /\
       ASI_LLM_KEY = Py.take 4 ASI_LLM_KEY ++ TokenPrice.drop 4 ASI_LLM_KEY /\
       TokenPrice.masked_key ASI_LLM_KEY =
         Py.take 4 ASI_LLM_KEY ++ again ++ TokenPrice.drop 4 ASI_LLM_KEY).
Proof.
  intros key. unfold TokenPrice.masked_key, TokenPrice.last_chars.
  set (n := String.length key). split; intros Hn.
  - assert (Hz : Z.to_nat (Z.of_nat n - 8) = (n - 8)%nat) by lia.
    rewrite Hz.
    assert (Hmid : TokenPrice.drop 4 key =
                   Py.take (n - 8) (TokenPrice.drop 4 key) ++ TokenPrice.drop (n - 4) key).
    { rewrite <- (SliceFacts.take_drop (n - 8) (TokenPrice.drop 4 key)) at 1.
      rewrite SliceFacts.drop_drop. replace (4 + (n - 8))%nat with (n - 4)%nat by lia.
      reflexivity. }
    assert (Hlm : String.length (Py.take (n - 8) (TokenPrice.drop 4 key)) = (n - 8)%nat).
    { rewrite SliceFacts.take_length, SliceFacts.drop_length. fold n. lia. }
    split.
    + rewrite !StripFacts.append_length, SliceFacts.take_length, SliceFacts.stars_length,
        SliceFacts.drop_length. fold n. lia.
    + exists (Py.take 4 key), (Py.take (n - 8) (TokenPrice.drop 4 key)),
             (TokenPrice.drop (n - 4) key).
      split; [rewrite <- Hmid; symmetry; apply SliceFacts.take_drop |].
      split; [rewrite SliceFacts.take_length; fold n; lia |].
      split; [rewrite SliceFacts.drop_length; fold n; lia |].
      rewrite Hlm. reflexivity.
  - assert (Hz : Z.to_nat (Z.of_nat n - 8) = 0%nat) by lia.
    rewrite Hz. cbn [TokenPrice.stars]. change ("" ++ ?x) with x.
    exists (Py.take (n - 4) key),
           (Py.take (4 - (n - 4)) (TokenPrice.drop (n - 4) key)).
    split; [| split].
    + rewrite <- SliceFacts.take_add. f_equal. lia.
    + symmetry. apply SliceFacts.take_drop.
    + f_equal.
      rewrite <- (SliceFacts.take_drop (4 - (n - 4)) (TokenPrice.drop (n - 4) key)) at 1.
      rewrite SliceFacts.drop_drop. f_equal. f_equal. lia.
Qed.

Lemma masked_key_exposure_witness :
  (String.length "secret" <= 8)%nat /\
  TokenPrice.masked_key "secret" = "secrcret" /\
  exists front again,
    Py.take 4 "secret" = front ++ again /\
    "secret" = Py.take 4 "secret" ++ TokenPrice.drop 4 "secret" /\
    TokenPrice.masked_key "secret" =
      Py.take 4 "secret" ++ again ++ TokenPrice.drop 4 "secret".
Proof.
  assert (H : (String.length "secret" <= 8)%nat) by (simpl; lia).
  split; [exact H |]. split; [vm_compute; reflexivity |].
  exact (proj2 (masked_key_exposure "secret") H).
Defined.

Lemma round_half_even_below : forall (q : Q) (z : Z),
  inject_Z z - (1 # 2) < q -> q < inject_Z z -> PyNum.round_half_even q = z.
Proof.
  intros [n d] z H1 H2. unfold PyNum.round_half_even. cbn [Qnum Qden].
  unfold Qlt, Qminus, Qplus, Qopp, inject_Z in H1, H2. cbn in H1, H2.
  assert (Hd : (0 < Zpos d)%Z) by lia.
  assert (Hf : (n / Zpos d = z - 1)%Z).
  { symmetry. apply (Z.div_unique n (Zpos d) (z - 1) (n - Zpos d * (z - 1))); nia. }
  assert (Hr : (n mod Zpos d = n - Zpos d * (z - 1))%Z).
  { rewrite Z.mod_eq by lia. rewrite Hf. reflexivity. }
  rewrite Hf, Hr.
  destruct (2 * (n - Zpos d * (z - 1)) <? Zpos d)%Z eqn:E1; [apply Z.ltb_lt in E1; nia |].
  destruct (Zpos d <? 2 * (n - Zpos d * (z - 1)))%Z eqn:E2; [lia |].
  apply Z.ltb_ge in E2. nia.
Qed.

Lemma format_fixed_below : forall (digits : nat) (q : Q) (z : Z),
  0 <= q ->
  inject_Z z - (1 # 2) < q * inject_Z (10 ^ Z.of_nat digits) ->
  q * inject_Z (10 ^ Z.of_nat digits) < inject_Z z ->
  PyNum.format_fixed digits q =
    PyNum.dec (z / 10 ^ Z.of_nat digits) ++
    PyNum.fraction_of digits (PyNum.zfill digits (PyNum.dec (z mod 10 ^ Z.of_nat digits))).
Proof.
  intros digits q z H0 H1 H2. unfold PyNum.format_fixed, PyNum.fixed_digits. cbv zeta.
  assert (Hs : PyNum.sign_of q = "").
  { unfold PyNum.sign_of. apply Qle_bool_iff in H0. rewrite H0. reflexivity. }
  rewrite Hs.
  rewrite (round_half_even_below (Qabs q * inject_Z (10 ^ Z.of_nat digits)) z).
  - reflexivity.
  - rewrite (Qabs_pos q H0). exact H1.
  - rewrite (Qabs_pos q H0). exact H2.
Qed.

(** X19: [format_currency] picks the unit before rounding, so an amount
    just below a band boundary is shown with the mantissa 1000 in the unit
    of the lower band: amounts between 999.995 and 1000 read "$1000.00",
    between 999,950 and one million "$1000.0K", and between 999,995,000 and
    one billion "$1000.00M". *)
Theorem currency_mantissa_overflow : forall value : Q,
  (999995 # 1000 < value -> value < 1000 -> format_currency value = "$1000.00") /\
  (999950 < value -> value < 1000000 -> format_currency value = "$1000.0K") /\
  (999995000 < value -> value < 1000000000 -> format_currency value = "$1000.00M").
Proof.
  intros value. split; [| split]; intros Hlo Hhi; unfold format_currency.
  - rewrite (Qlt_Qle_bool_false 1000000000 value) by lra.
    rewrite (Qlt_Qle_bool_false 1000000 value) by lra.
    rewrite (Qlt_Qle_bool_false 1000 value) by lra.
    rewrite (format_fixed_below 2 value 100000);
      [reflexivity | lra | cbn; unfold inject_Z; lra | cbn; unfold inject_Z; lra].
  - rewrite (Qlt_Qle_bool_false 1000000000 value) by lra.
    rewrite (Qlt_Qle_bool_false 1000000 value) by lra.
    assert (H : Qle_bool 1000 value = true) by (apply Qle_bool_iff; lra).
    rewrite H.
    assert (E : value / 1000 == value * (1 # 1000)) by field.
    rewrite (format_fixed_below 1 (value / 1000) 10000);
      [reflexivity | rewrite E; lra | rewrite E; cbn; unfold inject_Z; lra
      | rewrite E; cbn; unfold inject_Z; lra].
  - rewrite (Qlt_Qle_bool_false 1000000000 value) by lra.
    assert (H : Qle_bool 1000000 value = true) by (apply Qle_bool_iff; lra).
    rewrite H.
    assert (E : value / 1000000 == value * (1 # 1000000)) by field.
    rewrite (format_fixed_below 2 (value / 1000000) 100000);
      [reflexivity | rewrite E; lra | rewrite E; cbn; unfold inject_Z; lra
      | rewrite E; cbn; unfold inject_Z; lra].
Qed.

Lemma currency_mantissa_overflow_witness :
  999950 < 999999 /\ 999999 < 1000000 /\ format_currency 999999 = "$1000.0K".
Proof.
  assert (H1 : 999950 < 999999) by lra.
  assert (H2 : 999999 < 1000000) by lra.
  split; [exact H1 |]. split; [exact H2 |].
  exact (proj1 (proj2 (currency_mantissa_overflow 999999)) H1 H2).
Defined.


(* ================================================================== *)
(** * The health agents *)
(* ================================================================== *)

Module SepFacts.

Import Py.

Lemma lower_app : forall a b, lower (a ++ b) = lower a ++ lower b.
Proof.
  induction a as [| c a IH]; intros b; simpl; [reflexivity | rewrite IH; reflexivity].
Qed.

Lemma contains_app_r : forall k a b, contains k b = true -> contains k (a ++ b) = true.
Proof.
  intros k a b H. apply ContainsFacts.contains_split in H as [x [y E]].
  apply ContainsFacts.contains_split. exists (a ++ x), y.
  rewrite E, NumFacts.append_assoc. reflexivity.
Qed.

Lemma contains_app_l : forall k a b, contains k a = true -> contains k (a ++ b) = true.
Proof.
  intros k a b H. apply ContainsFacts.contains_split in H as [x [y E]].
  apply ContainsFacts.contains_split. exists x, (y ++ b).
  rewrite E, !NumFacts.append_assoc. reflexivity.
Qed.

Lemma contains_empty : forall s, contains "" s = true.
Proof. destruct s; reflexivity. Qed.

Lemma char_not_in_cons : forall c a k,
  contains (String c "") (String a k) = false ->
  a <> c /\ contains (String c "") k = false.
Proof.
  intros c a k H. cbn [contains String.prefix] in H.
  destruct (ascii_dec c a) as [-> | Hne].
  - destruct k; discriminate.
  - simpl in H. split; [congruence | exact H].
Qed.

(** A prefix that avoids the character [c] ends before it. *)
Lemma prefix_sep : forall c k x s,
  contains (String c "") k = false ->
  String.prefix k (x ++ String c s) = true -> String.prefix k x = true.
Proof.
  intros c. induction k as [| a k IH]; intros x s Hc Hp; [destruct x; reflexivity |].
  apply char_not_in_cons in Hc as [Hne Hc].
  destruct x as [| b x]; cbn [append String.prefix] in *.
  - destruct (ascii_dec a c); [contradiction | discriminate].
  - destruct (ascii_dec a b); [| discriminate]. apply (IH x s Hc Hp).
Qed.

Lemma prefix_contains_cons : forall k s, String.prefix k s = true -> contains k s = true.
Proof.
  intros k s H. destruct s; cbn [contains]; rewrite H; reflexivity.
Qed.

(** An occurrence that avoids the character [c] lies on one side of it. *)
Lemma contains_sep : forall c k x s,
  contains (String c "") k = false ->
  contains k (x ++ String c s) = true ->
  contains k x = true \/ contains k s = true.
Proof.
  intros c k x s Hc. induction x as [| b x IH]; intros H.
  - cbn [append contains] in H. apply orb_true_iff in H as [H | H]; [| right; exact H].
    left. apply prefix_contains_cons. apply (prefix_sep c k "" s Hc H).
  - cbn [append contains] in H. apply orb_true_iff in H as [H | H].
    + left. apply prefix_contains_cons. apply (prefix_sep c k (String b x) s Hc H).
    + destruct (IH H) as [Hx | Hs]; [left | right; exact Hs].
      cbn [contains]. rewrite Hx. apply orb_true_r.
Qed.

Lemma keyword_sandwich : forall lead tail k q,
  keyword_fits lead tail k = true ->
  contains k (lead ++ String ":" (String " " (q ++ String "." tail))) = contains k q.
Proof.
  intros lead tail k q Hf. unfold keyword_fits in Hf.
  apply andb_true_iff in Hf as [Hf Htail]. apply andb_true_iff in Hf as [Hf Hlead].
  apply andb_true_iff in Hf as [Hf Hsp]. apply andb_true_iff in Hf as [Hcolon Hdot].
  apply negb_true_iff in Htail, Hlead, Hsp, Hcolon, Hdot.
  destruct (contains k q) eqn:Hq.
  - apply contains_app_r. change (String ":" (String " " (q ++ String "." tail)))
      with (": " ++ (q ++ String "." tail)).
    apply contains_app_r, contains_app_l, Hq.
  - destruct (contains k (lead ++ String ":" (String " " (q ++ String "." tail)))) eqn:E;
      [| reflexivity].
    exfalso. apply (contains_sep ":" k lead _ Hcolon) in E.
    destruct E as [E | E]; [congruence |].
    change (String " " (q ++ String "." tail)) with ((String " " q) ++ String "." tail) in E.
    apply (contains_sep "." k _ tail Hdot) in E.
    destruct E as [E | E]; [| congruence].
    cbn [contains] in E. apply orb_true_iff in E as [E | E]; [| congruence].
    destruct k as [| a k]; [rewrite contains_empty in Hq; discriminate |].
    cbn [String.prefix] in E, Hsp.
    destruct (ascii_dec a " ") as [-> | Hne]; [| discriminate].
    destruct (ascii_dec " " " ") as [_ | Hn]; [| contradiction].
    destruct k; discriminate.
Qed.

Lemma any_in_sandwich : forall lead tail ks q,
  forallb (keyword_fits lead tail) ks = true ->
  any_in ks (lead ++ String ":" (String " " (q ++ String "." tail))) = any_in ks q.
Proof.
  intros lead tail ks q. unfold any_in.
  induction ks as [| k ks IH]; intros H; [reflexivity |].
  cbn [forallb] in H. apply andb_true_iff in H as [Hk Hks].
  cbn [existsb]. rewrite (keyword_sandwich lead tail k q Hk), (IH Hks). reflexivity.
Qed.

End SepFacts.

Lemma collector_summary_emergency : forall query,
  Py.contains "emergency"
    (Py.lower ("[Analyzed] " ++ "[Mock ASI Response] Insight based on your query: " ++
               HealthAgents.Collector.prompting query)) = true.
Proof.
  intros query. unfold HealthAgents.Collector.prompting.
  rewrite !SepFacts.lower_app.
  do 5 apply SepFacts.contains_app_r. reflexivity.
Qed.

(** X20: every query the collector handles ends in the serious-condition
    notice, whatever the symptoms: the collector's own prompt ends with
    "emergency care", the mocked language-model answer echoes the prompt,
    and the analyser passes the answer on unchanged behind "[Analyzed] ", so
    the summary sent to the CLI and to the insurance agent always contains
    the keyword "emergency"; the CLI prints its notice and the insurance
    agent sends its prompt. *)
Theorem symptom_query_always_serious : forall query reply_to : string,
  exists prompt answer summary,
    HealthAgents.Collector.forward_to_asi query =
      [ (HealthAgents.Collector.ASI_AGENT_ID, HealthAgents.ASI1miniRequest prompt) ] /\
    HealthAgents.AsiWrapper.handle_query reply_to prompt =
      [ (reply_to, HealthAgents.ASI1miniResponse answer) ] /\
    HealthAgents.Collector.handle_asi_response answer =
      [ (HealthAgents.Collector.ANALYSER_AGENT_ADDRESS, HealthAgents.ASI1miniResponse answer) ] /\
    HealthAgents.Analyser.analyze_and_respond answer =
      [ (HealthAgents.Analyser.CLI_AGENT_ADDRESS, HealthAgents.SymptomResponse summary);
        (HealthAgents.Analyser.INSURANCE_AGENT_ADDRESS, HealthAgents.SymptomResponse summary) ] /\
    Py.contains "emergency" (Py.lower summary) = true /\
    HealthCli.serious_notice summary <> [] /\
    HealthAgents.Insurer.receive_analysis summary =
      [ (InsuranceAgent.CLI_AGENT_ADDRESS, HealthAgents.SymptomResponse InsuranceAgent.prompt) ].
Proof.
  intros query reply_to.
  eexists. eexists. eexists.
  split; [reflexivity |]. split; [reflexivity |]. split; [reflexivity |].
  split; [reflexivity |].
  match goal with |- Py.contains _ (Py.lower ?s) = true /\ _ => set (summary := s) end.
  assert (Hc : Py.contains "emergency" (Py.lower summary) = true).
  { apply collector_summary_emergency. }
  split; [exact Hc |].
  split.
  - unfold HealthCli.serious_notice.
    assert (Ha : Py.any_in HealthCli.cli_keywords (Py.lower summary) = true).
    { apply PyFacts.any_in_exists. exists "emergency".
      split; [unfold HealthCli.cli_keywords; simpl; tauto | exact Hc]. }
    rewrite Ha. discriminate.
  - unfold HealthAgents.Insurer.receive_analysis, InsuranceAgent.receive_analysis.
    assert (Ha : Py.any_in InsuranceAgent.serious_keywords (Py.lower summary) = true).
    { apply PyFacts.any_in_exists. exists "emergency".
      split; [unfold InsuranceAgent.serious_keywords; simpl; tauto | exact Hc]. }
    rewrite Ha. reflexivity.
Qed.

Lemma medication_summary_lower : forall query,
  Py.lower ("[Analyzed] " ++ "[Mock ASI Response] Insight based on your query: " ++
            HealthAgents.Analyser.prompting query) =
  medication_lead ++ String ":" (String " " (Py.lower query ++ String "." medication_tail)).
Proof.
  intros query. unfold HealthAgents.Analyser.prompting.
  rewrite !SepFacts.lower_app. reflexivity.
Qed.

(** X21: for a query the analyser handles as a medication request, the
    fixed wording around the query contains no serious-condition keyword
    and cannot complete one, so the CLI prints its notice exactly when the
    user's own query contains one of its five keywords (in any case), and
    the insurance agent sends its prompt exactly when the query contains
    one of its seven keywords. *)
Theorem medication_query_serious_iff : forall query reply_to : string,
  exists prompt answer summary,
    HealthAgents.Analyser.forward_to_asi query =
      [ (HealthAgents.Analyser.ASI_AGENT_ID, HealthAgents.ASI1miniRequest prompt) ] /\
    HealthAgents.AsiWrapper.handle_query reply_to prompt =
      [ (reply_to, HealthAgents.ASI1miniResponse answer) ] /\
    HealthAgents.Analyser.analyze_and_respond answer =
      [ (HealthAgents.Analyser.CLI_AGENT_ADDRESS, HealthAgents.SymptomResponse summary);
        (HealthAgents.Analyser.INSURANCE_AGENT_ADDRESS, HealthAgents.SymptomResponse summary) ] /\
    (HealthCli.serious_notice summary <> [] <->
       Py.any_in HealthCli.cli_keywords (Py.lower query) = true) /\
    (HealthAgents.Insurer.receive_analysis summary <> [] <->
       Py.any_in InsuranceAgent.serious_keywords (Py.lower query) = true) /\
    (Py.any_in InsuranceAgent.serious_keywords (Py.lower query) = false ->
       HealthAgents.Insurer.receive_analysis summary = []).
Proof.
  intros query reply_to.
  eexists. eexists. eexists.
  split; [reflexivity |]. split; [reflexivity |]. split; [reflexivity |].
  unfold HealthCli.serious_notice, HealthAgents.Insurer.receive_analysis,
    InsuranceAgent.receive_analysis.
  rewrite medication_summary_lower.
  rewrite (SepFacts.any_in_sandwich medication_lead medication_tail
             HealthCli.cli_keywords (Py.lower query)) by reflexivity.
  rewrite (SepFacts.any_in_sandwich medication_lead medication_tail
             InsuranceAgent.serious_keywords (Py.lower query)) by reflexivity.
  split; [| split].
  - destruct (Py.any_in HealthCli.cli_keywords (Py.lower query));
      split; intros H; try reflexivity; try discriminate.
    exfalso. apply H. reflexivity.
  - destruct (Py.any_in InsuranceAgent.serious_keywords (Py.lower query)); cbn [map];
      split; intros H; try reflexivity; try discriminate.
    exfalso. apply H. reflexivity.
  - intros H. rewrite H. reflexivity.
Qed.

(** X25: at the health CLI, a line that is neither "exit" nor "quit", not
    a number, and mentions none of the five medication words goes to the
    collector, and once the summary produced for it by the collector, the
    mocked ASI wrapper and the analyser is received, the turn always prints
    the serious-condition notice and the insurance question, whatever the
    line says (an empty line included). *)
Theorem symptom_turn_prints_notice : forall (py_int : string -> option Z)
    (typed sender reply_to : string),
  existsb (String.eqb (Py.lower (Py.strip typed))) ["exit"; "quit"] = false ->
  HealthAgents.Cli.isdigit (Py.strip typed) = false ->
  Py.any_in ["medication"; "pill"; "reminder"; "dose"; "tablet"]
            (Py.lower (Py.strip typed)) = false ->
  exists prompt answer summary,
    HealthAgents.Cli.route_query (Py.strip typed) = HealthAgents.Cli.COLLECTOR_AGENT /\
    HealthAgents.Collector.forward_to_asi (Py.strip typed) =
      [ (HealthAgents.Collector.ASI_AGENT_ID, HealthAgents.ASI1miniRequest prompt) ] /\
    HealthAgents.AsiWrapper.handle_query reply_to prompt =
      [ (reply_to, HealthAgents.ASI1miniResponse answer) ] /\
    HealthAgents.Analyser.analyze_and_respond answer =
      [ (HealthAgents.Analyser.CLI_AGENT_ADDRESS, HealthAgents.SymptomResponse summary);
        (HealthAgents.Analyser.INSURANCE_AGENT_ADDRESS, HealthAgents.SymptomResponse summary) ] /\
    HealthAgents.Cli.startup_turn py_int typed
        (Some (HealthAgents.Cli.symptom_response sender summary)) =
      [ HealthAgents.Cli.Send HealthAgents.Cli.COLLECTOR_AGENT
          (HealthAgents.Message (Py.strip typed) None);
        HealthAgents.Cli.Print ("📨 Sent message to " ++ HealthAgents.Cli.COLLECTOR_AGENT ++
                                ". Waiting for response..." ++ HealthAgents.nl);
        HealthAgents.Cli.Print ("📬 Received response from " ++ sender ++ ": " ++ summary ++
                                HealthAgents.nl);
        HealthAgents.Cli.Print "🚨 This condition may be serious.";
        HealthAgents.Cli.Print
          "🛡️ Do you have health insurance? If not, please enter your monthly income." ].
Proof.
  intros py_int typed sender reply_to Hexit Hdigit Hmed.
  eexists. eexists. eexists.
  assert (Hroute : HealthAgents.Cli.route_query (Py.strip typed) =
                   HealthAgents.Cli.COLLECTOR_AGENT).
  { unfold HealthAgents.Cli.route_query. cbv zeta. rewrite Hmed. reflexivity. }
  split; [exact Hroute |].
  split; [reflexivity |]. split; [reflexivity |]. split; [reflexivity |].
  unfold HealthAgents.Cli.startup_turn. cbv zeta.
  rewrite Hexit, Hdigit, Hroute.
  unfold HealthAgents.Cli.symptom_response, HealthCli.serious_notice.
  assert (Ha : Py.any_in HealthCli.cli_keywords
                 (Py.lower ("[Analyzed] " ++ "[Mock ASI Response] Insight based on your query: " ++
                            HealthAgents.Collector.prompting (Py.strip typed))) = true).
  { apply PyFacts.any_in_exists. exists "emergency".
    split; [unfold HealthCli.cli_keywords; simpl; tauto | apply collector_summary_emergency]. }
  rewrite Ha. reflexivity.
Qed.

Lemma symptom_turn_prints_notice_witness :
  exists summary,
    HealthAgents.Cli.startup_turn int_of_digits "I sneezed once" (Some ("symptom", "analyser", summary)) =
      [ HealthAgents.Cli.Send HealthAgents.Cli.COLLECTOR_AGENT
          (HealthAgents.Message "I sneezed once" None);
        HealthAgents.Cli.Print ("📨 Sent message to " ++ HealthAgents.Cli.COLLECTOR_AGENT ++
                                ". Waiting for response..." ++ HealthAgents.nl);
        HealthAgents.Cli.Print ("📬 Received response from " ++ "analyser" ++ ": " ++ summary ++
                                HealthAgents.nl);
        HealthAgents.Cli.Print "🚨 This condition may be serious.";
        HealthAgents.Cli.Print
          "🛡️ Do you have health insurance? If not, please enter your monthly income." ].
Proof.
  destruct (symptom_turn_prints_notice int_of_digits "I sneezed once" "analyser" "collector"
              eq_refl eq_refl eq_refl)
    as (prompt & answer & summary & _ & _ & _ & _ & H).
  exists summary. exact H.
Defined.

Lemma digits_not_command : forall s,
  HealthAgents.Cli.isdigit s = true ->
  existsb (String.eqb (Py.lower s)) ["exit"; "quit"] = false.
Proof.
  intros s H. unfold HealthAgents.Cli.isdigit in H.
  apply andb_true_iff in H as [_ H].
  destruct s as [| c s]; [reflexivity |].
  cbn [HealthAgents.Cli.digits_only] in H. apply andb_true_iff in H as [Hc _].
  destruct c as [[] [] [] [] [] [] [] []]; try discriminate Hc; reflexivity.
Qed.

(** X22: a line of digits typed at the health CLI is never routed to the
    collector or the analyser: its value is sent to the insurance agent,
    whose [suggest_insurance] answers the CLI with exactly three plans (the
    bracket below 20000, below 50000, or above), and [show_insurance]
    prints them numbered 1 to 3 between its header and its two closing
    lines and sets the flag that ends the loop. *)
Theorem income_line_gets_three_plans : forall (py_int : string -> option Z)
    (typed : string) (received : option HealthAgents.Cli.queued) (income : Z),
  HealthAgents.Cli.isdigit (Py.strip typed) = true ->
  py_int (Py.strip typed) = Some income ->
  HealthAgents.Cli.startup_turn py_int typed received =
    [ HealthAgents.Cli.Send HealthAgents.Cli.INSURANCE_AGENT (HealthAgents.InsuranceQuery income);
      HealthAgents.Cli.Print ("📨 Sent income to " ++ HealthAgents.Cli.INSURANCE_AGENT) ] /\
  exists first second third,
    HealthAgents.Insurer.suggest_insurance income =
      [ (InsuranceAgent.CLI_AGENT_ADDRESS,
         HealthAgents.InsuranceOptions [first; second; third]) ] /\
    InsuranceAgent.get_top_insurance_plans income = [first; second; third] /\
    HealthAgents.Cli.show_insurance [first; second; third] =
      ( [ HealthAgents.nl ++ "🏥 Recommended Health Insurance Plans:";
          "1. " ++ first; "2. " ++ second; "3. " ++ third;
          HealthAgents.nl ++ "🛑 Exiting after showing insurance recommendations.";
          "✅ Session completed. Waiting for final messages..." ++ HealthAgents.nl ],
        true ).
Proof.
  intros py_int typed received income Hd Hi. split.
  - unfold HealthAgents.Cli.startup_turn. cbv zeta.
    rewrite (digits_not_command _ Hd), Hd, Hi. reflexivity.
  - unfold HealthAgents.Insurer.suggest_insurance, InsuranceAgent.get_top_insurance_plans.
    destruct (income <? 20000)%Z; [| destruct (income <? 50000)%Z];
      (eexists; eexists; eexists; split; [reflexivity | split; reflexivity]).
Qed.

Lemma income_line_gets_three_plans_witness :
  HealthAgents.Cli.isdigit (Py.strip " 18000 ") = true /\
  int_of_digits (Py.strip " 18000 ") = Some 18000%Z /\
  HealthAgents.Cli.startup_turn int_of_digits " 18000 " None =
    [ HealthAgents.Cli.Send HealthAgents.Cli.INSURANCE_AGENT (HealthAgents.InsuranceQuery 18000);
      HealthAgents.Cli.Print ("📨 Sent income to " ++ HealthAgents.Cli.INSURANCE_AGENT) ].
Proof.
  assert (H1 : HealthAgents.Cli.isdigit (Py.strip " 18000 ") = true) by (vm_compute; reflexivity).
  assert (H2 : int_of_digits (Py.strip " 18000 ") = Some 18000%Z) by (vm_compute; reflexivity).
  split; [exact H1 |]. split; [exact H2 |].
  exact (proj1 (income_line_gets_three_plans int_of_digits " 18000 " None 18000%Z H1 H2)).
Defined.

(* ================================================================== *)
(** * The retry loop around the language model *)
(* ================================================================== *)

Module RetryFacts.

Import AsiCall.

Lemma continues_true : forall st,
  continues st = true -> (retry_count st < 3)%nat /\ falsy (analysis st) = true.
Proof.
  intros st H. unfold continues, max_retries in H.
  apply andb_true_iff in H as [H1 H2]. apply Nat.ltb_lt in H1. split; assumption.
Qed.

Lemma failed_well_formed : forall factor st,
  (factor <= 3)%nat -> continues st = true -> well_formed st ->
  well_formed (failed factor st).
Proof.
  intros factor st Hf Hc (Hp & Hl & Hs). apply continues_true in Hc as [Hr Ha].
  unfold well_formed, progress, failed, max_retries in *.
  cbn [retry_count analysis waits]. rewrite Ha in *.
  destruct (retry_count st) as [| [| [| n]]]; try lia; cbn [Nat.ltb Nat.leb longest] in *.
  - rewrite length_app, list_sum_app. cbn [List.length longest Nat.min] in *.
    change (list_sum [(factor * 1)%nat]) with (factor * 1 + 0)%nat.
    split; [lia |]. split; [lia |]. lia.
  - rewrite length_app, list_sum_app. cbn [List.length longest Nat.min] in *.
    change (list_sum [(factor * 2)%nat]) with (factor * 2 + 0)%nat.
    split; [lia |]. split; [lia |]. lia.
  - cbn [Nat.min] in *. split; [lia |]. split; lia.
Qed.

Lemma attempt_step_well_formed : forall a st,
  continues st = true -> well_formed st -> well_formed (attempt_step a st).
Proof.
  intros a st Hc Hw. destruct a as [content | | |]; cbn [attempt_step];
    try (apply failed_well_formed; [lia | assumption | assumption]).
  destruct Hw as (Hp & Hl & Hs). apply continues_true in Hc as [Hr Ha].
  unfold well_formed, progress in *. cbn [retry_count analysis waits].
  split; [destruct (falsy (Some (Py.strip content))); lia |]. split; assumption.
Qed.

Lemma ask_well_formed : forall outcomes st,
  well_formed st -> well_formed (ask outcomes st).
Proof.
  induction outcomes as [| a rest IH]; intros st Hw; cbn [ask]; [exact Hw |].
  destruct (continues st) eqn:Hc; [| exact Hw].
  apply IH, attempt_step_well_formed; assumption.
Qed.

Lemma initial_well_formed : well_formed initial.
Proof.
  unfold well_formed, progress, initial. cbn. lia.
Qed.

Lemma ask_calls : forall outcomes st,
  (calls (ask outcomes st) + progress st =
   calls st + progress (ask outcomes st) +
   blank_answers (firstn (calls (ask outcomes st) - calls st) outcomes))%nat /\
  (calls st <= calls (ask outcomes st))%nat /\
  (calls (ask outcomes st) <= calls st + List.length outcomes)%nat.
Proof.
  induction outcomes as [| a rest IH]; intros st; cbn [ask].
  - rewrite Nat.sub_diag. cbn. lia.
  - destruct (continues st) eqn:Hc.
    + destruct (IH (attempt_step a st)) as (IH1 & IH2 & IH3).
      apply continues_true in Hc as [Hr Ha].
      assert (Hcalls : calls (attempt_step a st) = S (calls st)).
      { destruct a; reflexivity. }
      rewrite Hcalls in *.
      replace (calls (ask rest (attempt_step a st)) - calls st)%nat
        with (S (calls (ask rest (attempt_step a st)) - S (calls st)))%nat by lia.
      cbn [firstn List.length]. unfold blank_answers in *. cbn [filter].
      split; [| split; lia].
      assert (Hstep : (progress (attempt_step a st) + (if blank_answer a then 1 else 0)
                       = S (progress st))%nat).
      { unfold progress. rewrite Ha.
        destruct a as [content | | |]; cbn [attempt_step failed retry_count analysis blank_answer];
          try (rewrite Ha; lia).
        cbn [falsy]. destruct (String.eqb (Py.strip content) ""); lia. }
      destruct (blank_answer a); cbn [List.length]; lia.
    + rewrite Nat.sub_diag. cbn. lia.
Qed.

Lemma blank_answers_firstn : forall n outcomes,
  (blank_answers (firstn n outcomes) <= blank_answers outcomes)%nat.
Proof.
  unfold blank_answers. induction n as [| n IH]; intros outcomes; [cbn; lia |].
  destruct outcomes as [| a rest]; [cbn; lia |].
  cbn [firstn filter]. specialize (IH rest).
  destruct (blank_answer a); cbn [List.length]; lia.
Qed.

Lemma ask_stops : forall outcomes st,
  (calls (ask outcomes st) < calls st + List.length outcomes)%nat ->
  continues (ask outcomes st) = false.
Proof.
  induction outcomes as [| a rest IH]; intros st H; cbn [ask] in *.
  - cbn in H. lia.
  - destruct (continues st) eqn:Hc; [| exact Hc].
    apply IH.
    assert (Hcalls : calls (attempt_step a st) = S (calls st)) by (destruct a; reflexivity).
    rewrite Hcalls. cbn [List.length] in H. lia.
Qed.

End RetryFacts.

(** X23: however the language-model requests turn out, the retry loop of
    [get_token_outlook] counts at most three failed requests, sleeps at
    most twice and at most nine seconds in all, and makes at most three
    requests beyond those answered with a blank content; when it is left
    with the outcomes not used up, three failures were counted or a
    non-blank analysis was obtained. *)
Theorem llm_retry_bounds : forall outcomes : list AsiCall.attempt,
  (AsiCall.retry_count (AsiCall.ask outcomes AsiCall.initial) <= 3)%nat /\
  (List.length (AsiCall.waits (AsiCall.ask outcomes AsiCall.initial)) <= 2)%nat /\
  (list_sum (AsiCall.waits (AsiCall.ask outcomes AsiCall.initial)) <= 9)%nat /\
  (AsiCall.calls (AsiCall.ask outcomes AsiCall.initial) <= 3 + blank_answers outcomes)%nat /\
  (AsiCall.calls (AsiCall.ask outcomes AsiCall.initial) <= List.length outcomes)%nat /\
  ((AsiCall.calls (AsiCall.ask outcomes AsiCall.initial) < List.length outcomes)%nat ->
     AsiCall.retry_count (AsiCall.ask outcomes AsiCall.initial) = 3%nat \/
     exists text, AsiCall.analysis (AsiCall.ask outcomes AsiCall.initial) = Some text /\
                  text <> "" /\
                  forall fallback,
                    AsiCall.analysis_after fallback (AsiCall.ask outcomes AsiCall.initial) = text).
Proof.
  intros outcomes.
  destruct (RetryFacts.ask_well_formed outcomes AsiCall.initial RetryFacts.initial_well_formed)
    as (Hp & Hl & Hs).
  destruct (RetryFacts.ask_calls outcomes AsiCall.initial) as (Hc & _ & Hn).
  pose proof (RetryFacts.blank_answers_firstn
                (AsiCall.calls (AsiCall.ask outcomes AsiCall.initial) - AsiCall.calls AsiCall.initial)
                outcomes) as Hb.
  set (st := AsiCall.ask outcomes AsiCall.initial) in *.
  unfold progress in *. cbn [AsiCall.initial AsiCall.calls AsiCall.retry_count
    AsiCall.analysis AsiCall.falsy] in Hc, Hn, Hb.
  split; [lia |]. split; [lia |].
  split; [unfold longest in Hs; destruct (AsiCall.retry_count st) as [| [| n]]; lia |].
  split; [destruct (AsiCall.falsy (AsiCall.analysis st)); lia |].
  split; [lia |].
  intros Hleft.
  assert (Hstop : AsiCall.continues st = false).
  { unfold st in *. apply RetryFacts.ask_stops. cbn [AsiCall.initial AsiCall.calls]. lia. }
  unfold AsiCall.continues, AsiCall.max_retries in Hstop.
  apply andb_false_iff in Hstop as [Hr | Ha].
  - left. apply Nat.ltb_ge in Hr. lia.
  - right. unfold AsiCall.analysis_after.
    destruct (AsiCall.analysis st) as [text |]; [| discriminate].
    cbn [AsiCall.falsy] in Ha. exists text. split; [reflexivity |].
    split; [intros ->; discriminate |]. intros fallback. rewrite Ha. reflexivity.
Qed.

(** X24: an answer with status 200 and a blank content is neither counted
    as a retry nor followed by a sleep: after any number of such answers in
    a row the loop still continues, with no retry counted and nothing
    slept, so the bound of three requests does not hold against a server
    that keeps answering blank. *)
Theorem blank_answers_not_counted : forall contents : list string,
  (forall content, In content contents -> Py.strip content = "") ->
  AsiCall.ask (map AsiCall.Answered contents) AsiCall.initial =
    {| AsiCall.retry_count := 0;
       AsiCall.analysis := match contents with [] => None | _ :: _ => Some "" end;
       AsiCall.waits := [];
       AsiCall.calls := List.length contents |} /\
  AsiCall.continues (AsiCall.ask (map AsiCall.Answered contents) AsiCall.initial) = true.
Proof.
  intros contents Hblank.
  assert (Hgen : forall (contents : list string) (a : option string) (n : nat),
            (forall content, In content contents -> Py.strip content = "") ->
            AsiCall.falsy a = true ->
            AsiCall.ask (map AsiCall.Answered contents)
              {| AsiCall.retry_count := 0; AsiCall.analysis := a;
                 AsiCall.waits := []; AsiCall.calls := n |} =
            {| AsiCall.retry_count := 0;
               AsiCall.analysis := match contents with [] => a | _ :: _ => Some "" end;
               AsiCall.waits := [];
               AsiCall.calls := (n + List.length contents)%nat |}).
  { clear. induction contents as [| c rest IH]; intros a n Hb Ha; cbn [map AsiCall.ask].
    - rewrite Nat.add_0_r. reflexivity.
    - unfold AsiCall.continues. cbn [AsiCall.retry_count AsiCall.analysis].
      rewrite Ha. cbn [AsiCall.max_retries Nat.ltb Nat.leb andb AsiCall.attempt_step
                       AsiCall.retry_count AsiCall.waits AsiCall.calls].
      rewrite (Hb c (or_introl eq_refl)).
      rewrite (IH (Some "") (S n) (fun x Hx => Hb x (or_intror Hx)) eq_refl).
      cbn [List.length]. replace (S n + List.length rest)%nat with (n + S (List.length rest))%nat by lia.
      destruct rest; reflexivity. }
  unfold AsiCall.initial.
  rewrite (Hgen contents None 0%nat Hblank eq_refl). cbn [Nat.add].
  split; [reflexivity |].
  unfold AsiCall.continues. cbn [AsiCall.retry_count AsiCall.analysis].
  destruct contents; reflexivity.
Qed.

Lemma blank_answers_not_counted_witness :
  AsiCall.ask (map AsiCall.Answered [""; "  "; ""; " "; ""]) AsiCall.initial =
    {| AsiCall.retry_count := 0; AsiCall.analysis := Some "";
       AsiCall.waits := []; AsiCall.calls := 5 |} /\
  AsiCall.continues (AsiCall.ask (map AsiCall.Answered [""; "  "; ""; " "; ""]) AsiCall.initial)
    = true.
Proof.
  apply (blank_answers_not_counted [""; "  "; ""; " "; ""]).
  intros content H. simpl in H.
  repeat (destruct H as [H | H]; [subst content; reflexivity |]). contradiction.
Defined.

(* ================================================================== *)
(** * The insurance analysis *)
(* ================================================================== *)

Lemma search_terms_company : forall k data insurance_type,
  Insurance.lookup k Insurance.MAJOR_INSURANCE_COMPANIES = Some data ->
  Insurance.search_terms_of (Some k) insurance_type = Insurance.name data.
Proof.
  intros k data insurance_type H. unfold Insurance.search_terms_of. rewrite H. reflexivity.
Qed.

Lemma extracted_company_entry : forall query k,
  Insurance.q_company (Insurance.extract_insurance_info_from_query query) = Some k ->
  exists data,
    Insurance.q_company_data (Insurance.extract_insurance_info_from_query query) = Some data /\
    Insurance.lookup k Insurance.MAJOR_INSURANCE_COMPANIES = Some data.
Proof.
  intros query k H. unfold Insurance.extract_insurance_info_from_query in *.
  cbn [Insurance.q_company Insurance.q_company_data] in *.
  destruct (find _ Insurance.MAJOR_INSURANCE_COMPANIES) as [[key data] |] eqn:E;
    [| discriminate].
  injection H as <-. apply find_some in E as [Hin _].
  exists data. split; [reflexivity |].
  apply (lookup_In_NoDup _ _ _ _ company_keys_NoDup Hin).
Qed.

Section AnalysisFacts.

Variable py_float : string -> option Q.
Variable float_error : string -> string.
Variable float_str : Q -> string.
Variable score_fn : string -> option Q.
Variable now : Clock.datetime.
Variable get_insurance_market_data : string -> Insurance.MarketData.
Variable ASI_LLM_KEY : string.
Variable asi_post : string -> option string.

Lemma company_analysis_ignores_type : forall query_info k data t,
  Insurance.q_company query_info = Some k ->
  Insurance.q_company_data query_info = Some data ->
  Insurance.lookup k Insurance.MAJOR_INSURANCE_COMPANIES = Some data ->
  InsuranceAnalysis.get_insurance_analysis py_float float_error float_str score_fn now
    get_insurance_market_data ASI_LLM_KEY asi_post (with_insurance_type t query_info) =
  InsuranceAnalysis.get_insurance_analysis py_float float_error float_str score_fn now
    get_insurance_market_data ASI_LLM_KEY asi_post query_info.
Proof.
  intros query_info k data t Hk Hd Hl.
  unfold InsuranceAnalysis.get_insurance_analysis. cbv zeta.
  unfold InsuranceAnalysis.market_data_of.
  cbn [with_insurance_type Insurance.q_company Insurance.q_insurance_type].
  rewrite Hk.
  assert (Hs : Insurance.analyze_insurance_sentiment score_fn (Some k) t =
               Insurance.analyze_insurance_sentiment score_fn (Some k)
                 (Insurance.q_insurance_type query_info)).
  { unfold Insurance.analyze_insurance_sentiment.
    rewrite (search_terms_company k data t Hl),
            (search_terms_company k data (Insurance.q_insurance_type query_info) Hl).
    reflexivity. }
  rewrite Hs.
  unfold InsuranceAnalysis.analysis_of, InsuranceAnalysis.generate_fallback_insurance_analysis,
    InsuranceAnalysis.prompt_of, InsuranceAnalysis.company_info,
    Insurance.format_insurance_response, Insurance.header_of, Insurance.learn_more.
  cbn [with_insurance_type Insurance.q_company_data Insurance.q_specific_terms].
  rewrite Hd. reflexivity.
Qed.

End AnalysisFacts.

(** X26: for a query that names a company, the reply of
    [get_insurance_analysis] does not depend on the insurance type found in
    the query: the header, the sentiment samples, the prompt sent to the
    language model, the fallback analysis and the closing line are all
    built from the company alone. *)
Theorem company_reply_ignores_type : forall (py_float : string -> option Q)
    (float_error : string -> string) (float_str : Q -> string)
    (score_fn : string -> option Q) (now : Clock.datetime)
    (get_insurance_market_data : string -> Insurance.MarketData)
    (ASI_LLM_KEY : string) (asi_post : string -> option string)
    (query k : string) (t : option string),
  Insurance.q_company (Insurance.extract_insurance_info_from_query query) = Some k ->
  InsuranceAnalysis.get_insurance_analysis py_float float_error float_str score_fn now
    get_insurance_market_data ASI_LLM_KEY asi_post
    (with_insurance_type t (Insurance.extract_insurance_info_from_query query)) =
  InsuranceAnalysis.get_insurance_analysis py_float float_error float_str score_fn now
    get_insurance_market_data ASI_LLM_KEY asi_post
    (Insurance.extract_insurance_info_from_query query).
Proof.
  intros py_float float_error float_str score_fn now fetch key asi_post query k t H.
  destruct (extracted_company_entry query k H) as [data [Hd Hl]].
  apply (company_analysis_ignores_type py_float float_error float_str score_fn now fetch key
           asi_post _ k data t H Hd Hl).
Qed.

Lemma company_reply_ignores_type_witness :
  Insurance.q_company (Insurance.extract_insurance_info_from_query "Humana dental plans")
    = Some "humana" /\
  Insurance.q_insurance_type (Insurance.extract_insurance_info_from_query "Humana dental plans")
    = Some "dental" /\
  InsuranceAnalysis.get_insurance_analysis (fun _ => Some 0) (fun s => s) (fun _ => "0.0")
    unit_score morning (fun _ => Insurance.MarketError "No market data available") ""
    (fun _ => None)
    (with_insurance_type None
       (Insurance.extract_insurance_info_from_query "Humana dental plans")) =
  InsuranceAnalysis.get_insurance_analysis (fun _ => Some 0) (fun s => s) (fun _ => "0.0")
    unit_score morning (fun _ => Insurance.MarketError "No market data available") ""
    (fun _ => None)
    (Insurance.extract_insurance_info_from_query "Humana dental plans").
Proof.
  assert (H : Insurance.q_company
                (Insurance.extract_insurance_info_from_query "Humana dental plans")
              = Some "humana") by (vm_compute; reflexivity).
  split; [exact H |]. split; [vm_compute; reflexivity |].
  exact (company_reply_ignores_type (fun _ => Some 0) (fun s => s) (fun _ => "0.0")
           unit_score morning (fun _ => Insurance.MarketError "No market data available") ""
           (fun _ => None) "Humana dental plans" "humana" None H).
Defined.

(** X27: [get_insurance_analysis] fetches market data only for the nine
    companies with a stock symbol, and its reply is the error text exactly
    in the case that a quote was fetched whose change cannot be read by
    [float]: then the reply is "Error generating insurance analysis: "
    followed by the text of that exception, whether or not the language
    model answered; in every other case the reply is the formatted
    response built around the analysis text. *)
Theorem analysis_error_cases : forall (py_float : string -> option Q)
    (float_error : string -> string) (float_str : Q -> string)
    (score_fn : string -> option Q) (now : Clock.datetime)
    (get_insurance_market_data : string -> Insurance.MarketData)
    (ASI_LLM_KEY : string) (asi_post : string -> option string)
    (query_info : Insurance.QueryInfo),
  let market_data := InsuranceAnalysis.market_data_of get_insurance_market_data query_info in
  let sentiment_data :=
    Insurance.analyze_insurance_sentiment score_fn (Insurance.q_company query_info)
      (Insurance.q_insurance_type query_info) in
  let reply :=
    InsuranceAnalysis.get_insurance_analysis py_float float_error float_str score_fn now
      get_insurance_market_data ASI_LLM_KEY asi_post query_info in
  (market_data <> None ->
     exists k symbol, Insurance.q_company query_info = Some k /\
       In (k, symbol) InsuranceAnalysis.INSURANCE_STOCK_SYMBOLS /\
       market_data = Some (get_insurance_market_data k)) /\
  (forall q, market_data = Some (Insurance.MarketQuote q) ->
     py_float (Py.remove_char "%" (Insurance.change_percent q)) = None ->
     reply = "Error generating insurance analysis: " ++
             float_error (Py.remove_char "%" (Insurance.change_percent q))) /\
  ((forall q, market_data = Some (Insurance.MarketQuote q) ->
      py_float (Py.remove_char "%" (Insurance.change_percent q)) <> None) ->
     exists analysis response,
       InsuranceAnalysis.analysis_of py_float float_str ASI_LLM_KEY asi_post
         query_info market_data sentiment_data = inl analysis /\
       Insurance.format_insurance_response py_float now query_info market_data
         sentiment_data analysis = Some response /\
       reply = response).
Proof.
  intros py_float float_error float_str score_fn now fetch key asi_post query_info
         market_data sentiment_data reply.
  split; [| split].
  - intros Hm. unfold market_data, InsuranceAnalysis.market_data_of in *.
    destruct (Insurance.q_company query_info) as [k |]; [| contradiction].
    destruct (negb (String.eqb k "") &&
              InsuranceAnalysis.among k (map fst InsuranceAnalysis.INSURANCE_STOCK_SYMBOLS))
      eqn:E; [| contradiction].
    apply andb_true_iff in E as [_ E]. unfold InsuranceAnalysis.among in E.
    apply existsb_exists in E as [x [Hin Heq]]. apply String.eqb_eq in Heq. subst x.
    apply in_map_iff in Hin as [[k' symbol] [Hk Hin]]. cbn [fst] in Hk. subst k'.
    exists k, symbol. split; [reflexivity |]. split; [exact Hin | reflexivity].
  - intros q Hq Hf. unfold reply, InsuranceAnalysis.get_insurance_analysis. cbv zeta.
    fold market_data. fold sentiment_data. rewrite Hq.
    assert (Hfb : InsuranceAnalysis.generate_fallback_insurance_analysis py_float float_str
                    query_info (Some (Insurance.MarketQuote q)) sentiment_data =
                  inr (Py.remove_char "%" (Insurance.change_percent q)) \/
                  exists a, InsuranceAnalysis.generate_fallback_insurance_analysis py_float
                    float_str query_info (Some (Insurance.MarketQuote q)) sentiment_data = inl a).
    { unfold InsuranceAnalysis.generate_fallback_insurance_analysis,
        InsuranceAnalysis.stock_remark. cbv zeta. rewrite Hf.
      destruct (Insurance.q_company_data query_info); [left; reflexivity |].
      destruct (Insurance.falsy (Insurance.q_insurance_type query_info));
        right; eexists; reflexivity. }
    assert (Hfmt : forall analysis,
              Insurance.format_insurance_response py_float now query_info
                (Some (Insurance.MarketQuote q)) sentiment_data analysis = None).
    { intros analysis. unfold Insurance.format_insurance_response, Insurance.market_section.
      rewrite Hf. reflexivity. }
    unfold InsuranceAnalysis.analysis_of. cbv zeta.
    destruct (String.eqb key "").
    + destruct Hfb as [-> | [a ->]]; [reflexivity | rewrite Hfmt; reflexivity].
    + destruct (InsuranceAnalysis.prompt_of query_info (Some (Insurance.MarketQuote q))
                  sentiment_data) as [prompt |].
      * destruct (asi_post prompt) as [content |]; [rewrite Hfmt; reflexivity |].
        destruct Hfb as [-> | [a ->]]; [reflexivity | rewrite Hfmt; reflexivity].
      * destruct Hfb as [-> | [a ->]]; [reflexivity | rewrite Hfmt; reflexivity].
  - intros Hok. unfold reply, InsuranceAnalysis.get_insurance_analysis. cbv zeta.
    fold market_data. fold sentiment_data.
    assert (Hstock : exists stock, InsuranceAnalysis.stock_remark py_float float_str market_data
                                   = inl stock).
    { unfold InsuranceAnalysis.stock_remark.
      destruct market_data as [[q | m] |]; try (eexists; reflexivity).
      cbv zeta. specialize (Hok q eq_refl).
      destruct (py_float (Py.remove_char "%" (Insurance.change_percent q)));
        [eexists; reflexivity | contradiction]. }
    assert (Hfb : exists a, InsuranceAnalysis.generate_fallback_insurance_analysis py_float
                    float_str query_info market_data sentiment_data = inl a).
    { unfold InsuranceAnalysis.generate_fallback_insurance_analysis. cbv zeta.
      destruct Hstock as [stock ->].
      destruct (Insurance.q_company_data query_info); [eexists; reflexivity |].
      destruct (Insurance.falsy (Insurance.q_insurance_type query_info));
        eexists; reflexivity. }
    assert (Han : exists a, InsuranceAnalysis.analysis_of py_float float_str key asi_post
                    query_info market_data sentiment_data = inl a).
    { unfold InsuranceAnalysis.analysis_of. cbv zeta. destruct Hfb as [a ->].
      destruct (String.eqb key ""); [eexists; reflexivity |].
      destruct (InsuranceAnalysis.prompt_of query_info market_data sentiment_data)
        as [prompt |]; [| eexists; reflexivity].
      destruct (asi_post prompt); eexists; reflexivity. }
    destruct Han as [a Ha]. rewrite Ha.
    assert (Hfmt : exists response,
              Insurance.format_insurance_response py_float now query_info market_data
                sentiment_data a = Some response).
    { unfold Insurance.format_insurance_response, Insurance.market_section.
      destruct market_data as [[q | m] |]; try (eexists; reflexivity).
      specialize (Hok q eq_refl).
      destruct (py_float (Py.remove_char "%" (Insurance.change_percent q)));
        [eexists; reflexivity | contradiction]. }
    destruct Hfmt as [response Hr]. rewrite Hr.
    exists a, response. split; [reflexivity |]. split; [exact Hr | reflexivity].
Qed.

Lemma analysis_error_cases_witness :
  InsuranceAnalysis.market_data_of (fun _ => Insurance.MarketQuote broken_quote)
    (Insurance.extract_insurance_info_from_query "Cigna copay?")
    = Some (Insurance.MarketQuote broken_quote) /\
  InsuranceAnalysis.get_insurance_analysis (fun _ => None)
    (fun s => "could not convert string to float: '" ++ s ++ "'") (fun _ => "0.0")
    unit_score morning (fun _ => Insurance.MarketQuote broken_quote) "" (fun _ => None)
    (Insurance.extract_insurance_info_from_query "Cigna copay?") =
  "Error generating insurance analysis: could not convert string to float: 'n/a'".
Proof.
  assert (H : InsuranceAnalysis.market_data_of (fun _ => Insurance.MarketQuote broken_quote)
                (Insurance.extract_insurance_info_from_query "Cigna copay?")
              = Some (Insurance.MarketQuote broken_quote)) by (vm_compute; reflexivity).
  split; [exact H |].
  exact (proj1 (proj2 (analysis_error_cases (fun _ => None)
           (fun s => "could not convert string to float: '" ++ s ++ "'") (fun _ => "0.0")
           unit_score morning (fun _ => Insurance.MarketQuote broken_quote) "" (fun _ => None)
           (Insurance.extract_insurance_info_from_query "Cigna copay?")))
         broken_quote H eq_refl).
Defined.

Lemma keyword_checks_differ : forall response : string,
  (InsuranceAgent.receive_analysis response
     = [(InsuranceAgent.CLI_AGENT_ADDRESS, InsuranceAgent.prompt)] /\
   HealthCli.serious_notice response = []) <->
  (Py.contains "shortness of breath" (Py.lower response) = true /\
   Py.any_in HealthCli.cli_keywords (Py.lower response) = false).
Proof.
  intros response. rewrite receive_analysis_prompts.
  unfold HealthCli.serious_notice.
  destruct (Py.any_in HealthCli.cli_keywords (Py.lower response)) eqn:Hcli.
  - split; intros [_ H]; discriminate.
  - split.
    + intros [H _]. split; [| reflexivity].
      apply PyFacts.any_in_exists in H as [k [Hin Hk]].
      assert (Hno : forall k', In k' HealthCli.cli_keywords ->
                               Py.contains k' (Py.lower response) = false).
      { intros k' Hin'. destruct (Py.contains k' (Py.lower response)) eqn:E; [| reflexivity].
        assert (Py.any_in HealthCli.cli_keywords (Py.lower response) = true)
          by (apply PyFacts.any_in_exists; exists k'; split; assumption).
        congruence. }
      unfold InsuranceAgent.serious_keywords in Hin. simpl in Hin.
      destruct Hin as [<- | [<- | [<- | [<- | [<- | [<- | [<- | []]]]]]]];
        try exact Hk;
        try (rewrite Hno in Hk; [discriminate | unfold HealthCli.cli_keywords; simpl; tauto]).
      assert (Hs : Py.contains "serious" (Py.lower response) = true).
      { apply (ContainsFacts.contains_trans "serious" "this condition may be serious");
          [reflexivity | exact Hk]. }
      rewrite Hno in Hs; [discriminate | unfold HealthCli.cli_keywords; simpl; tauto].
    + intros [H _]. split; [| reflexivity].
      apply PyFacts.any_in_exists. exists "shortness of breath".
      split; [unfold InsuranceAgent.serious_keywords; simpl; tauto | exact H].
Qed.

(** C8: the claim holds of [receive_analysis], but not of the check in
    [startup] of the command-line front end, whose list lacks
    "shortness of breath".  On the summary the analyser sends for the
    request "Which pill helps with shortness of breath?", which contains
    that keyword and none of the front end's five, the insurance agent
    sends its prompt while the front end prints nothing. *)
Theorem shortness_of_breath_unnoticed :
  HealthAgents.Cli.route_query breathless_query = HealthAgents.Cli.ANALYSER_AGENT /\
  HealthAgents.Analyser.analyze_and_respond
    ("[Mock ASI Response] Insight based on your query: " ++
     HealthAgents.Analyser.prompting breathless_query) =
    [ (HealthAgents.Analyser.CLI_AGENT_ADDRESS, HealthAgents.SymptomResponse breathless_summary);
      (HealthAgents.Analyser.INSURANCE_AGENT_ADDRESS,
       HealthAgents.SymptomResponse breathless_summary) ] /\
  In "shortness of breath" InsuranceAgent.serious_keywords /\
  Py.contains "shortness of breath" (Py.lower breathless_summary) = true /\
  InsuranceAgent.receive_analysis breathless_summary
    = [(InsuranceAgent.CLI_AGENT_ADDRESS, InsuranceAgent.prompt)] /\
  Py.any_in HealthCli.cli_keywords (Py.lower breathless_summary) = false /\
  HealthCli.serious_notice breathless_summary = [].
Proof.
  split; [vm_compute; reflexivity |]. split; [reflexivity |].
  split; [unfold InsuranceAgent.serious_keywords; simpl; tauto |].
  split; [vm_compute; reflexivity |]. split; [vm_compute; reflexivity |].
  split; vm_compute; reflexivity.
Qed.
